(** * UserAuth-API: the password-reset token lifecycle

    A shallow embedding of [services/password_reset_service.py] and of the
    part of [services/email_service.py] it calls, over the table created by
    [migrations/create_password_reset_tokens.py].

    - A Python [str] is a [string]; one character of the model stands for one
      code point, so [String.length] is Python's [len].
    - A [datetime] is a [Z]: microseconds of the UTC clock.  The service
      stores [expires_at] as [isoformat()] text; that text is fixed-width and
      zero-padded, so SQLite's text comparison in [cleanup_expired_tokens]
      orders it as [_validate_reset_token] orders the parsed values.  The
      clock is taken to be more than one hour before [datetime.max].
    - A table is the list of its rows, in insertion order; a row comes back
      from a query as it was stored.
    - A method is a computation in the monad [M]: it reads the environment
      of the call (clock, random source, configuration, which collaborator
      calls raise), threads the world (database, mail, security log) and
      either returns or raises, as the Python does. *)

From Stdlib Require Import ZArith List String Ascii Bool Lia.
Import ListNotations.

Local Open Scope string_scope.
Local Open Scope list_scope.
Local Open Scope Z_scope.

(* ================================================================== *)
(** ** The database *)

(** A row of [password_reset_tokens] (the [CREATE TABLE] of the migration):
    [id INTEGER PRIMARY KEY AUTOINCREMENT], [user_id INTEGER NOT NULL],
    [token TEXT NOT NULL UNIQUE], [expires_at TIMESTAMP NOT NULL],
    [used BOOLEAN DEFAULT FALSE], [created_at TIMESTAMP DEFAULT
    CURRENT_TIMESTAMP]. *)
Record TokenRow : Type := mkTokenRow {
  prt_id : Z;
  prt_user_id : Z;
  prt_token : string;
  prt_expires_at : Z;
  prt_used : bool;
  prt_created_at : Z
}.

(** Modelled from the spec: a row of [users], the table behind the User
    Directory and the Credential Store ([models/user.py] and the migration
    that creates [users] are not part of the sources).  The service reads
    [id], [name], [email] and writes [password]. *)
Record UserRow : Type := mkUserRow {
  u_id : Z;
  u_name : string;
  u_email : string;
  u_password : string
}.

Record Database : Type := mkDatabase {
  password_reset_tokens : list TokenRow;
  users : list UserRow;
  (** the AUTOINCREMENT counter of [password_reset_tokens] *)
  sqlite_sequence : Z
}.

Definition with_tokens (rows : list TokenRow) (d : Database) : Database :=
  mkDatabase rows (users d) (sqlite_sequence d).

Definition with_users (rows : list UserRow) (d : Database) : Database :=
  mkDatabase (password_reset_tokens d) rows (sqlite_sequence d).

(** The statements the service passes to [Database.execute_query]; the
    arguments are the values bound to the [?] placeholders, in order. *)
Inductive Statement : Type :=
| (** [DELETE FROM password_reset_tokens WHERE user_id = ?] *)
  DeleteTokensOfUser (user_id : Z)
| (** [INSERT INTO password_reset_tokens (user_id, token, expires_at, used)
       VALUES (?, ?, ?, ?)] *)
  InsertToken (user_id : Z) (token : string) (expires_at : Z) (used : bool)
| (** [UPDATE users SET password = ? WHERE id = ?] *)
  UpdateUserPassword (hashed_password : string) (user_id : Z)
| (** [UPDATE password_reset_tokens SET used = ? WHERE token = ?] *)
  UpdateTokenUsed (used : bool) (token : string)
| (** [DELETE FROM password_reset_tokens WHERE expires_at < ? OR used = ?] *)
  DeleteExpiredOrUsed (current_time : Z) (used : bool).

(** The row of the join in [_validate_reset_token]:
    [SELECT prt.user_id, prt.expires_at, prt.used, u.name, u.email]. *)
Record TokenUserRow : Type := mkTokenUserRow {
  r_user_id : Z;
  r_expires_at : Z;
  r_used : bool;
  r_name : string;
  r_email : string
}.

(** The queries passed to [Database.execute_one], indexed by the shape of
    the row they return. *)
Inductive Query : Type -> Type :=
| (** [SELECT ... FROM password_reset_tokens prt JOIN users u
       ON prt.user_id = u.id WHERE prt.token = ?] *)
  SelectTokenJoinUser (token : string) : Query TokenUserRow
| (** [SELECT COUNT( * ) as count FROM password_reset_tokens
       WHERE expires_at < ? OR used = ?] *)
  CountExpiredOrUsed (current_time : Z) (used : bool) : Query Z
| (** the lookup behind [User.find_by_email] *)
  SelectUserByEmail (email : string) : Query UserRow.

(** The [WHERE] clause shared by the count and the delete of the sweeper. *)
Definition expired_or_used (current_time : Z) (used : bool) (r : TokenRow) : bool :=
  (prt_expires_at r <? current_time) || Bool.eqb (prt_used r) used.

Definition set_used (used : bool) (r : TokenRow) : TokenRow :=
  mkTokenRow (prt_id r) (prt_user_id r) (prt_token r) (prt_expires_at r)
             used (prt_created_at r).

Definition set_password (hashed_password : string) (u : UserRow) : UserRow :=
  mkUserRow (u_id u) (u_name u) (u_email u) hashed_password.

Definition has_token (token : string) (r : TokenRow) : bool :=
  String.eqb (prt_token r) token.

(** SQLite's [CURRENT_TIMESTAMP] has a resolution of one second. *)
Definition CURRENT_TIMESTAMP (clock : Z) : Z := clock / 1000000 * 1000000.

(** The effect of a statement on the database, or the message of the error
    it raises.  The only constraint a statement of the service can violate
    is [token TEXT NOT NULL UNIQUE]. *)
Definition exec_statement (clock : Z) (s : Statement) (d : Database)
  : string + Database :=
  match s with
  | DeleteTokensOfUser user_id =>
      inr (with_tokens
             (filter (fun r => negb (prt_user_id r =? user_id))
                     (password_reset_tokens d)) d)
  | InsertToken user_id token expires_at used =>
      if existsb (has_token token) (password_reset_tokens d)
      then inl "UNIQUE constraint failed: password_reset_tokens.token"
      else
        let rowid := sqlite_sequence d + 1 in
        inr (mkDatabase
               (password_reset_tokens d ++
                  [mkTokenRow rowid user_id token expires_at used
                              (CURRENT_TIMESTAMP clock)])
               (users d) rowid)
  | UpdateUserPassword hashed_password user_id =>
      inr (with_users
             (map (fun u => if u_id u =? user_id
                            then set_password hashed_password u else u)
                  (users d)) d)
  | UpdateTokenUsed used token =>
      inr (with_tokens
             (map (fun r => if has_token token r then set_used used r else r)
                  (password_reset_tokens d)) d)
  | DeleteExpiredOrUsed current_time used =>
      inr (with_tokens
             (filter (fun r => negb (expired_or_used current_time used r))
                     (password_reset_tokens d)) d)
  end.

(** The rows of the join for one token: every token row with that token,
    paired with every user row whose [id] is its [user_id]. *)
Definition join_token_user (token : string) (d : Database) : list TokenUserRow :=
  flat_map
    (fun r =>
       map (fun u => mkTokenUserRow (prt_user_id r) (prt_expires_at r)
                                    (prt_used r) (u_name u) (u_email u))
           (filter (fun u => prt_user_id r =? u_id u) (users d)))
    (filter (has_token token) (password_reset_tokens d)).

(** The first row of a query, as [execute_one] returns it, or [None]. *)
Definition run_query {R : Type} (q : Query R) (d : Database) : option R :=
  match q in Query R return option R with
  | SelectTokenJoinUser token => hd_error (join_token_user token d)
  | CountExpiredOrUsed current_time used =>
      Some (Z.of_nat
              (List.length (filter (expired_or_used current_time used)
                                   (password_reset_tokens d))))
  | SelectUserByEmail email =>
      find (fun u => String.eqb (u_email u) email) (users d)
  end.

(* ================================================================== *)
(** ** The world around the service *)

(** A message handed to the mail transport.  The templates of
    [email_service.py] are kept as the values they interpolate. *)
Record Email : Type := mkEmail {
  to_email : string;
  subject : string;
  user_name : string;
  (** the [reset_url] of a reset mail; [None] for a confirmation *)
  reset_url : option string
}.

(** Modelled from the spec: the calls on the security logger
    ([utils/security_logger.py] is not part of the sources), kept as the
    record of each call and its arguments. *)
Inductive LogEntry : Type :=
| log_password_reset_request_entry (email : string) (success : bool) (reason : option string)
| log_password_reset_completion_entry (email : string) (success : bool) (reason : option string)
| log_email_sent_entry (to : string) (method : string)
| log_email_error_entry (to : string) (error : string).

Record World : Type := mkWorld {
  db : Database;
  outbox : list Email;
  security_log : list LogEntry
}.

Definition with_db (d : Database) (w : World) : World :=
  mkWorld d (outbox w) (security_log w).

(** What one call of a method finds around it. *)
Record Env : Type := mkEnv {
  (** [datetime.utcnow()] *)
  utcnow : Z;
  (** the system random source behind [secrets]: its k-th draw *)
  entropy : nat -> nat;
  (** [werkzeug.security.generate_password_hash], with the salt it draws *)
  generate_password_hash : string -> string;
  (** [EmailService.use_console] *)
  use_console : bool;
  (** [os.getenv('APP_BASE_URL', 'http://localhost:5000')] *)
  app_base_url : string;
  (** the statements, queries and SMTP sessions that raise, with [str(e)] *)
  statement_raises : Statement -> option string;
  query_raises : forall R : Type, Query R -> option string;
  smtp_raises : option string
}.

(* ================================================================== *)
(** ** Computations that return or raise *)

Inductive Outcome (A : Type) : Type :=
| Returns (a : A) (w : World)
| Raises (e : string) (w : World).

Arguments Returns {A} a w.
Arguments Raises {A} e w.

Definition M (A : Type) : Type := Env -> World -> Outcome A.

Definition ret {A : Type} (a : A) : M A := fun _ w => Returns a w.

Definition bind {A B : Type} (m : M A) (k : A -> M B) : M B :=
  fun env w =>
    match m env w with
    | Returns a w' => k a env w'
    | Raises e w' => Raises e w'
    end.

(** [try: body except Exception as e: handler] *)
Definition try_except {A : Type} (body : M A) (handler : string -> M A) : M A :=
  fun env w =>
    match body env w with
    | Returns a w' => Returns a w'
    | Raises e w' => handler e env w'
    end.

Definition ask {A : Type} (f : Env -> A) : M A := fun env w => Returns (f env) w.

Declare Scope py_scope.
Delimit Scope py_scope with py.
Notation "x <- m ;; k" := (bind m (fun x => k))
  (at level 61, m at next level, right associativity) : py_scope.
Notation "m ;; k" := (bind m (fun _ => k))
  (at level 61, right associativity) : py_scope.
Notation "'TRY' body 'EXCEPT' e '=>' handler" := (try_except body (fun e => handler))
  (at level 10, body at level 200, e name, handler at level 200) : py_scope.
Local Open Scope py_scope.

(** The world in which a computation ends, and the value it returns. *)
Definition world_of {A : Type} (o : Outcome A) : World :=
  match o with Returns _ w => w | Raises _ w => w end.

Definition value_of {A : Type} (o : Outcome A) : option A :=
  match o with Returns a _ => Some a | Raises _ _ => None end.

(** Modelled from the spec: [Database.execute_query] and
    [Database.execute_one] ([db/database.py] is not part of the sources):
    run one statement to completion, or raise and leave the database as it
    was. *)
Definition execute_query (s : Statement) : M unit :=
  fun env w =>
    match statement_raises env s with
    | Some e => Raises e w
    | None =>
        match exec_statement (utcnow env) s (db w) with
        | inr d => Returns tt (with_db d w)
        | inl e => Raises e w
        end
    end.

Definition execute_one {R : Type} (q : Query R) : M (option R) :=
  fun env w =>
    match query_raises env R q with
    | Some e => Raises e w
    | None => Returns (run_query q (db w)) w
    end.

Definition security_logger (entry : LogEntry) : M unit :=
  fun _ w => Returns tt (mkWorld (db w) (outbox w) (security_log w ++ [entry])).

(* ================================================================== *)
(** ** [services/email_service.py] *)

Module EmailService.

Definition deliver (m : Email) : M unit :=
  fun _ w => Returns tt (mkWorld (db w) (outbox w ++ [m]) (security_log w)).

(** Prints the mail and reports it sent. *)
Definition _send_console_email (m : Email) : M bool :=
  deliver m ;;
  security_logger (log_email_sent_entry (to_email m) "console") ;;
  ret true.

(** Opens the SMTP session and sends; any step of the session may raise. *)
Definition _send_smtp_email (m : Email) : M bool :=
  failure <- ask smtp_raises ;;
  match failure with
  | Some e => fun _ w => Raises e w
  | None =>
      deliver m ;;
      security_logger (log_email_sent_entry (to_email m) "smtp") ;;
      ret true
  end.

Definition _send_email (m : Email) : M bool :=
  TRY
    console <- ask use_console ;;
    if console then _send_console_email m else _send_smtp_email m
  EXCEPT e =>
    security_logger (log_email_error_entry (to_email m) e) ;;
    ret false.

Definition send_password_reset_email (to reset_token name : string) : M bool :=
  base_url <- ask app_base_url ;;
  let url := (base_url ++ "/reset-password?token=" ++ reset_token)%string in
  _send_email (mkEmail to "Password Reset Request - User Auth API" name (Some url)).

Definition send_password_reset_confirmation (to name : string) : M bool :=
  _send_email (mkEmail to "Password Reset Successful - User Auth API" name None).

End EmailService.

(* ================================================================== *)
(** ** [services/password_reset_service.py] *)

(** Modelled from the spec: the [User] object of [models/user.py] (not part
    of the sources), the [{id, name, email}] of the User Directory. *)
Record User : Type := mkUser {
  id : Z;
  name : string;
  email : string
}.

(** Modelled from the spec: [User.find_by_email], the User Directory's
    [findByEmail(email) -> {id, name, email} | none], as a lookup in
    [users]; a database error propagates to the caller. *)
Definition find_by_email (email : string) : M (option User) :=
  row <- execute_one (SelectUserByEmail email) ;;
  ret (option_map (fun u => mkUser (u_id u) (u_name u) (u_email u)) row).

(** The dictionaries the public methods return:
    [{"success": True, "message": m}] and [{"error": m}]. *)
Inductive Response : Type :=
| Success (message : string)
| Error (error : string).

(** [{"valid": True, "email": e}] and [{"valid": False}]. *)
Inductive Validity : Type :=
| Valid (email : string)
| Invalid.

Module PasswordResetService.

(** [self.token_expiry_hours = 1] *)
Definition token_expiry_hours : Z := 1.

(** [timedelta(hours=h)], in microseconds. *)
Definition timedelta_hours (h : Z) : Z := h * 3600000000.

Definition ascii_letters : string :=
  "abcdefghijklmnopqrstuvwxyzABCDEFGHIJKLMNOPQRSTUVWXYZ".

Definition digits : string := "0123456789".

(** [secrets.choice(alphabet)], at the k-th draw of the random source:
    [alphabet[randbelow(len(alphabet))]]. *)
Definition secrets_choice (alphabet : string) (k : nat) : M ascii :=
  draw <- ask entropy ;;
  let i := Nat.modulo (draw k) (String.length alphabet) in
  ret (nth i (list_ascii_of_string alphabet) Ascii.zero).

Fixpoint join_choices (alphabet : string) (k n : nat) : M string :=
  match n with
  | O => ret ""
  | S n' =>
      c <- secrets_choice alphabet k ;;
      rest <- join_choices alphabet (S k) n' ;;
      ret (String c rest)
  end.

Definition _generate_reset_token : M string :=
  let alphabet := (ascii_letters ++ digits)%string in
  join_choices alphabet 0 32.

Definition _store_reset_token (user_id : Z) (token : string) : M bool :=
  TRY
    now <- ask utcnow ;;
    let expires_at := now + timedelta_hours token_expiry_hours in
    execute_query (DeleteTokensOfUser user_id) ;;
    execute_query (InsertToken user_id token expires_at false) ;;
    ret true
  EXCEPT _e =>
    ret false.

Definition _validate_reset_token (token : string) : M (option User) :=
  TRY
    result <- execute_one (SelectTokenJoinUser token) ;;
    match result with
    | None => ret None
    | Some result =>
        if r_used result then ret None
        else
          now <- ask utcnow ;;
          if now >? r_expires_at result then ret None
          else ret (Some (mkUser (r_user_id result) (r_name result) (r_email result)))
    end
  EXCEPT _e =>
    ret None.

Definition _update_user_password (user_id : Z) (hashed_password : string) : M bool :=
  TRY
    execute_query (UpdateUserPassword hashed_password user_id) ;;
    ret true
  EXCEPT _e =>
    ret false.

Definition _mark_token_as_used (token : string) : M bool :=
  TRY
    execute_query (UpdateTokenUsed true token) ;;
    ret true
  EXCEPT _e =>
    ret false.

Definition generic_message : string :=
  "If the email exists in our system, you will receive a password reset link.".

(** Python's [not user.id] and [not user.email]. *)
Definition falsy_int (n : Z) : bool := n =? 0.
Definition falsy_str (s : string) : bool := String.eqb s "".

Definition request_password_reset (email : string) : M Response :=
  TRY
    user <- find_by_email email ;;
    match user with
    | None =>
        security_logger (log_password_reset_request_entry email false (Some "User not found")) ;;
        ret (Success generic_message)
    | Some user =>
        if falsy_int (id user) then
          security_logger (log_password_reset_request_entry email false (Some "User not found")) ;;
          ret (Success generic_message)
        else
          token <- _generate_reset_token ;;
          stored <- _store_reset_token (id user) token ;;
          if negb stored then
            security_logger (log_password_reset_request_entry email false (Some "Failed to store token")) ;;
            ret (Error "Failed to process password reset request")
          else
            sent <- EmailService.send_password_reset_email email token (name user) ;;
            if sent then
              security_logger (log_password_reset_request_entry email true None) ;;
              ret (Success generic_message)
            else
              security_logger (log_password_reset_request_entry email false (Some "Failed to send email")) ;;
              ret (Error "Failed to send password reset email")
    end
  EXCEPT e =>
    security_logger (log_password_reset_request_entry email false (Some ("Exception: " ++ e)%string)) ;;
    ret (Error "Internal server error").

Definition reset_password (token new_password : string) : M Response :=
  TRY
    user <- _validate_reset_token token ;;
    match user with
    | None =>
        security_logger (log_password_reset_completion_entry "unknown" false (Some "Invalid token")) ;;
        ret (Error "Invalid or expired reset token")
    | Some user =>
        if falsy_str (email user) || falsy_int (id user) then
          security_logger (log_password_reset_completion_entry "unknown" false (Some "Invalid token")) ;;
          ret (Error "Invalid or expired reset token")
        else if Z.of_nat (String.length new_password) <? 8 then
          security_logger (log_password_reset_completion_entry (email user) false (Some "Password too short")) ;;
          ret (Error "Password must be at least 8 characters long")
        else
          hash <- ask generate_password_hash ;;
          let hashed_password := hash new_password in
          updated <- _update_user_password (id user) hashed_password ;;
          if negb updated then
            security_logger (log_password_reset_completion_entry (email user) false (Some "Failed to update password")) ;;
            ret (Error "Failed to update password")
          else
            _mark_token_as_used token ;;
            EmailService.send_password_reset_confirmation (email user) (name user) ;;
            security_logger (log_password_reset_completion_entry (email user) true None) ;;
            ret (Success "Password has been reset successfully")
    end
  EXCEPT e =>
    security_logger (log_password_reset_completion_entry "unknown" false (Some ("Exception: " ++ e)%string)) ;;
    ret (Error "Internal server error").

Definition validate_reset_token (token : string) : M Validity :=
  TRY
    user <- _validate_reset_token token ;;
    match user with
    | Some user => ret (Valid (email user))
    | None => ret Invalid
    end
  EXCEPT _e =>
    ret Invalid.

Definition cleanup_expired_tokens : M Z :=
  TRY
    current_time <- ask utcnow ;;
    result <- execute_one (CountExpiredOrUsed current_time true) ;;
    let count := match result with Some c => c | None => 0 end in
    execute_query (DeleteExpiredOrUsed current_time true) ;;
    ret count
  EXCEPT _e =>
    ret 0.

End PasswordResetService.

(* ================================================================== *)
(** ** Sequences of calls *)

Import PasswordResetService.

(** A call of a method of the service, public or private. *)
Inductive Call : Type :=
| call_request_password_reset (email : string)
| call_reset_password (token new_password : string)
| call_validate_reset_token (token : string)
| call_cleanup_expired_tokens
| call_generate_reset_token
| call_store_reset_token (user_id : Z) (token : string)
| call_validate_reset_token_ (token : string)
| call_update_user_password (user_id : Z) (hashed_password : string)
| call_mark_token_as_used (token : string).

Definition perform (c : Call) : M unit :=
  match c with
  | call_request_password_reset email => request_password_reset email ;; ret tt
  | call_reset_password token new_password => reset_password token new_password ;; ret tt
  | call_validate_reset_token token => validate_reset_token token ;; ret tt
  | call_cleanup_expired_tokens => cleanup_expired_tokens ;; ret tt
  | call_generate_reset_token => _generate_reset_token ;; ret tt
  | call_store_reset_token user_id token => _store_reset_token user_id token ;; ret tt
  | call_validate_reset_token_ token => _validate_reset_token token ;; ret tt
  | call_update_user_password user_id hashed_password =>
      _update_user_password user_id hashed_password ;; ret tt
  | call_mark_token_as_used token => _mark_token_as_used token ;; ret tt
  end.

(** The world after a sequence of calls, each in its own environment. *)
Definition run (calls : list (Env * Call)) (w : World) : World :=
  fold_left (fun w ec => world_of (perform (snd ec) (fst ec) w)) calls w.

(* ================================================================== *)
(** ** Predicates on the store *)

(** [token TEXT NOT NULL UNIQUE] *)
Definition tokens_unique (d : Database) : Prop :=
  NoDup (map prt_token (password_reset_tokens d)).

(** [users.id] is the primary key of [users]. *)
Definition user_ids_unique (d : Database) : Prop :=
  NoDup (map u_id (users d)).

(** [FOREIGN KEY (user_id) REFERENCES users (id)] *)
Definition foreign_key (d : Database) : Prop :=
  forall r, In r (password_reset_tokens d) ->
            exists u, In u (users d) /\ u_id u = prt_user_id r.

Definition well_formed (d : Database) : Prop :=
  tokens_unique d /\ user_ids_unique d /\ foreign_key d.

(** The user a token row belongs to, as the join of
    [_validate_reset_token] presents it. *)
Definition user_of (d : Database) (r : TokenRow) (u : User) : Prop :=
  exists row, In row (users d) /\ u_id row = prt_user_id r /\
              u = mkUser (prt_user_id r) (u_name row) (u_email row).

(** [used=false AND now <= expiresAt] *)
Definition live (now : Z) (r : TokenRow) : bool :=
  negb (prt_used r) && (now <=? prt_expires_at r).

Definition tokens_of_user (user_id : Z) (d : Database) : list TokenRow :=
  filter (fun r => prt_user_id r =? user_id) (password_reset_tokens d).

(** The unconsumed, unexpired tokens of a user at [now]. *)
Definition live_tokens_of_user (now user_id : Z) (d : Database) : list TokenRow :=
  filter (fun r => (prt_user_id r =? user_id) && live now r) (password_reset_tokens d).

(** [id INTEGER PRIMARY KEY AUTOINCREMENT]: the ids of the rows are
    distinct and none exceeds the counter. *)
Definition ids_unique (d : Database) : Prop :=
  NoDup (map prt_id (password_reset_tokens d)).

Definition sequence_bounds (d : Database) : Prop :=
  forall r, In r (password_reset_tokens d) -> prt_id r <= sqlite_sequence d.

(** The methods the routes call. *)
Definition public (c : Call) : Prop :=
  match c with
  | call_request_password_reset _ => True
  | call_reset_password _ _ => True
  | call_validate_reset_token _ => True
  | call_cleanup_expired_tokens => True
  | _ => False
  end.

Definition one_row_per_user (d : Database) : Prop :=
  forall user_id, (List.length (tokens_of_user user_id d) <= 1)%nat.

(** What [_validate_reset_token] makes of the row [execute_one] hands it. *)
Definition user_if_valid (now : Z) (result : option TokenUserRow) : option User :=
  match result with
  | None => None
  | Some result =>
      if r_used result then None
      else if now >? r_expires_at result then None
      else Some (mkUser (r_user_id result) (r_name result) (r_email result))
  end.

(** The world after one more call on the security logger. *)
Definition logged (entry : LogEntry) (w : World) : World :=
  mkWorld (db w) (outbox w) (security_log w ++ [entry]).

(** The database after the [UPDATE] of [_mark_token_as_used]. *)
Definition marked (token : string) (d : Database) : Database :=
  with_tokens (map (fun r => if has_token token r then set_used true r else r)
                   (password_reset_tokens d)) d.

(** The database after [_store_reset_token] has run both statements. *)
Definition issued (env : Env) (user_id : Z) (token : string) (d : Database) : Database :=
  mkDatabase
    (filter (fun r => negb (prt_user_id r =? user_id)) (password_reset_tokens d) ++
       [mkTokenRow (sqlite_sequence d + 1) user_id token
                   (utcnow env + timedelta_hours token_expiry_hours) false
                   (CURRENT_TIMESTAMP (utcnow env))])
    (users d) (sqlite_sequence d + 1).

(** The statements that the service runs on their own.  [INSERT] is run
    only by [_store_reset_token], right after the [DELETE] for the same
    user. *)
Definition standalone (s : Statement) : Prop :=
  match s with
  | DeleteTokensOfUser _ => True
  | UpdateUserPassword _ _ => True
  | UpdateTokenUsed used _ => used = true
  | DeleteExpiredOrUsed _ used => used = true
  | InsertToken _ _ _ _ => False
  end.

(** [steps P d d']: the service can take the database from [d] to [d'],
    inserting only tokens that satisfy [P]. *)
Inductive steps (P : string -> Prop) : Database -> Database -> Prop :=
| steps_refl (d : Database) : steps P d d
| steps_trans (d1 d2 d3 : Database) :
    steps P d1 d2 -> steps P d2 d3 -> steps P d1 d3
| steps_one (clock : Z) (s : Statement) (d d' : Database) :
    standalone s -> exec_statement clock s d = inr d' -> steps P d d'
| steps_issue (clock : Z) (user_id : Z) (token : string) (expires_at : Z)
              (d d1 d' : Database) :
    P token ->
    exec_statement clock (DeleteTokensOfUser user_id) d = inr d1 ->
    exec_statement clock (InsertToken user_id token expires_at false) d1 = inr d' ->
    steps P d d'.

(** The token [_generate_reset_token] returns, as a function of the
    random source. *)
Definition drawn (alphabet : string) (env : Env) (k : nat) : ascii :=
  nth (Nat.modulo (entropy env k) (String.length alphabet))
      (list_ascii_of_string alphabet) Ascii.zero.

Fixpoint drawn_string (alphabet : string) (env : Env) (k n : nat) : string :=
  match n with
  | O => ""
  | S n' => String (drawn alphabet env k) (drawn_string alphabet env (S k) n')
  end.

Definition generated_token (env : Env) : string :=
  drawn_string (ascii_letters ++ digits)%string env 0 32.

(** The token strings a call may insert into the table. *)
Definition inserts (env : Env) (c : Call) (token : string) : Prop :=
  match c with
  | call_request_password_reset _ => token = generated_token env
  | call_store_reset_token _ t => token = t
  | _ => False
  end.

(** A computation moves the database along [steps P]. *)
Definition evolves (P : string -> Prop) (env : Env) {A : Type} (m : M A) : Prop :=
  forall w, steps P (db w) (db (world_of (m env w))).

(** Every value a computation returns satisfies [Q]. *)
Definition returns_only {A : Type} (Q : A -> Prop) (env : Env) (m : M A) : Prop :=
  forall w a w', m env w = Returns a w' -> Q a.

(** The world after a mail has gone out by [method]. *)
Definition sent (method : string) (m : Email) (w : World) : World :=
  mkWorld (db w) (outbox w ++ [m])
          (security_log w ++ [log_email_sent_entry (to_email m) method]).

(** The same environment with another mail configuration. *)
Definition with_mail (console : bool) (base_url : string) (smtp : option string)
           (env : Env) : Env :=
  mkEnv (utcnow env) (entropy env) (generate_password_hash env) console base_url
        (statement_raises env) (query_raises env) smtp.

(** The database after the [UPDATE] of [_update_user_password]. *)
Definition password_set (user_id : Z) (hashed_password : string) (d : Database)
  : Database :=
  with_users (map (fun u => if u_id u =? user_id
                            then set_password hashed_password u else u)
                  (users d)) d.

(** The mail [send_password_reset_email] hands to the transport. *)
Definition reset_mail (env : Env) (to token name : string) : Email :=
  mkEmail to "Password Reset Request - User Auth API" name
          (Some (app_base_url env ++ "/reset-password?token=" ++ token)%string).

(* ================================================================== *)
(** ** [routes/auth.py]: the password-reset routes *)

(** A parsed JSON body.  A float is kept as what the routes can see of it,
    whether it is zero; the members of an object are the items of the
    Python [dict], one per key. *)
#[local] Unset Elimination Schemes.

Inductive Json : Type :=
| JNull
| JBool (b : bool)
| JInt (n : Z)
| JFloat (zero : bool)
| JString (s : string)
| JArray (items : list Json)
| JObject (members : list (string * Json)).

#[local] Set Elimination Schemes.

(** Python's [not v]. *)
Definition falsy (v : Json) : bool :=
  match v with
  | JNull => true
  | JBool b => negb b
  | JInt n => n =? 0
  | JFloat zero => zero
  | JString s => String.eqb s ""
  | JArray items => match items with [] => true | _ => false end
  | JObject members => match members with [] => true | _ => false end
  end.

(** [type(v).__name__] *)
Definition type_name (v : Json) : string :=
  match v with
  | JNull => "NoneType"
  | JBool _ => "bool"
  | JInt _ => "int"
  | JFloat _ => "float"
  | JString _ => "str"
  | JArray _ => "list"
  | JObject _ => "dict"
  end.

(** [d.get(key, default)] *)
Fixpoint dict_get (key : string) (members : list (string * Json)) (default : Json)
  : Json :=
  match members with
  | [] => default
  | (k, v) :: rest => if String.eqb k key then v else dict_get key rest default
  end.

(** [str.isspace] on one character: U+0009..U+000D, U+001C..U+0020, U+0085
    and U+00A0, the white space among the code points below 256, which are
    the characters a [string] holds. *)
Definition isspace (c : ascii) : bool :=
  let n := nat_of_ascii c in
  (Nat.leb 9 n && Nat.leb n 13) || (Nat.leb 28 n && Nat.leb n 32)
  || Nat.eqb n 133 || Nat.eqb n 160.

Fixpoint lstrip (s : string) : string :=
  match s with
  | EmptyString => EmptyString
  | String c rest => if isspace c then lstrip rest else s
  end.

Fixpoint rstrip (s : string) : string :=
  match s with
  | EmptyString => EmptyString
  | String c rest =>
      match rstrip rest with
      | EmptyString => if isspace c then EmptyString else String c EmptyString
      | kept => String c kept
      end
  end.

(** [s.strip()] *)
Definition strip (s : string) : string := rstrip (lstrip s).

Definition raise {A : Type} (e : string) : M A := fun _ w => Raises e w.

(** [jsonify(body), status] *)
Record HttpResponse : Type := mkHttpResponse {
  response_body : list (string * Json);
  status_code : Z
}.

Module AuthRoutes.

(** [data.get(key, '').strip()]: an [AttributeError] when [data] is not a
    [dict] or the value is not a [str]. *)
Definition get_stripped (key : string) (data : Json) : M string :=
  match data with
  | JObject members =>
      match dict_get key members (JString "") with
      | JString s => ret (strip s)
      | v => raise ("'" ++ type_name v ++ "' object has no attribute 'strip'")%string
      end
  | v => raise ("'" ++ type_name v ++ "' object has no attribute 'get'")%string
  end.

(** [data.get(key, '')] *)
Definition get_raw (key : string) (data : Json) : M Json :=
  match data with
  | JObject members => ret (dict_get key members (JString ""))
  | v => raise ("'" ++ type_name v ++ "' object has no attribute 'get'")%string
  end.

(** [request.get_json()], with [None] when it raises. *)
Definition get_json (body : option Json) : Json :=
  match body with
  | Some data => data
  | None => JNull
  end.

Section Routes.

(** [UserValidator.validate_email] ([utils/validators.py] is not part of
    the sources). *)
Variable validate_email : string -> bool.

(** [password_reset_service.reset_password] on a [new_password] that is
    not a [str], which the signature of the method excludes. *)
Variable reset_password_untyped : string -> Json -> M Response.

Definition request_password_reset (body : option Json) : M HttpResponse :=
  TRY
    let data := get_json body in
    if falsy data then
      security_logger (log_password_reset_request_entry
                         "unknown" false (Some "No data provided")) ;;
      ret (mkHttpResponse [("error", JString "No data provided")] 400)
    else
      email <- get_stripped "email" data ;;
      if falsy_str email then
        security_logger (log_password_reset_request_entry
                           "unknown" false (Some "Email missing")) ;;
        ret (mkHttpResponse [("error", JString "Email is required")] 400)
      else if negb (validate_email email) then
        security_logger (log_password_reset_request_entry
                           email false (Some "Invalid email format")) ;;
        ret (mkHttpResponse [("error", JString "Invalid email format")] 400)
      else
        result <- PasswordResetService.request_password_reset email ;;
        match result with
        | Success message =>
            ret (mkHttpResponse [("status", JString "success");
                                 ("message", JString message)] 200)
        | Error error =>
            ret (mkHttpResponse [("error", JString error)] 500)
        end
  EXCEPT e =>
    security_logger (log_password_reset_request_entry
                       "unknown" false (Some ("Request endpoint error: " ++ e)%string)) ;;
    ret (mkHttpResponse [("error", JString "Internal server error")] 500).

Definition reset_password (body : option Json) : M HttpResponse :=
  TRY
    let data := get_json body in
    if falsy data then
      ret (mkHttpResponse [("error", JString "No data provided")] 400)
    else
      token <- get_stripped "token" data ;;
      new_password <- get_raw "new_password" data ;;
      if falsy_str token then
        ret (mkHttpResponse [("error", JString "Reset token is required")] 400)
      else if falsy new_password then
        ret (mkHttpResponse [("error", JString "New password is required")] 400)
      else
        result <- match new_password with
                  | JString p => PasswordResetService.reset_password token p
                  | v => reset_password_untyped token v
                  end ;;
        match result with
        | Success message =>
            ret (mkHttpResponse [("status", JString "success");
                                 ("message", JString message)] 200)
        | Error error =>
            ret (mkHttpResponse [("error", JString error)] 400)
        end
  EXCEPT e =>
    security_logger (log_password_reset_completion_entry
                       "unknown" false (Some ("Reset endpoint error: " ++ e)%string)) ;;
    ret (mkHttpResponse [("error", JString "Internal server error")] 500).

Definition validate_reset_token (body : option Json) : M HttpResponse :=
  TRY
    let data := get_json body in
    if falsy data then
      ret (mkHttpResponse [("error", JString "No data provided")] 400)
    else
      token <- get_stripped "token" data ;;
      if falsy_str token then
        ret (mkHttpResponse [("error", JString "Reset token is required")] 400)
      else
        result <- PasswordResetService.validate_reset_token token ;;
        match result with
        | Valid email =>
            ret (mkHttpResponse [("valid", JBool true); ("email", JString email)] 200)
        | Invalid =>
            ret (mkHttpResponse [("valid", JBool false)] 200)
        end
  EXCEPT _e =>
    ret (mkHttpResponse [("valid", JBool false)] 200).

End Routes.

End AuthRoutes.

(* ================================================================== *)
(** ** Sample worlds and environments *)

Module Samples.

(** Console mail, no collaborator raises; the k-th draw of the random
    source is [seed + k]. *)
Definition no_faults (now : Z) (seed : nat) : Env :=
  mkEnv now (fun k => (seed + k)%nat) (fun p => ("pbkdf2$" ++ p)%string)
        true "http://localhost:5000"
        (fun _ => None) (fun _ _ => None) None.

(** The [UPDATE] of [users] raises. *)
Definition update_fails (now : Z) : Env :=
  mkEnv now (fun k => k) (fun p => ("pbkdf2$" ++ p)%string)
        true "http://localhost:5000"
        (fun s => match s with
                  | UpdateUserPassword _ _ => Some "database is locked"
                  | _ => None
                  end)
        (fun _ _ => None) None.

(** SMTP is configured and the server refuses the connection. *)
Definition smtp_down (now : Z) (seed : nat) : Env :=
  mkEnv now (fun k => (seed + k)%nat) (fun p => ("pbkdf2$" ++ p)%string)
        false "http://localhost:5000"
        (fun _ => None) (fun _ _ => None) (Some "Connection refused").

Definition alice : UserRow := mkUserRow 1 "Alice" "alice@example.com" "old-hash-a".
Definition bob : UserRow := mkUserRow 2 "Bob" "bob@example.com" "old-hash-b".

Definition empty_world : World :=
  mkWorld (mkDatabase [] [alice; bob] 0) [] [].

(** The token drawn with seed 0, and its row when issued at clock 1000. *)
Definition alice_token : string := "abcdefghijklmnopqrstuvwxyzABCDEF".

Definition alice_row : TokenRow := mkTokenRow 1 1 alice_token 3600001000 false 0.

Definition alice_pending : World :=
  mkWorld (mkDatabase [alice_row] [alice; bob] 1) [] [].

(** Three expired rows, two used rows and two valid rows at clock 10000. *)
Definition swept_at : Z := 10000.

Definition mixed_rows : list TokenRow :=
  [ mkTokenRow 1 1 "expired-1" 9000 false 0;
    mkTokenRow 2 2 "used-1" 20000 true 0;
    mkTokenRow 3 3 "valid-1" 20000 false 0;
    mkTokenRow 4 4 "expired-2" 9999 false 0;
    mkTokenRow 5 5 "used-2" 30000 true 0;
    mkTokenRow 6 6 "valid-2" 10000 false 0;
    mkTokenRow 7 7 "expired-3" 1 false 0 ].

Definition mixed_world : World :=
  mkWorld (mkDatabase mixed_rows [alice; bob] 7) [] [].

End Samples.

Module Scenarios.

Import Samples.

(** The [UPDATE] that marks a token raises. *)
Definition mark_fails (now : Z) : Env :=
  mkEnv now (fun k => k) (fun p => ("pbkdf2$" ++ p)%string)
        true "http://localhost:5000"
        (fun s => match s with
                  | UpdateTokenUsed _ _ => Some "database is locked"
                  | _ => None
                  end)
        (fun _ _ => None) None.

(** The [DELETE] of the sweeper raises. *)
Definition sweep_fails (now : Z) : Env :=
  mkEnv now (fun k => k) (fun p => ("pbkdf2$" ++ p)%string)
        true "http://localhost:5000"
        (fun s => match s with
                  | DeleteExpiredOrUsed _ _ => Some "disk I/O error"
                  | _ => None
                  end)
        (fun _ _ => None) None.

(** The [SELECT] of the lookup raises. *)
Definition lookup_fails (now : Z) : Env :=
  mkEnv now (fun k => k) (fun p => ("pbkdf2$" ++ p)%string)
        true "http://localhost:5000"
        (fun _ => None)
        (fun _ q => match q with
                    | SelectTokenJoinUser _ => Some "database is locked"
                    | _ => None
                    end)
        None.

(** The token drawn with seed 7, held by Bob. *)
Definition bob_token : string := "hijklmnopqrstuvwxyzABCDEFGHIJKLM".

Definition bob_row : TokenRow := mkTokenRow 2 2 bob_token 3600002000 false 0.

Definition both_pending : World :=
  mkWorld (mkDatabase [alice_row; bob_row] [alice; bob] 2) [] [].

(** A validator that asks for an [@]. *)
Fixpoint has_at (s : string) : bool :=
  match s with
  | EmptyString => false
  | String c rest => Ascii.eqb c "@"%char || has_at rest
  end.

Definition untyped (token : string) (new_password : Json) : M Response :=
  ret (Error "Internal server error").

(** The body [{"email": e}], and [{"token": t, "new_password": p}]. *)
Definition email_body (e : string) : option Json :=
  Some (JObject [("email", JString e)]).

Definition reset_body (t p : string) : option Json :=
  Some (JObject [("token", JString t); ("new_password", JString p)]).

End Scenarios.

(* ================================================================== *)
(** ** Lists as tables *)

Lemma filter_all_false {A : Type} (p : A -> bool) (l : list A) :
  (forall y, In y l -> p y = false) -> filter p l = [].
Proof.
  induction l as [|a l IH]; intros H; [reflexivity|].
  simpl. rewrite (H a (or_introl eq_refl)). apply IH.
  intros y Hy. apply H. now right.
Qed.

Section Tables.

Context {A K : Type} (key : A -> K).

(** Under a uniqueness constraint on [key], a selection whose rows all
    carry the key of [x] is [x] alone. *)
Lemma filter_unique_key (p : A -> bool) (l : list A) (x : A) :
  NoDup (map key l) ->
  In x l ->
  p x = true ->
  (forall y, In y l -> p y = true -> key y = key x) ->
  filter p l = [x].
Proof.
  induction l as [|a l IH]; intros Hnd Hin Hpx Hkey; [destruct Hin|].
  simpl in Hnd. inversion Hnd as [|? ? Hnotin Hnd']; subst.
  assert (Hrest : forall y, In y l -> key y <> key a).
  { intros y Hy Heq. apply Hnotin. rewrite <- Heq. now apply in_map. }
  destruct Hin as [->|Hin].
  - simpl. rewrite Hpx. f_equal.
    apply filter_all_false. intros y Hy.
    destruct (p y) eqn:E; [|reflexivity].
    exfalso. apply (Hrest y Hy). apply Hkey; [now right|exact E].
  - simpl. destruct (p a) eqn:E.
    + exfalso. apply (Hrest x Hin). symmetry.
      apply Hkey; [now left|exact E].
    + apply IH; auto. intros y Hy. apply Hkey. now right.
Qed.

End Tables.

Lemma filter_and_length {A : Type} (p q : A -> bool) (l : list A) :
  (List.length (filter (fun x => p x && q x) l) <= List.length (filter p l))%nat.
Proof.
  induction l as [|a l IH]; simpl; [lia|].
  destruct (p a), (q a); simpl; lia.
Qed.

Lemma has_token_true (token : string) (r : TokenRow) :
  has_token token r = true <-> prt_token r = token.
Proof. unfold has_token. apply String.eqb_eq. Qed.

Lemma has_token_false (token : string) (r : TokenRow) :
  has_token token r = false <-> prt_token r <> token.
Proof. unfold has_token. apply String.eqb_neq. Qed.

(* ================================================================== *)
(** ** [_validate_reset_token] *)

(** The method never raises and never writes: it returns what
    [user_if_valid] makes of the first row of the join, or [None] when the
    query raises. *)
Lemma validate_reset_token_unfold (token : string) (env : Env) (w : World) :
  _validate_reset_token token env w =
  Returns
    (match query_raises env TokenUserRow (SelectTokenJoinUser token) with
     | Some _ => None
     | None => user_if_valid (utcnow env) (hd_error (join_token_user token (db w)))
     end) w.
Proof.
  unfold _validate_reset_token, try_except, bind, execute_one, ask, ret, user_if_valid.
  destruct (query_raises env TokenUserRow (SelectTokenJoinUser token)); [reflexivity|].
  simpl. destruct (hd_error (join_token_user token (db w))) as [r|]; [|reflexivity].
  destruct (r_used r); [reflexivity|].
  destruct (utcnow env >? r_expires_at r); reflexivity.
Qed.

(** The first row of the join comes from a stored row with that token and
    from the user row it refers to. *)
Lemma join_token_user_hd (token : string) (d : Database) (j : TokenUserRow) :
  hd_error (join_token_user token d) = Some j ->
  exists r u, In r (password_reset_tokens d) /\ prt_token r = token /\
              In u (users d) /\ u_id u = prt_user_id r /\
              j = mkTokenUserRow (prt_user_id r) (prt_expires_at r) (prt_used r)
                                 (u_name u) (u_email u).
Proof.
  intros H.
  assert (Hin : In j (join_token_user token d)).
  { destruct (join_token_user token d); inversion H; subst. now left. }
  unfold join_token_user in Hin.
  apply in_flat_map in Hin. destruct Hin as [r [Hr Hj]].
  apply filter_In in Hr. destruct Hr as [Hr Ht].
  apply in_map_iff in Hj. destruct Hj as [u [Hj Hu]].
  apply filter_In in Hu. destruct Hu as [Hu Hid].
  exists r, u. repeat split; auto.
  - now apply has_token_true.
  - symmetry. now apply Z.eqb_eq.
Qed.

(** Under the constraints of the schema the join has exactly one row for a
    stored token. *)
Lemma join_token_user_unique (d : Database) (r : TokenRow) (u : UserRow) :
  tokens_unique d -> user_ids_unique d ->
  In r (password_reset_tokens d) -> In u (users d) -> u_id u = prt_user_id r ->
  join_token_user (prt_token r) d =
  [mkTokenUserRow (prt_user_id r) (prt_expires_at r) (prt_used r) (u_name u) (u_email u)].
Proof.
  intros Ht Hu Hr Hin Hid. unfold join_token_user.
  rewrite (filter_unique_key prt_token (has_token (prt_token r)) _ r Ht Hr).
  - simpl. rewrite app_nil_r.
    rewrite (filter_unique_key u_id (fun u0 => prt_user_id r =? u_id u0) _ u Hu Hin).
    + reflexivity.
    + apply Z.eqb_eq. now symmetry.
    + intros y _ Hy. apply Z.eqb_eq in Hy. congruence.
  - now apply has_token_true.
  - intros y _ Hy. now apply has_token_true in Hy.
Qed.

Lemma join_token_user_absent (token : string) (d : Database) :
  (forall r, In r (password_reset_tokens d) -> prt_token r <> token) ->
  join_token_user token d = [].
Proof.
  intros H. unfold join_token_user.
  rewrite filter_all_false; [reflexivity|].
  intros r Hr. apply has_token_false. now apply H.
Qed.

(** C1. With no database error and a store that meets the constraints of
    its schema, [_validate_reset_token] returns the user of a token exactly
    when a row with that token is stored, is not used and has
    [now <= expires_at]; otherwise it returns [None].  A row with
    [now = expires_at] still validates, and an unused row is refused
    exactly when [now > expires_at].  The world is left as it was. *)
Theorem validate_reset_token_iff (env : Env) (w : World) (token : string) :
  well_formed (db w) ->
  query_raises env TokenUserRow (SelectTokenJoinUser token) = None ->
  (forall u,
      _validate_reset_token token env w = Returns (Some u) w <->
      exists r, In r (password_reset_tokens (db w)) /\ prt_token r = token /\
                prt_used r = false /\ utcnow env <= prt_expires_at r /\
                user_of (db w) r u) /\
  (_validate_reset_token token env w = Returns None w <->
   ~ exists r, In r (password_reset_tokens (db w)) /\ prt_token r = token /\
               prt_used r = false /\ utcnow env <= prt_expires_at r) /\
  (forall r, In r (password_reset_tokens (db w)) -> prt_token r = token ->
             prt_used r = false ->
             (utcnow env = prt_expires_at r ->
              exists u, _validate_reset_token token env w = Returns (Some u) w) /\
             (utcnow env > prt_expires_at r <->
              _validate_reset_token token env w = Returns None w)).
Proof.
  intros [Htok [Huid Hfk]] Hq.
  assert (Hiff : forall u,
      _validate_reset_token token env w = Returns (Some u) w <->
      exists r, In r (password_reset_tokens (db w)) /\ prt_token r = token /\
                prt_used r = false /\ utcnow env <= prt_expires_at r /\
                user_of (db w) r u).
  { intros u. rewrite validate_reset_token_unfold, Hq. split.
    - intros H. injection H as H. unfold user_if_valid in H.
      destruct (hd_error (join_token_user token (db w))) as [j|] eqn:Ej; [|discriminate].
      destruct (join_token_user_hd _ _ _ Ej) as [r [row [Hr [Ht [Hrow [Hid Hj]]]]]].
      subst j. simpl in H.
      destruct (prt_used r) eqn:Eu; [discriminate|].
      destruct (utcnow env >? prt_expires_at r) eqn:Ee; [discriminate|].
      injection H as <-.
      exists r. repeat split; auto.
      + rewrite Z.gtb_ltb in Ee. apply Z.ltb_ge in Ee. exact Ee.
      + exists row. auto.
    - intros [r [Hr [Ht [Hu [He [row [Hrow [Hid ->]]]]]]]]. subst token.
      rewrite (join_token_user_unique _ r row Htok Huid Hr Hrow Hid).
      simpl. rewrite Hu.
      assert (Ee : (utcnow env >? prt_expires_at r) = false).
      { rewrite Z.gtb_ltb. apply Z.ltb_ge. exact He. }
      rewrite Ee. reflexivity. }
  assert (Hnone : _validate_reset_token token env w = Returns None w <->
   ~ exists r, In r (password_reset_tokens (db w)) /\ prt_token r = token /\
               prt_used r = false /\ utcnow env <= prt_expires_at r).
  { split.
    - intros Hn [r [Hr [Ht [Hu He]]]].
      destruct (Hfk r Hr) as [row [Hrow Hid]].
      assert (Hsome : _validate_reset_token token env w =
                      Returns (Some (mkUser (prt_user_id r) (u_name row) (u_email row))) w).
      { apply Hiff. exists r. repeat split; auto. exists row. auto. }
      rewrite Hn in Hsome. discriminate.
    - intros Hno.
      destruct (user_if_valid (utcnow env) (hd_error (join_token_user token (db w))))
        as [u|] eqn:E.
      + exfalso. apply Hno.
        assert (Hs : _validate_reset_token token env w = Returns (Some u) w).
        { rewrite validate_reset_token_unfold, Hq, E. reflexivity. }
        apply Hiff in Hs. destruct Hs as [r [Hr [Ht [Hu [He _]]]]].
        exists r. auto.
      + rewrite validate_reset_token_unfold, Hq, E. reflexivity. }
  split; [exact Hiff|]. split; [exact Hnone|].
  intros r Hr Ht Hu. split.
  - intros Heq. destruct (Hfk r Hr) as [row [Hrow Hid]].
    exists (mkUser (prt_user_id r) (u_name row) (u_email row)).
    apply Hiff. exists r. repeat split; auto; [lia|]. exists row. auto.
  - rewrite Hnone. split.
    + intros Hgt [r' [Hr' [Ht' [Hu' He']]]].
      assert (r' = r).
      { unfold tokens_unique in Htok.
        assert (Hone := filter_unique_key prt_token (has_token token) _ r Htok Hr
                          (proj2 (has_token_true token r) Ht)
                          (fun y _ Hy => eq_trans (proj1 (has_token_true token y) Hy) (eq_sym Ht))).
        assert (Hin : In r' (filter (has_token token) (password_reset_tokens (db w)))).
        { apply filter_In. split; [exact Hr'|]. now apply has_token_true. }
        rewrite Hone in Hin. destruct Hin as [->|[]]. reflexivity. }
      subst r'. lia.
    + intros Hno. destruct (Z_le_gt_dec (utcnow env) (prt_expires_at r)) as [Hle|Hgt]; [|exact Hgt].
      exfalso. apply Hno. exists r. auto.
Qed.

(* ================================================================== *)
(** ** What the service can do to the database *)

Lemma join_choices_returns (alphabet : string) (env : Env) (w : World) (n k : nat) :
  join_choices alphabet k n env w = Returns (drawn_string alphabet env k n) w.
Proof.
  revert k. induction n as [|n IH]; intros k; [reflexivity|].
  simpl. unfold bind at 1. unfold secrets_choice, bind, ask, ret. simpl.
  rewrite IH. reflexivity.
Qed.

Lemma generate_reset_token_returns (env : Env) (w : World) :
  _generate_reset_token env w = Returns (generated_token env) w.
Proof. unfold _generate_reset_token. apply join_choices_returns. Qed.

(** [_store_reset_token] never raises; it returns [True] when both
    statements ran, and [False] as soon as one of them raised. *)
Lemma store_reset_token_unfold (user_id : Z) (token : string) (env : Env) (w : World) :
  _store_reset_token user_id token env w =
  let expires_at := utcnow env + timedelta_hours token_expiry_hours in
  match statement_raises env (DeleteTokensOfUser user_id) with
  | Some _ => Returns false w
  | None =>
      match exec_statement (utcnow env) (DeleteTokensOfUser user_id) (db w) with
      | inl _ => Returns false w
      | inr d1 =>
          match statement_raises env (InsertToken user_id token expires_at false) with
          | Some _ => Returns false (with_db d1 w)
          | None =>
              match exec_statement (utcnow env)
                      (InsertToken user_id token expires_at false) d1 with
              | inl _ => Returns false (with_db d1 w)
              | inr d2 => Returns true (with_db d2 w)
              end
          end
      end
  end.
Proof.
  unfold _store_reset_token, try_except, bind, ask, ret, execute_query.
  cbv beta zeta.
  destruct (statement_raises env (DeleteTokensOfUser user_id)); [reflexivity|].
  destruct (exec_statement (utcnow env) (DeleteTokensOfUser user_id) (db w))
    as [e|d1]; [reflexivity|].
  change (db (with_db d1 w)) with d1.
  destruct (statement_raises env (InsertToken user_id token _ false)); [reflexivity|].
  destruct (exec_statement (utcnow env) (InsertToken user_id token _ false) d1);
    reflexivity.
Qed.

Section Evolution.

Variable P : string -> Prop.
Variable env : Env.

Lemma evolves_ret {A : Type} (a : A) : evolves P env (ret a).
Proof. intros w. apply steps_refl. Qed.

Lemma evolves_ask {A : Type} (f : Env -> A) : evolves P env (ask f).
Proof. intros w. apply steps_refl. Qed.

Lemma evolves_security_logger (entry : LogEntry) : evolves P env (security_logger entry).
Proof. intros w. apply steps_refl. Qed.

Lemma evolves_raise {A : Type} (e : string) :
  evolves P env (fun (_ : Env) (w : World) => @Raises A e w).
Proof. intros w. apply steps_refl. Qed.

Lemma evolves_execute_one {R : Type} (q : Query R) : evolves P env (execute_one q).
Proof.
  intros w. unfold execute_one.
  destruct (query_raises env R q); apply steps_refl.
Qed.

Lemma evolves_execute_query (s : Statement) :
  standalone s -> evolves P env (execute_query s).
Proof.
  intros Hs w. unfold execute_query.
  destruct (statement_raises env s); [apply steps_refl|].
  destruct (exec_statement (utcnow env) s (db w)) as [e|d] eqn:E; [apply steps_refl|].
  simpl. eapply steps_one; eauto.
Qed.

(** Sequencing, when the first computation is known to return only values
    that satisfy [Q]. *)
Lemma evolves_bind_post {A B : Type} (Q : A -> Prop) (m : M A) (k : A -> M B) :
  (forall w a w', m env w = Returns a w' -> Q a) ->
  evolves P env m -> (forall a, Q a -> evolves P env (k a)) -> evolves P env (bind m k).
Proof.
  intros HQ Hm Hk w. unfold bind.
  specialize (Hm w). specialize (HQ w).
  destruct (m env w) as [a w'|e w']; simpl in *; [|exact Hm].
  eapply steps_trans; [exact Hm|]. apply Hk. eapply HQ. reflexivity.
Qed.

Lemma evolves_bind {A B : Type} (m : M A) (k : A -> M B) :
  evolves P env m -> (forall a, evolves P env (k a)) -> evolves P env (bind m k).
Proof.
  intros Hm Hk. apply (evolves_bind_post (fun _ => True)); auto.
Qed.

Lemma evolves_try_except {A : Type} (body : M A) (handler : string -> M A) :
  evolves P env body -> (forall e, evolves P env (handler e)) -> evolves P env (try_except body handler).
Proof.
  intros Hb Hh w. unfold try_except. specialize (Hb w).
  destruct (body env w) as [a w'|e w']; simpl in *; [exact Hb|].
  eapply steps_trans; [exact Hb|]. apply Hh.
Qed.

End Evolution.

Create HintDb evolution discriminated.

(** Decomposes a computation of the service into the steps above; the
    methods already treated are taken from the hint database. *)
Ltac evolve :=
  repeat first
    [ solve [auto 1 with evolution nocore]
    | apply evolves_ret
    | apply evolves_ask
    | apply evolves_security_logger
    | apply evolves_raise
    | apply evolves_execute_one
    | apply evolves_execute_query; simpl; auto
    | apply evolves_try_except; [|intros ?]
    | apply evolves_bind; [|intros ?]
    | match goal with
      | |- evolves _ _ (match ?x with _ => _ end) => destruct x
      end ].

Lemma evolves_deliver (P : string -> Prop) (env : Env) (m : Email) :
  evolves P env (EmailService.deliver m).
Proof. intros w. apply steps_refl. Qed.

#[local] Hint Resolve evolves_deliver : evolution.

Lemma evolves_send_email (P : string -> Prop) (env : Env) (m : Email) :
  evolves P env (EmailService._send_email m).
Proof.
  unfold EmailService._send_email, EmailService._send_console_email,
    EmailService._send_smtp_email.
  evolve.
Qed.

Lemma evolves_send_password_reset_email (P : string -> Prop) (env : Env)
      (to reset_token name : string) :
  evolves P env (EmailService.send_password_reset_email to reset_token name).
Proof.
  unfold EmailService.send_password_reset_email.
  apply evolves_bind; [apply evolves_ask|]. intros base_url. apply evolves_send_email.
Qed.

Lemma evolves_send_password_reset_confirmation (P : string -> Prop) (env : Env)
      (to name : string) :
  evolves P env (EmailService.send_password_reset_confirmation to name).
Proof. apply evolves_send_email. Qed.

#[local] Hint Resolve evolves_send_password_reset_email
  evolves_send_password_reset_confirmation : evolution.

Lemma evolves_validate_reset_token_ (P : string -> Prop) (env : Env) (token : string) :
  evolves P env (_validate_reset_token token).
Proof.
  intros w. rewrite validate_reset_token_unfold. apply steps_refl.
Qed.

Lemma evolves_update_user_password (P : string -> Prop) (env : Env)
      (user_id : Z) (hashed_password : string) :
  evolves P env (_update_user_password user_id hashed_password).
Proof. unfold _update_user_password. evolve. Qed.

Lemma evolves_mark_token_as_used (P : string -> Prop) (env : Env) (token : string) :
  evolves P env (_mark_token_as_used token).
Proof. unfold _mark_token_as_used. evolve. Qed.

Lemma evolves_cleanup_expired_tokens (P : string -> Prop) (env : Env) :
  evolves P env cleanup_expired_tokens.
Proof. unfold cleanup_expired_tokens. evolve. Qed.

Lemma evolves_generate_reset_token (P : string -> Prop) (env : Env) :
  evolves P env _generate_reset_token.
Proof. intros w. rewrite generate_reset_token_returns. apply steps_refl. Qed.

Lemma evolves_store_reset_token (P : string -> Prop) (env : Env)
      (user_id : Z) (token : string) :
  P token -> evolves P env (_store_reset_token user_id token).
Proof.
  intros HP w. rewrite store_reset_token_unfold. cbv zeta.
  destruct (statement_raises env (DeleteTokensOfUser user_id)); [apply steps_refl|].
  destruct (exec_statement (utcnow env) (DeleteTokensOfUser user_id) (db w))
    as [e|d1] eqn:E1; [apply steps_refl|].
  assert (H1 : steps P (db w) d1)
    by (eapply steps_one with (s := DeleteTokensOfUser user_id); [exact I|exact E1]).
  destruct (statement_raises env (InsertToken user_id token _ false)); [exact H1|].
  destruct (exec_statement (utcnow env) (InsertToken user_id token _ false) d1)
    as [e|d2] eqn:E2; [exact H1|].
  simpl. eapply steps_issue; eauto.
Qed.

#[local] Hint Resolve evolves_validate_reset_token_ evolves_update_user_password
  evolves_mark_token_as_used evolves_generate_reset_token : evolution.

Lemma evolves_validate_reset_token (P : string -> Prop) (env : Env) (token : string) :
  evolves P env (validate_reset_token token).
Proof. unfold validate_reset_token. evolve. Qed.

Lemma evolves_reset_password (P : string -> Prop) (env : Env)
      (token new_password : string) :
  evolves P env (reset_password token new_password).
Proof.
  unfold reset_password. evolve.
Qed.

Lemma evolves_request_password_reset (P : string -> Prop) (env : Env) (email : string) :
  P (generated_token env) -> evolves P env (request_password_reset email).
Proof.
  intros HP.
  unfold request_password_reset, find_by_email.
  apply evolves_try_except; [|intros ?; evolve].
  apply evolves_bind; [evolve|]. intros [user|]; [|evolve].
  destruct (falsy_int (id user)); [evolve|].
  apply (evolves_bind_post P env (fun t => t = generated_token env)).
  - intros w a w' H. rewrite generate_reset_token_returns in H. congruence.
  - apply evolves_generate_reset_token.
  - intros token ->.
    apply evolves_bind; [now apply evolves_store_reset_token|].
    intros stored. evolve.
Qed.

(** Every call moves the database along [steps], inserting only the token
    it is given or draws. *)
Lemma perform_steps (env : Env) (c : Call) (w : World) :
  steps (inserts env c) (db w) (db (world_of (perform c env w))).
Proof.
  revert w. change (evolves (inserts env c) env (perform c)).
  destruct c; simpl; (apply evolves_bind; [|intros ?; apply evolves_ret]).
  - now apply evolves_request_password_reset.
  - apply evolves_reset_password.
  - apply evolves_validate_reset_token.
  - apply evolves_cleanup_expired_tokens.
  - apply evolves_generate_reset_token.
  - now apply evolves_store_reset_token.
  - apply evolves_validate_reset_token_.
  - apply evolves_update_user_password.
  - apply evolves_mark_token_as_used.
Qed.

(* ================================================================== *)
(** ** Invariants of the store *)

Lemma unique_key_injective {A K : Type} (key : A -> K) (l : list A) (x y : A) :
  NoDup (map key l) -> In x l -> In y l -> key x = key y -> x = y.
Proof.
  induction l as [|a l IH]; intros Hnd Hx Hy Hk; [destruct Hx|].
  simpl in Hnd. inversion Hnd as [|? ? Hnotin Hnd']; subst.
  destruct Hx as [->|Hx], Hy as [->|Hy]; auto.
  - exfalso. apply Hnotin. rewrite Hk. now apply in_map.
  - exfalso. apply Hnotin. rewrite <- Hk. now apply in_map.
Qed.

Lemma filter_filter_length {A : Type} (p q : A -> bool) (l : list A) :
  (List.length (filter p (filter q l)) <= List.length (filter p l))%nat.
Proof.
  induction l as [|a l IH]; simpl; [lia|].
  destruct (q a), (p a) eqn:E; simpl; rewrite ?E; simpl; lia.
Qed.

Lemma filter_map_same {A : Type} (p : A -> bool) (f : A -> A) (l : list A) :
  (forall x, p (f x) = p x) ->
  filter p (map f l) = map f (filter p l).
Proof.
  intros H. induction l as [|a l IH]; simpl; [reflexivity|].
  rewrite H. destruct (p a); simpl; now rewrite IH.
Qed.

Lemma NoDup_map_filter {A K : Type} (key : A -> K) (p : A -> bool) (l : list A) :
  NoDup (map key l) -> NoDup (map key (filter p l)).
Proof.
  induction l as [|a l IH]; simpl; intros H; [constructor|].
  inversion H as [|? ? Hnotin Hnd]; subst.
  destruct (p a); simpl; [|now apply IH].
  constructor; [|now apply IH].
  intros Hin. apply Hnotin. apply in_map_iff in Hin.
  destruct Hin as [x [Hx Hin]]. apply filter_In in Hin.
  rewrite <- Hx. apply in_map. tauto.
Qed.

(** The rows of the table after a successful [INSERT]. *)
Lemma exec_insert (clock user_id : Z) (token : string) (expires_at : Z) (used : bool)
      (d d' : Database) :
  exec_statement clock (InsertToken user_id token expires_at used) d = inr d' ->
  (forall r, In r (password_reset_tokens d) -> prt_token r <> token) /\
  d' = mkDatabase
         (password_reset_tokens d ++
            [mkTokenRow (sqlite_sequence d + 1) user_id token expires_at used
                        (CURRENT_TIMESTAMP clock)])
         (users d) (sqlite_sequence d + 1).
Proof.
  simpl. destruct (existsb (has_token token) (password_reset_tokens d)) eqn:E;
    [discriminate|].
  intros H. injection H as <-. split; [|reflexivity].
  intros r Hr. apply has_token_false.
  destruct (has_token token r) eqn:Er; [|reflexivity].
  assert (existsb (has_token token) (password_reset_tokens d) = true)
    by (apply existsb_exists; eauto).
  congruence.
Qed.

Lemma steps_weaken (P Q : string -> Prop) (d d' : Database) :
  (forall t, P t -> Q t) -> steps P d d' -> steps Q d d'.
Proof.
  intros HPQ H. induction H.
  - apply steps_refl.
  - eapply steps_trans; eauto.
  - eapply steps_one; eauto.
  - eapply steps_issue; eauto.
Qed.

(** The service never adds, removes or renames a user. *)
Lemma steps_users (P : string -> Prop) (d d' : Database) :
  steps P d d' ->
  map (fun u => (u_id u, u_name u, u_email u)) (users d') =
  map (fun u => (u_id u, u_name u, u_email u)) (users d).
Proof.
  intros H. induction H as [d|d1 d2 d3 _ IH1 _ IH2|clock s d d' Hs E
                              |clock uid token exp d d1 d' _ E1 E2].
  - reflexivity.
  - congruence.
  - destruct s; simpl in *; try contradiction; injection E as <-; simpl; try reflexivity.
    rewrite map_map. apply map_ext. intros u.
    destruct (u_id u =? user_id); reflexivity.
  - simpl in E1. injection E1 as <-.
    apply exec_insert in E2. destruct E2 as [_ ->]. reflexivity.
Qed.

(** The uniqueness constraint on [token] holds in every state. *)
Lemma steps_tokens_unique (P : string -> Prop) (d d' : Database) :
  steps P d d' -> tokens_unique d -> tokens_unique d'.
Proof.
  unfold tokens_unique.
  intros H. induction H as [d|d1 d2 d3 _ IH1 _ IH2|clock s d d' Hs E
                              |clock uid token exp d d1 d' _ E1 E2]; intros Hu.
  - exact Hu.
  - auto.
  - destruct s; simpl in *; try contradiction; injection E as <-; simpl; auto.
    + now apply NoDup_map_filter.
    + rewrite map_map.
      erewrite map_ext; [exact Hu|].
      intros r. destruct (has_token token r); reflexivity.
    + now apply NoDup_map_filter.
  - simpl in E1. injection E1 as <-.
    apply exec_insert in E2. destruct E2 as [Hfresh ->]. simpl in *.
    rewrite map_app. simpl.
    assert (Hd := NoDup_map_filter prt_token (fun r => negb (prt_user_id r =? uid)) _ Hu).
    apply NoDup_app; [exact Hd|repeat constructor; simpl; tauto|].
    intros t Ht [<-|[]]. apply in_map_iff in Ht.
    destruct Ht as [r [Hk Hr]]. exact (Hfresh r Hr Hk).
Qed.

(** No user ever has two rows. *)
Lemma steps_one_row_per_user (P : string -> Prop) (d d' : Database) :
  steps P d d' -> one_row_per_user d -> one_row_per_user d'.
Proof.
  unfold one_row_per_user, tokens_of_user.
  intros H. induction H as [d|d1 d2 d3 _ IH1 _ IH2|clock s d d' Hs E
                              |clock uid token exp d d1 d' _ E1 E2]; intros Hu u.
  - apply Hu.
  - auto.
  - specialize (Hu u).
    destruct s; simpl in *; try contradiction; injection E as <-; simpl; auto.
    + etransitivity; [apply filter_filter_length|exact Hu].
    + rewrite filter_map_same; [now rewrite length_map|].
      intros r. destruct (has_token token r); reflexivity.
    + etransitivity; [apply filter_filter_length|exact Hu].
  - specialize (Hu u). simpl in E1. injection E1 as <-.
    apply exec_insert in E2. destruct E2 as [_ ->]. simpl in *.
    rewrite filter_app, length_app. simpl.
    destruct (Z.eqb_spec uid u) as [->|Hne].
    + rewrite filter_all_false; [simpl; lia|].
      intros r Hr. apply filter_In in Hr. destruct Hr as [_ Hr].
      now apply negb_true_iff in Hr.
    + simpl. rewrite Nat.add_0_r.
      etransitivity; [apply filter_filter_length|exact Hu].
Qed.

(** Once every row that carries [token] is used, it stays so as long as
    that string is not inserted again. *)
Lemma steps_used (token : string) (d d' : Database) :
  steps (fun t => t <> token) d d' ->
  (forall r, In r (password_reset_tokens d) -> prt_token r = token -> prt_used r = true) ->
  (forall r, In r (password_reset_tokens d') -> prt_token r = token -> prt_used r = true).
Proof.
  intros H. induction H as [d|d1 d2 d3 _ IH1 _ IH2|clock s d d' Hs E
                              |clock uid t exp d d1 d' HP E1 E2]; intros Hu.
  - exact Hu.
  - auto.
  - destruct s; simpl in *; try contradiction; injection E as <-; simpl; auto.
    + intros r Hr. apply filter_In in Hr. apply Hu. tauto.
    + subst used. intros r Hr Ht. apply in_map_iff in Hr.
      destruct Hr as [r0 [<- Hr0]].
      destruct (has_token token0 r0); [reflexivity|]. apply Hu; auto.
    + intros r Hr. apply filter_In in Hr. apply Hu. tauto.
  - simpl in E1. injection E1 as <-.
    apply exec_insert in E2. destruct E2 as [_ ->]. simpl in *.
    intros r Hr Ht. apply in_app_iff in Hr. destruct Hr as [Hr|[<-|[]]].
    + apply filter_In in Hr. apply Hu; tauto.
    + simpl in Ht. contradiction.
Qed.

(** A row that is used stays used for as long as it is stored: no step
    writes [used = false] to a row that exists, and a new row gets a new
    id. *)
Lemma steps_used_row (P : string -> Prop) (i : Z) (d d' : Database) :
  steps P d d' ->
  sequence_bounds d /\ i <= sqlite_sequence d /\
  (forall r, In r (password_reset_tokens d) -> prt_id r = i -> prt_used r = true) ->
  sequence_bounds d' /\ i <= sqlite_sequence d' /\
  (forall r, In r (password_reset_tokens d') -> prt_id r = i -> prt_used r = true).
Proof.
  unfold sequence_bounds.
  intros H. induction H as [d|d1 d2 d3 _ IH1 _ IH2|clock s d d' Hs E
                              |clock uid t exp d d1 d' HP E1 E2];
    intros [Hb [Hi Hu]].
  - auto.
  - auto.
  - destruct s; simpl in *; try contradiction; injection E as <-; simpl;
      (split; [|split; [exact Hi|]]); auto.
    + intros r Hr. apply filter_In in Hr. apply Hb. tauto.
    + intros r Hr. apply filter_In in Hr. apply Hu. tauto.
    + intros r Hr. apply in_map_iff in Hr. destruct Hr as [r0 [<- Hr0]].
      destruct (has_token token r0); simpl; now apply Hb.
    + subst used. intros r Hr Hid. apply in_map_iff in Hr.
      destruct Hr as [r0 [<- Hr0]].
      destruct (has_token token r0); [reflexivity|]. now apply Hu.
    + intros r Hr. apply filter_In in Hr. apply Hb. tauto.
    + intros r Hr. apply filter_In in Hr. apply Hu. tauto.
  - simpl in E1. injection E1 as <-.
    apply exec_insert in E2. destruct E2 as [_ ->]. simpl in *.
    split; [|split; [lia|]].
    + intros r Hr. apply in_app_iff in Hr. destruct Hr as [Hr|[<-|[]]].
      * apply filter_In in Hr. destruct Hr as [Hr _]. specialize (Hb r Hr). lia.
      * simpl. lia.
    + intros r Hr Hid. apply in_app_iff in Hr. destruct Hr as [Hr|[<-|[]]].
      * apply filter_In in Hr. apply Hu; tauto.
      * simpl in Hid. lia.
Qed.

(** An invariant of [steps] holds after any sequence of calls that insert
    only tokens satisfying [P]. *)
Lemma run_invariant (P : string -> Prop) (I : Database -> Prop) :
  (forall d d', steps P d d' -> I d -> I d') ->
  forall calls w,
    Forall (fun ec => forall t, inserts (fst ec) (snd ec) t -> P t) calls ->
    I (db w) -> I (db (run calls w)).
Proof.
  intros Hinv calls. induction calls as [|[env c] calls IH]; intros w Hall Hw.
  - exact Hw.
  - inversion Hall as [|? ? Hc Hrest]; subst.
    unfold run. simpl. apply IH; [exact Hrest|].
    eapply Hinv; [|exact Hw].
    eapply steps_weaken; [|apply perform_steps]. exact Hc.
Qed.

(** [_validate_reset_token] refuses a token none of whose rows is unused. *)
Lemma validate_reset_token_refuses (token : string) (env : Env) (w : World) :
  (forall r, In r (password_reset_tokens (db w)) -> prt_token r = token ->
             prt_used r = true) ->
  _validate_reset_token token env w = Returns None w.
Proof.
  intros H. rewrite validate_reset_token_unfold.
  destruct (query_raises env TokenUserRow (SelectTokenJoinUser token)); [reflexivity|].
  destruct (hd_error (join_token_user token (db w))) as [j|] eqn:Ej; [|reflexivity].
  destruct (join_token_user_hd _ _ _ Ej) as [r [row [Hr [Ht [_ [_ ->]]]]]].
  simpl. now rewrite (H r Hr Ht).
Qed.

(** [_mark_token_as_used] never raises; it returns [False] and writes
    nothing when the [UPDATE] raises. *)
Lemma mark_token_as_used_unfold (token : string) (env : Env) (w : World) :
  _mark_token_as_used token env w =
  match statement_raises env (UpdateTokenUsed true token) with
  | Some _ => Returns false w
  | None =>
      Returns true (with_db (marked token (db w)) w)
  end.
Proof.
  unfold _mark_token_as_used, try_except, bind, ret, execute_query.
  destruct (statement_raises env (UpdateTokenUsed true token)); reflexivity.
Qed.

(* ================================================================== *)
(** ** Issuing a token *)

(** [_store_reset_token] returns [True] only when the token collides with
    no row of another user, and then leaves [issued]. *)
Lemma store_reset_token_stored (env : Env) (w w' : World) (user_id : Z) (token : string) :
  _store_reset_token user_id token env w = Returns true w' ->
  (forall r, In r (password_reset_tokens (db w)) ->
             prt_user_id r <> user_id -> prt_token r <> token) /\
  w' = with_db (issued env user_id token (db w)) w.
Proof.
  intros Hrun. rewrite store_reset_token_unfold in Hrun. cbv zeta in Hrun.
  destruct (statement_raises env (DeleteTokensOfUser user_id)); [discriminate|].
  destruct (exec_statement (utcnow env) (DeleteTokensOfUser user_id) (db w))
    as [e|d1] eqn:E1; [discriminate|].
  destruct (statement_raises env (InsertToken user_id token _ false)); [discriminate|].
  destruct (exec_statement (utcnow env) (InsertToken user_id token _ false) d1)
    as [e|d2] eqn:E2; [discriminate|].
  injection Hrun as <-.
  simpl in E1. injection E1 as <-.
  apply exec_insert in E2. destruct E2 as [Hfresh ->]. simpl in Hfresh.
  split; [|reflexivity].
  intros r Hr Hid. apply Hfresh. apply filter_In. split; [exact Hr|].
  apply negb_true_iff. now apply Z.eqb_neq.
Qed.


(** C2. When [_store_reset_token] has stored a new token [t2] for a user,
    the rows of that user are the new row alone: every row the user had
    before is removed, no row carries a token [t1] the user had before, and
    [_validate_reset_token t1] returns [None].  Whatever calls are made, a
    user never has two rows, hence never two unused, unexpired tokens. *)
Theorem store_reset_token_replaces
        (env : Env) (w w' : World) (user_id : Z) (t2 : string) :
  tokens_unique (db w) ->
  _store_reset_token user_id t2 env w = Returns true w' ->
  tokens_of_user user_id (db w') =
    [mkTokenRow (sqlite_sequence (db w) + 1) user_id t2
                (utcnow env + timedelta_hours token_expiry_hours) false
                (CURRENT_TIMESTAMP (utcnow env))] /\
  (sequence_bounds (db w) ->
   forall r, In r (password_reset_tokens (db w)) -> prt_user_id r = user_id ->
             ~ In r (password_reset_tokens (db w'))) /\
  (forall r, In r (password_reset_tokens (db w)) ->
             prt_user_id r = user_id -> prt_token r <> t2 ->
             (forall r', In r' (password_reset_tokens (db w')) ->
                         prt_token r' <> prt_token r) /\
             (forall env', _validate_reset_token (prt_token r) env' w' = Returns None w')) /\
  (forall calls w0,
      one_row_per_user (db w0) ->
      forall uid now,
        (List.length (live_tokens_of_user now uid (db (run calls w0))) <= 1)%nat).
Proof.
  intros Hu Hrun. apply store_reset_token_stored in Hrun.
  destruct Hrun as [Hfresh ->].
  assert (Hrows : forall r',
             In r' (password_reset_tokens (db (with_db (issued env user_id t2 (db w)) w))) ->
             (In r' (password_reset_tokens (db w)) /\ prt_user_id r' <> user_id) \/
             r' = mkTokenRow (sqlite_sequence (db w) + 1) user_id t2
                             (utcnow env + timedelta_hours token_expiry_hours) false
                             (CURRENT_TIMESTAMP (utcnow env))).
  { simpl. intros r' Hr'. apply in_app_iff in Hr'. destruct Hr' as [Hr'|[<-|[]]].
    - left. apply filter_In in Hr'. destruct Hr' as [Hin Hne]. split; [exact Hin|].
      apply negb_true_iff in Hne. now apply Z.eqb_neq.
    - right. reflexivity. }
  split; [|split; [|split]].
  - unfold tokens_of_user. simpl. rewrite filter_app. simpl.
    rewrite Z.eqb_refl. rewrite filter_all_false; [reflexivity|].
    intros r Hr. apply filter_In in Hr. destruct Hr as [_ Hr].
    now apply negb_true_iff in Hr.
  - intros Hseq r Hr Hid Hr'.
    destruct (Hrows r Hr') as [[_ Hother]|Hnew]; [contradiction|].
    specialize (Hseq r Hr). rewrite Hnew in Hseq. simpl in Hseq. lia.
  - intros r Hr Hid Hne.
    assert (Hgone : forall r',
               In r' (password_reset_tokens (db (with_db (issued env user_id t2 (db w)) w))) ->
               prt_token r' <> prt_token r).
    { intros r' Hr' Heq. destruct (Hrows r' Hr') as [[Hin Hother]|Hnew].
      - assert (r' = r) by (eapply unique_key_injective; eauto).
        subst r'. contradiction.
      - subst r'. simpl in Heq. congruence. }
    split; [exact Hgone|].
    intros env'. apply validate_reset_token_refuses.
    intros r' Hr' Heq. exfalso. exact (Hgone r' Hr' Heq).
  - intros calls w0 H0 uid now.
    unfold live_tokens_of_user.
    etransitivity; [apply filter_and_length|].
    apply (run_invariant (fun _ => True) one_row_per_user).
    + intros d d'. apply steps_one_row_per_user.
    + apply Forall_forall. intros; exact I.
    + exact H0.
Qed.

(** *** The constraints of the schema are invariants *)

(** The primary key of [password_reset_tokens] holds in every state. *)
Lemma steps_primary_key (P : string -> Prop) (d d' : Database) :
  steps P d d' ->
  ids_unique d /\ sequence_bounds d -> ids_unique d' /\ sequence_bounds d'.
Proof.
  unfold ids_unique, sequence_bounds.
  intros H. induction H as [d|d1 d2 d3 _ IH1 _ IH2|clock s d d' Hs E
                              |clock uid t exp d d1 d' HP E1 E2];
    intros [Hn Hb].
  - auto.
  - auto.
  - destruct s; simpl in *; try contradiction; injection E as <-; simpl; auto.
    + split; [now apply NoDup_map_filter|].
      intros r Hr. apply filter_In in Hr. apply Hb. tauto.
    + split.
      * rewrite map_map. erewrite map_ext; [exact Hn|].
        intros r. destruct (has_token token r); reflexivity.
      * intros r Hr. apply in_map_iff in Hr. destruct Hr as [r0 [<- Hr0]].
        destruct (has_token token r0); simpl; now apply Hb.
    + split; [now apply NoDup_map_filter|].
      intros r Hr. apply filter_In in Hr. apply Hb. tauto.
  - simpl in E1. injection E1 as <-.
    apply exec_insert in E2. destruct E2 as [_ ->]. simpl in *.
    split.
    + rewrite map_app. simpl.
      apply NoDup_app; [now apply NoDup_map_filter|repeat constructor; simpl; tauto|].
      intros i Hi [<-|[]]. apply in_map_iff in Hi.
      destruct Hi as [r [Hk Hr]]. apply filter_In in Hr. destruct Hr as [Hr _].
      specialize (Hb r Hr). lia.
    + intros r Hr. apply in_app_iff in Hr. destruct Hr as [Hr|[<-|[]]].
      * apply filter_In in Hr. destruct Hr as [Hr _]. specialize (Hb r Hr). lia.
      * simpl. lia.
Qed.

Lemma steps_user_ids (P : string -> Prop) (d d' : Database) :
  steps P d d' -> map u_id (users d') = map u_id (users d).
Proof.
  intros H. apply steps_users in H.
  apply (f_equal (map (fun t : Z * string * string => fst (fst t)))) in H.
  now rewrite !map_map in H.
Qed.

(** Steps that insert nothing keep the foreign key. *)
Lemma steps_foreign_key (d d' : Database) :
  steps (fun _ => False) d d' -> foreign_key d -> foreign_key d'.
Proof.
  unfold foreign_key.
  intros H. induction H as [d|d1 d2 d3 _ IH1 _ IH2|clock s d d' Hs E
                              |clock uid t exp d d1 d' HP E1 E2]; intros Hfk.
  - exact Hfk.
  - auto.
  - destruct s; simpl in *; try contradiction; injection E as <-; simpl; auto.
    + intros r Hr. apply filter_In in Hr. apply Hfk. tauto.
    + intros r Hr. destruct (Hfk r Hr) as [u [Hu Hid]].
      exists (if u_id u =? user_id then set_password hashed_password u else u).
      split.
      * apply in_map_iff. exists u. auto.
      * destruct (u_id u =? user_id); exact Hid.
    + intros r Hr. apply in_map_iff in Hr. destruct Hr as [r0 [<- Hr0]].
      destruct (Hfk r0 Hr0) as [u [Hu Hid]]. exists u. split; [exact Hu|].
      destruct (has_token token r0); exact Hid.
    + intros r Hr. apply filter_In in Hr. apply Hfk. tauto.
  - contradiction.
Qed.

(** [_store_reset_token] keeps the foreign key when the user exists. *)
Lemma store_reset_token_foreign_key (env : Env) (w : World) (user_id : Z) (token : string) :
  (exists u, In u (users (db w)) /\ u_id u = user_id) ->
  foreign_key (db w) ->
  foreign_key (db (world_of (_store_reset_token user_id token env w))).
Proof.
  intros Huser Hfk. rewrite store_reset_token_unfold. cbv zeta.
  destruct (statement_raises env (DeleteTokensOfUser user_id)); [exact Hfk|].
  simpl exec_statement at 1. cbv iota.
  assert (Hdel : foreign_key
                   (with_tokens (filter (fun r => negb (prt_user_id r =? user_id))
                                        (password_reset_tokens (db w))) (db w))).
  { intros r Hr. simpl in Hr. apply filter_In in Hr. apply Hfk. tauto. }
  destruct (statement_raises env (InsertToken user_id token _ false)); [exact Hdel|].
  match goal with
  | |- context [exec_statement ?c ?s ?d] =>
      destruct (exec_statement c s d) as [e|d2] eqn:E2; [exact Hdel|]
  end.
  apply exec_insert in E2. destruct E2 as [_ ->]. simpl.
  intros r Hr. simpl in Hr. apply in_app_iff in Hr. destruct Hr as [Hr|[<-|[]]].
  - apply filter_In in Hr. apply Hfk. tauto.
  - exact Huser.
Qed.

(** [_store_reset_token] never raises. *)
Lemma store_reset_token_returns (env : Env) (w : World) (user_id : Z) (token : string) :
  exists b w', _store_reset_token user_id token env w = Returns b w'.
Proof.
  rewrite store_reset_token_unfold. cbv zeta.
  destruct (statement_raises env (DeleteTokensOfUser user_id)); [eauto|].
  destruct (exec_statement (utcnow env) (DeleteTokensOfUser user_id) (db w)); [eauto|].
  destruct (statement_raises env (InsertToken user_id token _ false)); [eauto|].
  match goal with
  | |- context [exec_statement ?c ?s ?d] => destruct (exec_statement c s d); eauto
  end.
Qed.

(* ================================================================== *)
(** ** Consuming a token *)

(** C3. After [_mark_token_as_used] has marked a token, no call of any
    method sets [used] back: the row that carried the token is used in
    every later state in which it is stored.  And across any sequence of
    calls in which the generator does not draw that same string again,
    every row that carries the token is used and [_validate_reset_token]
    returns [None] for it, at any time of the clock. *)
Theorem used_token_never_validates
        (env : Env) (w w1 : World) (token : string) (calls : list (Env * Call)) :
  _mark_token_as_used token env w = Returns true w1 ->
  (ids_unique (db w) -> sequence_bounds (db w) ->
   forall r r', In r (password_reset_tokens (db w1)) -> prt_token r = token ->
                In r' (password_reset_tokens (db (run calls w1))) ->
                prt_id r' = prt_id r -> prt_used r' = true) /\
  (Forall (fun ec => ~ inserts (fst ec) (snd ec) token) calls ->
   (forall r, In r (password_reset_tokens (db (run calls w1))) ->
              prt_token r = token -> prt_used r = true) /\
   (forall env', _validate_reset_token token env' (run calls w1)
                 = Returns None (run calls w1))).
Proof.
  intros Hmark.
  rewrite mark_token_as_used_unfold in Hmark.
  destruct (statement_raises env (UpdateTokenUsed true token)); [discriminate|].
  injection Hmark as <-.
  assert (Hmarked : forall r,
             In r (password_reset_tokens
                     (db (with_db (marked token (db w)) w))) ->
             prt_token r = token -> prt_used r = true).
  { simpl. intros r Hr Ht. apply in_map_iff in Hr. destruct Hr as [r0 [<- Hr0]].
    destruct (has_token token r0) eqn:E; [reflexivity|].
    apply has_token_false in E. contradiction. }
  split.
  - intros Hids Hseq r r' Hr Ht Hr' Hid.
    assert (Hinv :
      sequence_bounds (db (run calls (with_db (marked token (db w)) w))) /\
      prt_id r <= sqlite_sequence (db (run calls (with_db (marked token (db w)) w))) /\
      (forall r0, In r0 (password_reset_tokens (db (run calls (with_db (marked token (db w)) w)))) ->
                  prt_id r0 = prt_id r -> prt_used r0 = true)).
    { apply (run_invariant (fun _ => True)
               (fun d => sequence_bounds d /\ prt_id r <= sqlite_sequence d /\
                         (forall r0, In r0 (password_reset_tokens d) ->
                                     prt_id r0 = prt_id r -> prt_used r0 = true))).
      - intros d d'. apply steps_used_row.
      - apply Forall_forall. intros; exact I.
      - assert (Hb1 : forall r0,
                   In r0 (map (fun r => if has_token token r then set_used true r else r)
                              (password_reset_tokens (db w))) ->
                   prt_id r0 <= sqlite_sequence (db w)).
        { intros r0 Hr0. apply in_map_iff in Hr0. destruct Hr0 as [r1 [<- Hr1]].
          destruct (has_token token r1); simpl; now apply Hseq. }
        split; [exact Hb1|]. split; [now apply Hb1|].
        intros r0 Hr0 Hid0.
        assert (r0 = r).
        { apply (unique_key_injective prt_id
                   (map (fun r => if has_token token r then set_used true r else r)
                        (password_reset_tokens (db w)))); auto.
          rewrite map_map. unfold ids_unique in Hids.
          erewrite map_ext; [exact Hids|].
          intros r1. destruct (has_token token r1); reflexivity. }
        subst r0. now apply Hmarked. }
    destruct Hinv as [_ [_ Hused]]. now apply Hused.
  - intros Hfresh.
    assert (Hused : forall r,
               In r (password_reset_tokens (db (run calls (with_db (marked token (db w)) w)))) ->
               prt_token r = token -> prt_used r = true).
    { apply (run_invariant (fun t => t <> token)
               (fun d => forall r, In r (password_reset_tokens d) ->
                                   prt_token r = token -> prt_used r = true)).
      - intros d d' Hs. now apply steps_used.
      - eapply Forall_impl; [|exact Hfresh].
        intros [e c] Hn t Hins ->. exact (Hn Hins).
      - exact Hmarked. }
    split; [exact Hused|].
    intros env'. now apply validate_reset_token_refuses.
Qed.

(** C9. [_mark_token_as_used] is idempotent: after a call that marked the
    token, a second call whose [UPDATE] runs returns [True] again and leaves
    the world exactly as the first call left it. *)
Theorem mark_token_as_used_idempotent
        (env1 env2 : Env) (w w1 : World) (token : string) :
  _mark_token_as_used token env1 w = Returns true w1 ->
  statement_raises env2 (UpdateTokenUsed true token) = None ->
  _mark_token_as_used token env2 w1 = Returns true w1.
Proof.
  intros H1 H2. rewrite mark_token_as_used_unfold in H1.
  destruct (statement_raises env1 (UpdateTokenUsed true token)); [discriminate|].
  injection H1 as <-.
  rewrite mark_token_as_used_unfold, H2. f_equal.
  unfold with_db, marked, with_tokens. simpl. f_equal. f_equal.
  rewrite map_map. apply map_ext. intros r.
  destruct (has_token token r) eqn:E.
  - unfold has_token in *. simpl. rewrite E. reflexivity.
  - rewrite E. reflexivity.
Qed.

(** C10. For a token that no row carries, [_mark_token_as_used] returns
    [True] when its [UPDATE] runs, and in every case leaves the world, and
    with it every row of the table, as it was. *)
Theorem mark_token_as_used_absent (env : Env) (w : World) (token : string) :
  (forall r, In r (password_reset_tokens (db w)) -> prt_token r <> token) ->
  world_of (_mark_token_as_used token env w) = w /\
  (statement_raises env (UpdateTokenUsed true token) = None ->
   _mark_token_as_used token env w = Returns true w).
Proof.
  intros Habs.
  assert (Hsame : with_db (marked token (db w)) w = w).
  { destruct w as [[rows us seq] out log]. unfold with_db, marked, with_tokens. simpl in *.
    f_equal. f_equal.
    induction rows as [|r rows IH]; [reflexivity|]. simpl.
    rewrite IH by (intros r' Hr'; apply Habs; now right).
    assert (E : has_token token r = false)
      by (apply has_token_false; apply Habs; now left).
    now rewrite E. }
  rewrite mark_token_as_used_unfold.
  destruct (statement_raises env (UpdateTokenUsed true token)).
  - split; [reflexivity|discriminate].
  - simpl. rewrite Hsame. split; reflexivity.
Qed.

(* ================================================================== *)
(** ** The sweeper *)

(** The rows the sweeper keeps are the unused, unexpired ones. *)
Lemma kept_is_live (now : Z) (r : TokenRow) :
  negb (expired_or_used now true r) = live now r.
Proof.
  unfold expired_or_used, live.
  destruct (prt_used r);
    destruct (Z.ltb_spec (prt_expires_at r) now), (Z.leb_spec now (prt_expires_at r));
    simpl; try reflexivity; lia.
Qed.

Lemma filter_partition_length {A : Type} (p : A -> bool) (l : list A) :
  List.length l =
  (List.length (filter p l) + List.length (filter (fun x => negb (p x)) l))%nat.
Proof.
  induction l as [|a l IH]; simpl; [reflexivity|].
  destruct (p a); simpl; lia.
Qed.

(** [cleanup_expired_tokens] never raises; when the count or the delete
    raises it returns 0 and writes nothing. *)
Lemma cleanup_expired_tokens_unfold (env : Env) (w : World) :
  cleanup_expired_tokens env w =
  let now := utcnow env in
  match query_raises env Z (CountExpiredOrUsed now true) with
  | Some _ => Returns 0 w
  | None =>
      match statement_raises env (DeleteExpiredOrUsed now true) with
      | Some _ => Returns 0 w
      | None =>
          Returns
            (Z.of_nat (List.length (filter (expired_or_used now true)
                                           (password_reset_tokens (db w)))))
            (with_db (with_tokens
                        (filter (fun r => negb (expired_or_used now true r))
                                (password_reset_tokens (db w))) (db w)) w)
      end
  end.
Proof.
  unfold cleanup_expired_tokens, try_except, bind, ask, ret, execute_one, execute_query.
  cbv beta zeta.
  destruct (query_raises env Z (CountExpiredOrUsed (utcnow env) true)); [reflexivity|].
  destruct (statement_raises env (DeleteExpiredOrUsed (utcnow env) true)); reflexivity.
Qed.

(** C7. When neither of its statements raises, [cleanup_expired_tokens]
    removes exactly the rows with [used = true] or [expires_at < now], keeps
    every unused, unexpired row as it is and in its place, changes nothing
    else, and returns the number of rows it removed. *)
Theorem cleanup_expired_tokens_exact (env : Env) (w : World) :
  query_raises env Z (CountExpiredOrUsed (utcnow env) true) = None ->
  statement_raises env (DeleteExpiredOrUsed (utcnow env) true) = None ->
  let now := utcnow env in
  let removed := filter (fun r => prt_used r || (prt_expires_at r <? now))
                        (password_reset_tokens (db w)) in
  let kept := filter (live now) (password_reset_tokens (db w)) in
  cleanup_expired_tokens env w =
    Returns (Z.of_nat (List.length removed)) (with_db (with_tokens kept (db w)) w) /\
  (forall r, In r kept <->
             In r (password_reset_tokens (db w)) /\
             ~ (prt_used r = true \/ prt_expires_at r < now)) /\
  (forall r, In r (password_reset_tokens (db w)) ->
             prt_used r = false -> now <= prt_expires_at r -> In r kept) /\
  Z.of_nat (List.length removed) =
    Z.of_nat (List.length (password_reset_tokens (db w))) - Z.of_nat (List.length kept).
Proof.
  intros Hq Hs now removed kept.
  assert (Hremoved : removed = filter (expired_or_used now true) (password_reset_tokens (db w))).
  { unfold removed. apply filter_ext. intros r. unfold expired_or_used.
    destruct (prt_used r); simpl; [now rewrite orb_true_r|now rewrite orb_false_r]. }
  assert (Hkept : kept = filter (fun r => negb (expired_or_used now true r))
                                (password_reset_tokens (db w))).
  { unfold kept. apply filter_ext. intros r. symmetry. apply kept_is_live. }
  assert (Hlive : forall r, live now r = true <->
                            ~ (prt_used r = true \/ prt_expires_at r < now)).
  { intros r. unfold live. rewrite andb_true_iff, negb_true_iff, Z.leb_le.
    destruct (prt_used r); split.
    - intros [H _]. discriminate.
    - intros H. exfalso. apply H. now left.
    - intros [_ H] [Hc|Hc]; [discriminate|lia].
    - intros H. split; [reflexivity|].
      destruct (Z_le_gt_dec now (prt_expires_at r)); [assumption|].
      exfalso. apply H. right. lia. }
  repeat split.
  - rewrite cleanup_expired_tokens_unfold. cbv zeta.
    rewrite Hq, Hs, Hremoved, Hkept. reflexivity.
  - apply filter_In in H. tauto.
  - apply filter_In in H. apply Hlive. tauto.
  - intros [Hin Hn]. apply filter_In. split; [exact Hin|]. now apply Hlive.
  - intros r Hin Hu He. apply filter_In. split; [exact Hin|].
    apply Hlive. intros [Hc|Hc]; [congruence|lia].
  - rewrite Hremoved, Hkept.
    rewrite (filter_partition_length (expired_or_used now true)
                                     (password_reset_tokens (db w))).
    lia.
Qed.

(* ================================================================== *)
(** ** [reset_password] *)

Lemma falsy_str_false (s : string) : falsy_str s = false <-> s <> "".
Proof. unfold falsy_str. apply String.eqb_neq. Qed.

Lemma falsy_int_false (n : Z) : falsy_int n = false <-> n <> 0.
Proof. unfold falsy_int. apply Z.eqb_neq. Qed.

(** [_update_user_password] never raises; it returns [False] and writes
    nothing when the [UPDATE] raises. *)
Lemma update_user_password_unfold (user_id : Z) (hashed_password : string)
      (env : Env) (w : World) :
  _update_user_password user_id hashed_password env w =
  match statement_raises env (UpdateUserPassword hashed_password user_id) with
  | Some _ => Returns false w
  | None =>
      Returns true
        (with_db (with_users
                    (map (fun u => if u_id u =? user_id
                                   then set_password hashed_password u else u)
                         (users (db w))) (db w)) w)
  end.
Proof.
  unfold _update_user_password, try_except, bind, ret, execute_query.
  destruct (statement_raises env (UpdateUserPassword hashed_password user_id));
    reflexivity.
Qed.

(** The answer of [_validate_reset_token] depends on the database alone. *)
Lemma validate_reset_token_db (token : string) (env : Env) (w1 w2 : World) :
  db w1 = db w2 ->
  value_of (_validate_reset_token token env w1) =
  value_of (_validate_reset_token token env w2).
Proof.
  intros H. rewrite !validate_reset_token_unfold. simpl. now rewrite H.
Qed.

(** [reset_password] with a token that does not validate. *)
Lemma reset_password_invalid (token new_password : string) (env : Env) (w : World) :
  _validate_reset_token token env w = Returns None w ->
  reset_password token new_password env w =
  Returns (Error "Invalid or expired reset token")
          (logged (log_password_reset_completion_entry "unknown" false
                                                       (Some "Invalid token")) w).
Proof.
  intros H. unfold reset_password, try_except, bind. rewrite H. reflexivity.
Qed.

(** [reset_password] with a token whose user has no email or no id. *)
Lemma reset_password_anonymous (token new_password : string) (env : Env) (w : World)
      (u : User) :
  _validate_reset_token token env w = Returns (Some u) w ->
  falsy_str (email u) || falsy_int (id u) = true ->
  reset_password token new_password env w =
  Returns (Error "Invalid or expired reset token")
          (logged (log_password_reset_completion_entry "unknown" false
                                                       (Some "Invalid token")) w).
Proof.
  intros H Hf. unfold reset_password, try_except, bind. rewrite H, Hf. reflexivity.
Qed.

(** [reset_password] with a valid token and a password that is too short. *)
Lemma reset_password_too_short (token new_password : string) (env : Env) (w : World)
      (u : User) :
  _validate_reset_token token env w = Returns (Some u) w ->
  falsy_str (email u) || falsy_int (id u) = false ->
  Z.of_nat (String.length new_password) < 8 ->
  reset_password token new_password env w =
  Returns (Error "Password must be at least 8 characters long")
          (logged (log_password_reset_completion_entry (email u) false
                                                       (Some "Password too short")) w).
Proof.
  intros H Hf Hlen. unfold reset_password, try_except, bind. rewrite H, Hf.
  apply Z.ltb_lt in Hlen. rewrite Hlen. reflexivity.
Qed.

(** C4, as the code has it.  A new password of fewer than 8 characters
    always makes [reset_password] fail and leave the database and the
    outbox as they were, but the token is looked up first: the failure is
    the password-length error only when the token validates for a user with
    an email and an id, and "Invalid or expired reset token" when the
    lookup returns no user. *)
Theorem reset_password_short_password
        (token new_password : string) (env : Env) (w : World) :
  Z.of_nat (String.length new_password) < 8 ->
  (exists err, value_of (reset_password token new_password env w) = Some (Error err)) /\
  db (world_of (reset_password token new_password env w)) = db w /\
  outbox (world_of (reset_password token new_password env w)) = outbox w /\
  (forall u, _validate_reset_token token env w = Returns (Some u) w ->
             email u <> "" -> id u <> 0 ->
             value_of (reset_password token new_password env w)
             = Some (Error "Password must be at least 8 characters long")) /\
  (_validate_reset_token token env w = Returns None w ->
   value_of (reset_password token new_password env w)
   = Some (Error "Invalid or expired reset token")).
Proof.
  intros Hlen.
  pose proof (validate_reset_token_unfold token env w) as Hv.
  match type of Hv with _ = Returns ?x _ => set (v := x) in Hv; clearbody v end.
  destruct v as [u|].
  - destruct (falsy_str (email u) || falsy_int (id u)) eqn:Ef.
    + rewrite (reset_password_anonymous _ new_password _ _ _ Hv Ef).
      split; [eexists; reflexivity|]. split; [reflexivity|]. split; [reflexivity|].
      split; [|intros; reflexivity].
      intros u' Hu' He Hi. rewrite Hv in Hu'. injection Hu' as <-.
      apply falsy_str_false in He. apply falsy_int_false in Hi.
      rewrite He, Hi in Ef. discriminate.
    + rewrite (reset_password_too_short _ new_password _ _ _ Hv Ef Hlen).
      split; [eexists; reflexivity|]. split; [reflexivity|]. split; [reflexivity|].
      split; [intros; reflexivity|].
      rewrite Hv. discriminate.
  - rewrite (reset_password_invalid _ new_password _ _ Hv).
    split; [eexists; reflexivity|]. split; [reflexivity|]. split; [reflexivity|].
    split; [|intros; reflexivity].
    intros u Hu. rewrite Hv in Hu. discriminate.
Qed.

(** C6. When the token validates, the new password is long enough and the
    update of the user's password fails, [reset_password] returns the
    failure "Failed to update password", no statement has written to the
    database, so the token is not marked used, and the token validates
    afterwards exactly as it did before, for the same user at the same
    clock and alike at any later clock. *)
Theorem reset_password_update_fails
        (token new_password : string) (env : Env) (w : World) (u : User) :
  _validate_reset_token token env w = Returns (Some u) w ->
  email u <> "" -> id u <> 0 ->
  8 <= Z.of_nat (String.length new_password) ->
  value_of (_update_user_password (id u) (generate_password_hash env new_password) env w)
    = Some false ->
  let w' := logged (log_password_reset_completion_entry
                      (email u) false (Some "Failed to update password")) w in
  reset_password token new_password env w = Returns (Error "Failed to update password") w' /\
  db w' = db w /\
  _validate_reset_token token env w' = Returns (Some u) w' /\
  (forall env', value_of (_validate_reset_token token env' w')
                = value_of (_validate_reset_token token env' w)).
Proof.
  intros Hv He Hi Hlen Hupd w'.
  assert (Hrun : reset_password token new_password env w
                 = Returns (Error "Failed to update password") w').
  { unfold reset_password, try_except, bind, ask. rewrite Hv.
    apply falsy_str_false in He. apply falsy_int_false in Hi. rewrite He, Hi.
    assert (Hl : (Z.of_nat (String.length new_password) <? 8) = false)
      by (apply Z.ltb_ge; exact Hlen).
    change (false || false) with false. rewrite Hl. cbv beta iota.
    rewrite update_user_password_unfold in Hupd |- *.
    destruct (statement_raises env
                (UpdateUserPassword (generate_password_hash env new_password) (id u)));
      [reflexivity|discriminate]. }
  split; [exact Hrun|]. split; [reflexivity|]. split.
  - rewrite validate_reset_token_unfold in Hv |- *. injection Hv as Hv.
    change (db w') with (db w). now rewrite Hv.
  - intros env'. now apply validate_reset_token_db.
Qed.

(* ================================================================== *)
(** ** [request_password_reset] *)

Lemma find_by_email_unfold (email : string) (env : Env) (w : World) :
  find_by_email email env w =
  match query_raises env UserRow (SelectUserByEmail email) with
  | Some e => Raises e w
  | None =>
      Returns (option_map (fun u => mkUser (u_id u) (u_name u) (u_email u))
                          (find (fun u => String.eqb (u_email u) email) (users (db w)))) w
  end.
Proof.
  unfold find_by_email, bind, ret, execute_one.
  destruct (query_raises env UserRow (SelectUserByEmail email)); reflexivity.
Qed.

Lemma find_absent {A : Type} (p : A -> bool) (l : list A) :
  (forall x, In x l -> p x = false) -> find p l = None.
Proof.
  induction l as [|a l IH]; intros H; [reflexivity|].
  simpl. rewrite (H a (or_introl eq_refl)). apply IH.
  intros x Hx. apply H. now right.
Qed.

(** Sending a mail writes nothing to the database. *)
Lemma send_email_db (m : Email) (env : Env) (w : World) :
  db (world_of (EmailService._send_email m env w)) = db w.
Proof.
  unfold EmailService._send_email, EmailService._send_console_email,
    EmailService._send_smtp_email, try_except, bind, ask, ret.
  destruct (use_console env); [reflexivity|].
  destruct (smtp_raises env); reflexivity.
Qed.

Section Answers.

Context {A : Type} (Q : A -> Prop) (env : Env).

Lemma returns_only_ret (a : A) : Q a -> returns_only Q env (ret a).
Proof. intros H w a' w' E. injection E as <- _. exact H. Qed.

Lemma returns_only_bind {B : Type} (m : M B) (k : B -> M A) :
  (forall b, returns_only Q env (k b)) -> returns_only Q env (bind m k).
Proof.
  intros Hk w a w' E. unfold bind in E.
  destruct (m env w) as [b w1|e w1]; [|discriminate].
  exact (Hk b w1 a w' E).
Qed.

Lemma returns_only_try_except (body : M A) (handler : string -> M A) :
  returns_only Q env body -> (forall e, returns_only Q env (handler e)) ->
  returns_only Q env (try_except body handler).
Proof.
  intros Hb Hh w a w' E. unfold try_except in E.
  destruct (body env w) as [b w1|e w1] eqn:Eb.
  - injection E as <- <-. exact (Hb w b w1 Eb).
  - exact (Hh e w1 a w' E).
Qed.

End Answers.

(** C5. For an email address that no user has, [request_password_reset]
    returns the generic success message, writes nothing to the database and
    sends no mail; and every success response of [request_password_reset],
    whether or not the email address exists, carries that same message, so
    the success responses of two such runs are equal. *)
Theorem request_password_reset_unknown_email (email : string) (env : Env) (w : World) :
  query_raises env UserRow (SelectUserByEmail email) = None ->
  (forall u, In u (users (db w)) -> u_email u <> email) ->
  let w' := logged (log_password_reset_request_entry
                      email false (Some "User not found")) w in
  request_password_reset email env w =
    Returns (Success "If the email exists in our system, you will receive a password reset link.") w' /\
  db w' = db w /\
  outbox w' = outbox w /\
  (forall email1 env1 w1 email2 env2 w2 r1 r2,
      value_of (request_password_reset email1 env1 w1) = Some (Success r1) ->
      value_of (request_password_reset email2 env2 w2) = Some (Success r2) ->
      Success r1 = Success r2 /\
      r1 = "If the email exists in our system, you will receive a password reset link.").
Proof.
  intros Hq Habsent w'. split; [|split; [reflexivity|split; [reflexivity|]]].
  - unfold request_password_reset, try_except. unfold bind at 1.
    rewrite find_by_email_unfold, Hq.
    rewrite find_absent; [reflexivity|].
    intros u Hu. apply String.eqb_neq. now apply Habsent.
  - assert (Hgeneric : forall email0 env0,
               returns_only (fun r => forall m, r = Success m -> m = generic_message)
                            env0 (request_password_reset email0)).
    { intros email0 env0. unfold request_password_reset.
      repeat first
        [ apply returns_only_ret;
          let H := fresh in intros ? H; solve [discriminate H | now injection H as <-]
        | apply returns_only_try_except; [|intros ?]
        | apply returns_only_bind; intros ?
        | match goal with
          | |- returns_only _ _ (match ?x with _ => _ end) => destruct x
          end ]. }
    intros email1 env1 w1 email2 env2 w2 r1 r2 H1 H2.
    assert (Hval : forall email0 env0 w0 r,
               value_of (request_password_reset email0 env0 w0) = Some (Success r) ->
               r = generic_message).
    { intros email0 env0 w0 r H.
      destruct (request_password_reset email0 env0 w0) as [a w0'|e w0'] eqn:E;
        [|discriminate].
      injection H as ->. exact (Hgeneric email0 env0 w0 _ w0' E r eq_refl). }
    rewrite (Hval _ _ _ _ H1), (Hval _ _ _ _ H2). split; reflexivity.
Qed.

Lemma hd_error_filter_In {A : Type} (p : A -> bool) (l : list A) (x : A) :
  In x l -> p x = true ->
  exists y, hd_error (filter p l) = Some y /\ In y l /\ p y = true.
Proof.
  intros Hin Hp.
  assert (Hx : In x (filter p l)) by (apply filter_In; auto).
  destruct (filter p l) as [|y rest] eqn:E; [destruct Hx|].
  exists y. split; [reflexivity|].
  apply filter_In. rewrite E. now left.
Qed.

(** The token just issued validates until it expires, whoever else holds
    rows in the table. *)
Lemma issued_token_validates (env env' : Env) (w w' w'' : World) (u : User)
      (email_ token : string) :
  find_by_email email_ env w = Returns (Some u) w ->
  _store_reset_token (id u) token env w = Returns true w' ->
  db w'' = db w' ->
  query_raises env' TokenUserRow (SelectTokenJoinUser token) = None ->
  utcnow env' <= utcnow env + timedelta_hours token_expiry_hours ->
  exists u', _validate_reset_token token env' w'' = Returns (Some u') w'' /\
             id u' = id u.
Proof.
  intros Hfind Hstore Hdb Hq Hnow.
  apply store_reset_token_stored in Hstore. destruct Hstore as [Hfresh ->].
  simpl in Hdb.
  rewrite find_by_email_unfold in Hfind.
  destruct (query_raises env UserRow (SelectUserByEmail email_)); [discriminate|].
  injection Hfind as Hfind.
  destruct (find (fun u0 => String.eqb (u_email u0) email_) (users (db w)))
    as [row|] eqn:Erow; [|discriminate].
  injection Hfind as <-. simpl id in *.
  apply find_some in Erow. destruct Erow as [Hrow _].
  destruct (hd_error_filter_In (fun u0 => u_id row =? u_id u0) (users (db w)) row Hrow
                               (Z.eqb_refl _)) as [row' [Hhd [_ Hid]]].
  rewrite validate_reset_token_unfold, Hq.
  assert (Hjoin : join_token_user token (issued env (u_id row) token (db w)) =
                  map (fun u0 => mkTokenUserRow (u_id row)
                                   (utcnow env + timedelta_hours token_expiry_hours)
                                   false (u_name u0) (u_email u0))
                      (filter (fun u0 => u_id row =? u_id u0) (users (db w)))).
  { unfold join_token_user, issued. simpl.
    rewrite filter_app. simpl. unfold has_token at 2. simpl. rewrite String.eqb_refl.
    rewrite filter_all_false.
    - simpl. now rewrite app_nil_r.
    - intros r Hr. apply filter_In in Hr. destruct Hr as [Hr Hne].
      apply has_token_false. apply Hfresh; [exact Hr|].
      apply negb_true_iff in Hne. now apply Z.eqb_neq. }
  rewrite Hdb, Hjoin.
  destruct (filter (fun u0 => u_id row =? u_id u0) (users (db w))) as [|first rest];
    [discriminate|].
  unfold user_if_valid. cbn [map hd_error r_used r_expires_at r_user_id r_name r_email].
  assert (Ee : (utcnow env' >? utcnow env + timedelta_hours token_expiry_hours) = false).
  { rewrite Z.gtb_ltb. apply Z.ltb_ge. exact Hnow. }
  rewrite Ee. eexists. split; reflexivity.
Qed.

(** C8. When a token has been issued for an existing user and the mail
    with the reset link cannot be sent, [request_password_reset] returns the
    failure "Failed to send password reset email", the database stays as
    [_store_reset_token] left it, with the row of the issued token, and the
    token validates for that user until it expires. *)
Theorem request_password_reset_email_fails
        (email_ : string) (env : Env) (w w1 w2 : World) (u : User) :
  find_by_email email_ env w = Returns (Some u) w ->
  id u <> 0 ->
  _store_reset_token (id u) (generated_token env) env w = Returns true w1 ->
  EmailService.send_password_reset_email email_ (generated_token env) (name u) env w1
    = Returns false w2 ->
  let w3 := logged (log_password_reset_request_entry
                      email_ false (Some "Failed to send email")) w2 in
  request_password_reset email_ env w =
    Returns (Error "Failed to send password reset email") w3 /\
  db w3 = db w1 /\
  In (mkTokenRow (sqlite_sequence (db w) + 1) (id u) (generated_token env)
                 (utcnow env + timedelta_hours token_expiry_hours) false
                 (CURRENT_TIMESTAMP (utcnow env)))
     (password_reset_tokens (db w3)) /\
  (forall env',
      query_raises env' TokenUserRow (SelectTokenJoinUser (generated_token env)) = None ->
      utcnow env' <= utcnow env + timedelta_hours token_expiry_hours ->
      exists u', _validate_reset_token (generated_token env) env' w3
                 = Returns (Some u') w3 /\ id u' = id u).
Proof.
  intros Hfind Hid Hstore Hsend w3.
  assert (Hdb : db w3 = db w1).
  { change (db w3) with (db w2).
    pose proof (send_email_db
                  (mkEmail email_ "Password Reset Request - User Auth API" (name u)
                           (Some (app_base_url env ++ "/reset-password?token="
                                               ++ generated_token env)%string))
                  env w1) as H.
    unfold EmailService.send_password_reset_email, bind, ask in Hsend.
    rewrite Hsend in H. exact H. }
  split; [|split; [exact Hdb|split]].
  - unfold request_password_reset, try_except. unfold bind at 1. rewrite Hfind.
    apply falsy_int_false in Hid. rewrite Hid.
    unfold bind at 1. rewrite generate_reset_token_returns.
    unfold bind at 1. rewrite Hstore.
    change (negb true) with false. cbv iota.
    unfold bind at 1. rewrite Hsend. reflexivity.
  - rewrite Hdb. apply store_reset_token_stored in Hstore.
    destruct Hstore as [_ ->]. simpl. apply in_or_app. right. now left.
  - intros env' Hq Hnow.
    exact (issued_token_validates env env' w w1 w3 u email_ (generated_token env)
                                  Hfind Hstore Hdb Hq Hnow).
Qed.

(* ================================================================== *)
(** ** The schema holds along the public methods *)

(** [request_password_reset], branch by branch. *)
Lemma request_password_reset_unfold (email_ : string) (env : Env) (w : World) :
  request_password_reset email_ env w =
  match query_raises env UserRow (SelectUserByEmail email_) with
  | Some e =>
      Returns (Error "Internal server error")
              (logged (log_password_reset_request_entry
                         email_ false (Some ("Exception: " ++ e)%string)) w)
  | None =>
      match find (fun u => String.eqb (u_email u) email_) (users (db w)) with
      | None =>
          Returns (Success generic_message)
                  (logged (log_password_reset_request_entry
                             email_ false (Some "User not found")) w)
      | Some row =>
          if falsy_int (u_id row) then
            Returns (Success generic_message)
                    (logged (log_password_reset_request_entry
                               email_ false (Some "User not found")) w)
          else
            match _store_reset_token (u_id row) (generated_token env) env w with
            | Raises e w1 =>
                Returns (Error "Internal server error")
                        (logged (log_password_reset_request_entry
                                   email_ false (Some ("Exception: " ++ e)%string)) w1)
            | Returns false w1 =>
                Returns (Error "Failed to process password reset request")
                        (logged (log_password_reset_request_entry
                                   email_ false (Some "Failed to store token")) w1)
            | Returns true w1 =>
                match EmailService.send_password_reset_email
                        email_ (generated_token env) (u_name row) env w1 with
                | Raises e w2 =>
                    Returns (Error "Internal server error")
                            (logged (log_password_reset_request_entry
                                       email_ false (Some ("Exception: " ++ e)%string)) w2)
                | Returns true w2 =>
                    Returns (Success generic_message)
                            (logged (log_password_reset_request_entry email_ true None) w2)
                | Returns false w2 =>
                    Returns (Error "Failed to send password reset email")
                            (logged (log_password_reset_request_entry
                                       email_ false (Some "Failed to send email")) w2)
                end
            end
      end
  end.
Proof.
  unfold request_password_reset, try_except. unfold bind at 1.
  rewrite find_by_email_unfold.
  destruct (query_raises env UserRow (SelectUserByEmail email_)); [reflexivity|].
  destruct (find (fun u => String.eqb (u_email u) email_) (users (db w)))
    as [row|]; [|reflexivity].
  cbn [option_map id name].
  destruct (falsy_int (u_id row)); [reflexivity|].
  unfold bind at 1. rewrite generate_reset_token_returns.
  unfold bind at 1.
  destruct (_store_reset_token (u_id row) (generated_token env) env w)
    as [[|] w1|e w1]; [|reflexivity|reflexivity].
  change (negb true) with false. cbv iota. unfold bind at 1.
  destruct (EmailService.send_password_reset_email
              email_ (generated_token env) (u_name row) env w1)
    as [[|] w2|e w2]; reflexivity.
Qed.

(** [request_password_reset] leaves the database as it found it, or as
    [_store_reset_token] left it for a user of the directory. *)
Lemma request_password_reset_db (email_ : string) (env : Env) (w : World) :
  db (world_of (request_password_reset email_ env w)) = db w \/
  exists u, In u (users (db w)) /\
            db (world_of (request_password_reset email_ env w)) =
            db (world_of (_store_reset_token (u_id u) (generated_token env) env w)).
Proof.
  rewrite request_password_reset_unfold.
  destruct (query_raises env UserRow (SelectUserByEmail email_)); [now left|].
  destruct (find (fun u => String.eqb (u_email u) email_) (users (db w)))
    as [row|] eqn:Erow; [|now left].
  apply find_some in Erow. destruct Erow as [Hrow _].
  destruct (falsy_int (u_id row)); [now left|].
  right. exists row. split; [exact Hrow|].
  destruct (_store_reset_token (u_id row) (generated_token env) env w)
    as [[|] w1|e w1]; try reflexivity.
  pose proof (send_email_db
                (mkEmail email_ "Password Reset Request - User Auth API" (u_name row)
                         (Some (app_base_url env ++ "/reset-password?token="
                                             ++ generated_token env)%string))
                env w1) as Hsend.
  unfold EmailService.send_password_reset_email, bind, ask.
  destruct (EmailService._send_email _ env w1) as [[|] w2|e w2]; exact Hsend.
Qed.

(** Every public method keeps the constraints of the schema. *)
Lemma public_call_well_formed (env : Env) (c : Call) (w : World) :
  public c -> well_formed (db w) -> well_formed (db (world_of (perform c env w))).
Proof.
  intros Hpub [Htok [Huid Hfk]].
  pose proof (perform_steps env c w) as Hsteps.
  split; [|split].
  - eapply steps_tokens_unique; eauto.
  - unfold user_ids_unique. rewrite (steps_user_ids _ _ _ Hsteps). exact Huid.
  - destruct c; try contradiction.
    + assert (Hw : db (world_of (perform (call_request_password_reset email0) env w))
                   = db (world_of (request_password_reset email0 env w))).
      { simpl. unfold bind.
        destruct (request_password_reset email0 env w); reflexivity. }
      rewrite Hw.
      destruct (request_password_reset_db email0 env w) as [->|[u [Hu ->]]];
        [exact Hfk|].
      apply store_reset_token_foreign_key; [|exact Hfk]. exists u. auto.
    + eapply steps_foreign_key; [|exact Hfk].
      eapply steps_weaken; [|exact Hsteps]. simpl. auto.
    + eapply steps_foreign_key; [|exact Hfk].
      eapply steps_weaken; [|exact Hsteps]. simpl. auto.
    + eapply steps_foreign_key; [|exact Hfk].
      eapply steps_weaken; [|exact Hsteps]. simpl. auto.
Qed.

(** From a store that meets its schema, such as the empty table the
    migration creates, the public methods reach only stores that meet it. *)
Lemma public_run_well_formed (calls : list (Env * Call)) (w : World) :
  Forall (fun ec => public (snd ec)) calls ->
  well_formed (db w) -> well_formed (db (run calls w)).
Proof.
  revert w. induction calls as [|[env c] calls IH]; intros w Hall Hw; [exact Hw|].
  inversion Hall as [|? ? Hc Hrest]; subst.
  unfold run. simpl. apply IH; [exact Hrest|].
  now apply public_call_well_formed.
Qed.

(* ================================================================== *)
(** ** Concrete runs *)

Import Samples.

(** A request for an existing user issues the token and answers with the
    generic message. *)
Example request_password_reset_alice :
  value_of (request_password_reset "alice@example.com" (no_faults 1000 0) empty_world)
    = Some (Success generic_message) /\
  db (world_of (request_password_reset "alice@example.com" (no_faults 1000 0) empty_world))
    = db alice_pending.
Proof. split; reflexivity. Qed.

(** The whole cycle: the token resets the password once, and only once. *)
Example reset_password_twice :
  let w1 := world_of (reset_password alice_token "long-enough" (no_faults 2000 0)
                                     alice_pending) in
  value_of (reset_password alice_token "long-enough" (no_faults 2000 0) alice_pending)
    = Some (Success "Password has been reset successfully") /\
  map u_password (users (db w1)) = ["pbkdf2$long-enough"; "old-hash-b"] /\
  value_of (reset_password alice_token "another-password" (no_faults 3000 0) w1)
    = Some (Error "Invalid or expired reset token").
Proof. repeat split; reflexivity. Qed.

(** Sixty-one minutes after it was issued the token is refused. *)
Example reset_password_after_expiry :
  value_of (reset_password alice_token "long-enough"
                           (no_faults (1000 + 61 * 60 * 1000000) 0) alice_pending)
    = Some (Error "Invalid or expired reset token").
Proof. reflexivity. Qed.

Lemma alice_pending_well_formed : well_formed (db alice_pending).
Proof.
  split; [|split].
  - repeat constructor. simpl. tauto.
  - repeat constructor; simpl; intuition discriminate.
  - intros r [<-|[]]. exists alice. split; [now left|reflexivity].
Defined.

(** C1 at the boundary [now = expires_at]. *)
Lemma validate_reset_token_iff_witness :
  well_formed (db alice_pending) /\
  query_raises (no_faults 3600001000 0) TokenUserRow (SelectTokenJoinUser alice_token)
    = None /\
  _validate_reset_token alice_token (no_faults 3600001000 0) alice_pending
    = Returns (Some (mkUser 1 "Alice" "alice@example.com")) alice_pending.
Proof.
  split; [exact alice_pending_well_formed|]. split; [reflexivity|].
  apply (proj1 (validate_reset_token_iff (no_faults 3600001000 0) alice_pending alice_token
                  alice_pending_well_formed eq_refl)).
  exists alice_row. split; [now left|]. split; [reflexivity|]. split; [reflexivity|].
  split; [apply Z.le_refl|].
  exists alice. split; [now left|]. split; reflexivity.
Defined.

(** C2: a second token for Alice replaces the first. *)
Lemma store_reset_token_replaces_witness :
  tokens_unique (db alice_pending) /\
  _store_reset_token 1 "hijklmnopqrstuvwxyzABCDEFGHIJKLM" (no_faults 5000 7) alice_pending
    = Returns true
        (mkWorld (mkDatabase
                    [mkTokenRow 2 1 "hijklmnopqrstuvwxyzABCDEFGHIJKLM" 3600005000 false 0]
                    [alice; bob] 2) [] []) /\
  _validate_reset_token alice_token (no_faults 6000 0)
    (mkWorld (mkDatabase
                [mkTokenRow 2 1 "hijklmnopqrstuvwxyzABCDEFGHIJKLM" 3600005000 false 0]
                [alice; bob] 2) [] [])
    = Returns None
        (mkWorld (mkDatabase
                    [mkTokenRow 2 1 "hijklmnopqrstuvwxyzABCDEFGHIJKLM" 3600005000 false 0]
                    [alice; bob] 2) [] []).
Proof.
  split; [exact (proj1 alice_pending_well_formed)|]. split; [reflexivity|].
  refine (proj2 (proj1 (proj2 (proj2 (store_reset_token_replaces
                                        (no_faults 5000 7) alice_pending _ 1
                                        "hijklmnopqrstuvwxyzABCDEFGHIJKLM"
                                        (proj1 alice_pending_well_formed) eq_refl)))
                       alice_row _ eq_refl _) (no_faults 6000 0)).
  - now left.
  - discriminate.
Defined.

(** C3: Alice's token, once marked, stays refused while Bob asks for a
    token, Alice tries it again, the validity is checked and the sweeper
    runs. *)
Lemma used_token_never_validates_witness :
  _mark_token_as_used alice_token (no_faults 2000 0) alice_pending
    = Returns true
        (mkWorld (mkDatabase [set_used true alice_row] [alice; bob] 1) [] []) /\
  _validate_reset_token alice_token (no_faults 9000 0)
    (run [ (no_faults 5000 7, call_request_password_reset "bob@example.com");
           (no_faults 6000 0, call_reset_password alice_token "long-enough");
           (no_faults 7000 0, call_validate_reset_token alice_token);
           (no_faults 8000 0, call_cleanup_expired_tokens) ]
         (mkWorld (mkDatabase [set_used true alice_row] [alice; bob] 1) [] []))
    = Returns None
        (run [ (no_faults 5000 7, call_request_password_reset "bob@example.com");
               (no_faults 6000 0, call_reset_password alice_token "long-enough");
               (no_faults 7000 0, call_validate_reset_token alice_token);
               (no_faults 8000 0, call_cleanup_expired_tokens) ]
             (mkWorld (mkDatabase [set_used true alice_row] [alice; bob] 1) [] [])).
Proof.
  split; [reflexivity|].
  refine (proj2 (proj2 (used_token_never_validates
                          (no_faults 2000 0) alice_pending _ alice_token _ eq_refl) _)
                (no_faults 9000 0)).
  repeat constructor; simpl; intros H; try exact H.
  vm_compute in H. discriminate H.
Defined.

(** C4, as the code has it: with a valid token the short password is what
    is reported. *)
Lemma reset_password_short_password_witness :
  Z.of_nat (String.length "short12") < 8 /\
  value_of (reset_password alice_token "short12" (no_faults 2000 0) alice_pending)
    = Some (Error "Password must be at least 8 characters long") /\
  db (world_of (reset_password alice_token "short12" (no_faults 2000 0) alice_pending))
    = db alice_pending.
Proof.
  assert (Hlen : Z.of_nat (String.length "short12") < 8) by reflexivity.
  split; [exact Hlen|].
  destruct (reset_password_short_password alice_token "short12" (no_faults 2000 0)
                                          alice_pending Hlen)
    as [_ [Hdb [_ [Hvalid _]]]].
  split; [|exact Hdb].
  apply (Hvalid (mkUser 1 "Alice" "alice@example.com")); [reflexivity| |]; discriminate.
Defined.

(** C4 as stated fails: for a token that is not stored and a password of
    7 characters, the failure names the token, not the password, because
    the lookup comes first. *)
Lemma reset_password_checks_token_first :
  Z.of_nat (String.length "short12") = 7 /\
  value_of (reset_password "no-such-token" "short12" (no_faults 2000 0) alice_pending)
    = Some (Error "Invalid or expired reset token") /\
  value_of (reset_password "no-such-token" "short12" (no_faults 2000 0) alice_pending)
    <> Some (Error "Password must be at least 8 characters long").
Proof. split; [reflexivity|]. split; [reflexivity|]. discriminate. Qed.

(** C5: Carol has no account. *)
Lemma request_password_reset_unknown_email_witness :
  query_raises (no_faults 1000 0) UserRow (SelectUserByEmail "carol@example.com") = None /\
  request_password_reset "carol@example.com" (no_faults 1000 0) empty_world
    = Returns
        (Success "If the email exists in our system, you will receive a password reset link.")
        (logged (log_password_reset_request_entry "carol@example.com" false
                                                  (Some "User not found")) empty_world).
Proof.
  split; [reflexivity|].
  refine (proj1 (request_password_reset_unknown_email
                   "carol@example.com" (no_faults 1000 0) empty_world eq_refl _)).
  intros u [<-|[<-|[]]]; discriminate.
Defined.

(** C6: the database is locked when the password is to be written. *)
Lemma reset_password_update_fails_witness :
  value_of (_update_user_password 1
              (generate_password_hash (update_fails 2000) "long-enough")
              (update_fails 2000) alice_pending) = Some false /\
  reset_password alice_token "long-enough" (update_fails 2000) alice_pending
    = Returns (Error "Failed to update password")
        (logged (log_password_reset_completion_entry
                   "alice@example.com" false (Some "Failed to update password"))
                alice_pending) /\
  _validate_reset_token alice_token (update_fails 2000)
    (logged (log_password_reset_completion_entry
               "alice@example.com" false (Some "Failed to update password"))
            alice_pending)
    = Returns (Some (mkUser 1 "Alice" "alice@example.com"))
        (logged (log_password_reset_completion_entry
                   "alice@example.com" false (Some "Failed to update password"))
                alice_pending).
Proof.
  split; [reflexivity|].
  assert (Hid : 1 <> 0) by discriminate.
  assert (Hemail : "alice@example.com" <> "") by discriminate.
  assert (Hlen : 8 <= Z.of_nat (String.length "long-enough")) by discriminate.
  destruct (reset_password_update_fails
              alice_token "long-enough" (update_fails 2000) alice_pending
              (mkUser 1 "Alice" "alice@example.com")
              eq_refl Hemail Hid Hlen eq_refl) as [Hrun [_ [Hvalid _]]].
  split; [exact Hrun|exact Hvalid].
Defined.

(** C7: three expired, two used and two valid rows; five are removed and
    the two valid ones stay. *)
Lemma cleanup_expired_tokens_exact_witness :
  query_raises (no_faults swept_at 0) Z (CountExpiredOrUsed swept_at true) = None /\
  statement_raises (no_faults swept_at 0) (DeleteExpiredOrUsed swept_at true) = None /\
  cleanup_expired_tokens (no_faults swept_at 0) mixed_world
    = Returns 5
        (mkWorld (mkDatabase [ mkTokenRow 3 3 "valid-1" 20000 false 0;
                               mkTokenRow 6 6 "valid-2" 10000 false 0 ]
                             [alice; bob] 7) [] []).
Proof.
  split; [reflexivity|]. split; [reflexivity|].
  rewrite (proj1 (cleanup_expired_tokens_exact (no_faults swept_at 0) mixed_world
                                               eq_refl eq_refl)).
  reflexivity.
Defined.

(** C8: the token is issued for Alice, the SMTP server is down. *)
Lemma request_password_reset_email_fails_witness :
  request_password_reset "alice@example.com" (smtp_down 1000 0) empty_world
    = Returns (Error "Failed to send password reset email")
        (mkWorld (mkDatabase [alice_row] [alice; bob] 1) []
                 [ log_email_error_entry "alice@example.com" "Connection refused";
                   log_password_reset_request_entry "alice@example.com" false
                                                    (Some "Failed to send email") ]) /\
  In alice_row
     (password_reset_tokens
        (db (world_of (request_password_reset "alice@example.com" (smtp_down 1000 0)
                                              empty_world)))).
Proof.
  assert (Hid : 1 <> 0) by discriminate.
  destruct (request_password_reset_email_fails
              "alice@example.com" (smtp_down 1000 0) empty_world
              (mkWorld (mkDatabase [alice_row] [alice; bob] 1) [] [])
              (mkWorld (mkDatabase [alice_row] [alice; bob] 1) []
                       [log_email_error_entry "alice@example.com" "Connection refused"])
              (mkUser 1 "Alice" "alice@example.com")
              eq_refl Hid eq_refl eq_refl) as [Hrun [_ [Hrow _]]].
  split; [exact Hrun|]. rewrite Hrun. exact Hrow.
Defined.

(** C9: marking Alice's token twice. *)
Lemma mark_token_as_used_idempotent_witness :
  _mark_token_as_used alice_token (no_faults 2000 0) alice_pending
    = Returns true (mkWorld (mkDatabase [set_used true alice_row] [alice; bob] 1) [] []) /\
  _mark_token_as_used alice_token (no_faults 3000 0)
    (mkWorld (mkDatabase [set_used true alice_row] [alice; bob] 1) [] [])
    = Returns true (mkWorld (mkDatabase [set_used true alice_row] [alice; bob] 1) [] []).
Proof.
  split; [reflexivity|].
  exact (mark_token_as_used_idempotent (no_faults 2000 0) (no_faults 3000 0)
           alice_pending _ alice_token eq_refl eq_refl).
Defined.

(** C10: marking a token that was never issued. *)
Lemma mark_token_as_used_absent_witness :
  _mark_token_as_used "no-such-token" (no_faults 2000 0) alice_pending
    = Returns true alice_pending.
Proof.
  refine (proj2 (mark_token_as_used_absent (no_faults 2000 0) alice_pending
                                           "no-such-token" _) eq_refl).
  intros r [<-|[]]. discriminate.
Defined.

(* ================================================================== *)
(** ** The token generator *)

Lemma drawn_string_length (alphabet : string) (env : Env) (n k : nat) :
  String.length (drawn_string alphabet env k n) = n.
Proof.
  revert k. induction n as [|n IH]; intros k; simpl; [reflexivity|].
  now rewrite IH.
Qed.

Lemma length_list_ascii (s : string) :
  List.length (list_ascii_of_string s) = String.length s.
Proof. induction s as [|c s IH]; simpl; [reflexivity|now rewrite IH]. Qed.

Lemma drawn_string_alphabet (alphabet : string) (env : Env) (n k : nat) :
  String.length alphabet <> O ->
  Forall (fun c => In c (list_ascii_of_string alphabet))
         (list_ascii_of_string (drawn_string alphabet env k n)).
Proof.
  intros Hne. revert k. induction n as [|n IH]; intros k; simpl; constructor.
  - unfold drawn. apply nth_In. rewrite length_list_ascii.
    now apply Nat.mod_upper_bound.
  - apply IH.
Qed.

(** X1. Whatever the random source draws, [_generate_reset_token] returns
    32 characters, each an ASCII letter or a digit, an alphabet of 62
    distinct symbols, and touches nothing. *)
Theorem generate_reset_token_shape (env : Env) (w : World) :
  exists token,
    _generate_reset_token env w = Returns token w /\
    String.length token = 32%nat /\
    Forall (fun c => In c (list_ascii_of_string (ascii_letters ++ digits)%string))
           (list_ascii_of_string token) /\
    List.length (list_ascii_of_string (ascii_letters ++ digits)%string) = 62%nat /\
    NoDup (list_ascii_of_string (ascii_letters ++ digits)%string).
Proof.
  exists (generated_token env). split; [apply generate_reset_token_returns|].
  split; [apply drawn_string_length|].
  split; [apply drawn_string_alphabet; discriminate|].
  split; [reflexivity|].
  vm_compute. repeat (constructor; [simpl; intuition discriminate|]). constructor.
Qed.

(* ================================================================== *)
(** ** Sending mail *)

Lemma send_email_unfold (m : Email) (env : Env) (w : World) :
  EmailService._send_email m env w =
  if use_console env then Returns true (sent "console" m w)
  else match smtp_raises env with
       | Some e => Returns false (logged (log_email_error_entry (to_email m) e) w)
       | None => Returns true (sent "smtp" m w)
       end.
Proof.
  unfold EmailService._send_email, EmailService._send_console_email,
    EmailService._send_smtp_email, try_except, bind, ask, ret.
  destruct (use_console env); [reflexivity|].
  destruct (smtp_raises env); reflexivity.
Qed.


(* ================================================================== *)
(** ** More on [_store_reset_token] *)

Lemma filter_filter_other {A : Type} (p q : A -> bool) (l : list A) :
  (forall x, p x = true -> q x = true) ->
  filter p (filter q l) = filter p l.
Proof.
  intros H. induction l as [|a l IH]; simpl; [reflexivity|].
  destruct (q a) eqn:Eq; simpl.
  - now rewrite IH.
  - destruct (p a) eqn:Ep; [|exact IH].
    rewrite (H a Ep) in Eq. discriminate.
Qed.

(** The world after the [DELETE] of [_store_reset_token] alone. *)
Lemma store_reset_token_cases (env : Env) (w : World) (user_id : Z) (token : string) :
  let evicted := with_db (with_tokens
                            (filter (fun r => negb (prt_user_id r =? user_id))
                                    (password_reset_tokens (db w))) (db w)) w in
  _store_reset_token user_id token env w = Returns false w \/
  _store_reset_token user_id token env w = Returns false evicted \/
  _store_reset_token user_id token env w
    = Returns true (with_db (issued env user_id token (db w)) w).
Proof.
  intros evicted. rewrite store_reset_token_unfold. cbv zeta.
  destruct (statement_raises env (DeleteTokensOfUser user_id)); [now left|].
  destruct (exec_statement (utcnow env) (DeleteTokensOfUser user_id) (db w))
    as [e|d1] eqn:E1; simpl in E1; [discriminate|]. injection E1 as <-.
  destruct (statement_raises env (InsertToken user_id token _ false));
    [right; left; reflexivity|].
  match goal with
  | |- context [exec_statement ?c ?s ?d] =>
      destruct (exec_statement c s d) as [e|d2] eqn:E2
  end.
  - right; left; reflexivity.
  - right; right. apply exec_insert in E2. destruct E2 as [_ ->]. reflexivity.
Qed.

(** X3. [_store_reset_token] never raises and is not atomic: when it
    returns [False], either the [DELETE] raised and the world is as it was,
    or the user is left with no token at all, the old ones evicted and the
    new one not stored.  The second case is what a token that another
    user's row already carries produces. *)
Theorem store_reset_token_failure
        (env : Env) (w w' : World) (user_id : Z) (token : string) :
  _store_reset_token user_id token env w = Returns false w' ->
  (w' = w /\ statement_raises env (DeleteTokensOfUser user_id) <> None) \/
  (tokens_of_user user_id (db w') = [] /\
   statement_raises env (DeleteTokensOfUser user_id) = None /\
   (statement_raises env (InsertToken user_id token
                            (utcnow env + timedelta_hours token_expiry_hours) false)
      <> None \/
    exists r, In r (password_reset_tokens (db w)) /\
              prt_user_id r <> user_id /\ prt_token r = token)).
Proof.
  rewrite store_reset_token_unfold. cbv zeta.
  destruct (statement_raises env (DeleteTokensOfUser user_id)) as [e|] eqn:Ed.
  - intros H. injection H as <-. left. split; [reflexivity|discriminate].
  - destruct (exec_statement (utcnow env) (DeleteTokensOfUser user_id) (db w))
      as [e|d1] eqn:E1; simpl in E1; [discriminate|]. injection E1 as <-.
    assert (Hnone : forall w0,
               w0 = with_db (with_tokens
                               (filter (fun r => negb (prt_user_id r =? user_id))
                                       (password_reset_tokens (db w))) (db w)) w ->
               tokens_of_user user_id (db w0) = []).
    { intros w0 ->. unfold tokens_of_user. simpl.
      apply filter_all_false. intros r Hr. apply filter_In in Hr.
      destruct Hr as [_ Hr]. now apply negb_true_iff in Hr. }
    destruct (statement_raises env (InsertToken user_id token _ false)) as [e|] eqn:Ei.
    + intros H. injection H as <-. right.
      split; [now apply Hnone|]. split; [reflexivity|]. left. discriminate.
    + match goal with
      | |- context [exec_statement ?c ?s ?d] =>
          destruct (exec_statement c s d) as [e|d2] eqn:E2
      end; [|discriminate].
      intros H. injection H as <-. right.
      split; [now apply Hnone|]. split; [reflexivity|]. right.
      simpl in E2.
      destruct (existsb (has_token token)
                        (filter (fun r => negb (prt_user_id r =? user_id))
                                (password_reset_tokens (db w)))) eqn:Ex;
        [|discriminate].
      apply existsb_exists in Ex. destruct Ex as [r [Hr Ht]].
      apply filter_In in Hr. destruct Hr as [Hr Hne].
      exists r. split; [exact Hr|]. split.
      * apply negb_true_iff in Hne. now apply Z.eqb_neq.
      * now apply has_token_true.
Qed.

(** X4. Whatever [_store_reset_token] does for one user, it leaves the
    rows of every other user, the users, the outbox and the security log as
    they were. *)
Theorem store_reset_token_frame
        (env : Env) (w : World) (user_id other : Z) (token : string) :
  other <> user_id ->
  let w' := world_of (_store_reset_token user_id token env w) in
  tokens_of_user other (db w') = tokens_of_user other (db w) /\
  users (db w') = users (db w) /\
  outbox w' = outbox w /\
  security_log w' = security_log w.
Proof.
  intros Hne.
  assert (Hkeep : filter (fun r => prt_user_id r =? other)
                         (filter (fun r => negb (prt_user_id r =? user_id))
                                 (password_reset_tokens (db w)))
                  = filter (fun r => prt_user_id r =? other)
                           (password_reset_tokens (db w))).
  { apply filter_filter_other. intros r Hr. apply Z.eqb_eq in Hr.
    apply negb_true_iff. apply Z.eqb_neq. congruence. }
  destruct (store_reset_token_cases env w user_id token) as [H|[H|H]];
    rewrite H; unfold tokens_of_user; simpl.
  - auto.
  - rewrite Hkeep. auto.
  - rewrite filter_app, Hkeep. simpl.
    assert (E : (user_id =? other) = false) by (apply Z.eqb_neq; congruence).
    rewrite E, app_nil_r. auto.
Qed.

(* ================================================================== *)
(** ** More on [_update_user_password] *)

(** X5. When its [UPDATE] runs, [_update_user_password] returns [True],
    gives the new hash to every user row with that id and changes nothing
    else: no id, name or email, no other user's password, no token row.
    For an id that no user has it still returns [True], and the world is
    as it was. *)
Theorem update_user_password_effect
        (env : Env) (w : World) (user_id : Z) (hashed_password : string) :
  statement_raises env (UpdateUserPassword hashed_password user_id) = None ->
  exists w',
    _update_user_password user_id hashed_password env w = Returns true w' /\
    password_reset_tokens (db w') = password_reset_tokens (db w) /\
    map (fun u => (u_id u, u_name u, u_email u)) (users (db w')) =
      map (fun u => (u_id u, u_name u, u_email u)) (users (db w)) /\
    (forall u, In u (users (db w')) -> u_id u = user_id ->
               u_password u = hashed_password) /\
    (forall u, In u (users (db w')) -> u_id u <> user_id -> In u (users (db w))) /\
    ((forall u, In u (users (db w)) -> u_id u <> user_id) -> w' = w).
Proof.
  intros Hs. rewrite update_user_password_unfold, Hs.
  eexists. split; [reflexivity|]. simpl.
  split; [reflexivity|]. split; [|split; [|split]].
  - rewrite map_map. apply map_ext. intros u.
    destruct (u_id u =? user_id); reflexivity.
  - intros u Hu Hid. apply in_map_iff in Hu. destruct Hu as [u0 [<- Hu0]].
    destruct (Z.eqb_spec (u_id u0) user_id) as [E|E]; [reflexivity|].
    contradiction.
  - intros u Hu Hid. apply in_map_iff in Hu. destruct Hu as [u0 [<- Hu0]].
    destruct (Z.eqb_spec (u_id u0) user_id) as [E|E]; [|exact Hu0].
    simpl in Hid. contradiction.
  - intros Hnone. destruct w as [[rows us seq] out log]. unfold with_db, with_users.
    simpl in *. f_equal. f_equal.
    induction us as [|u us IH]; [reflexivity|]. simpl.
    rewrite IH by (intros u' Hu'; apply Hnone; now right).
    assert (E : (u_id u =? user_id) = false)
      by (apply Z.eqb_neq; apply Hnone; now left).
    now rewrite E.
Qed.

(* ================================================================== *)
(** ** More on [reset_password] *)

(** The join of [_validate_reset_token] does not read the passwords. *)
Lemma join_token_user_password_set
      (token : string) (user_id : Z) (hashed_password : string) (d : Database) :
  join_token_user token (password_set user_id hashed_password d)
  = join_token_user token d.
Proof.
  unfold join_token_user, password_set. simpl.
  apply flat_map_ext. intros r.
  induction (users d) as [|u us IH]; [reflexivity|]. simpl.
  assert (Hid : u_id (if u_id u =? user_id then set_password hashed_password u else u)
                = u_id u) by (destruct (u_id u =? user_id); reflexivity).
  rewrite Hid. destruct (prt_user_id r =? u_id u); simpl; rewrite IH; [|reflexivity].
  destruct (u_id u =? user_id); reflexivity.
Qed.

(** [reset_password], branch by branch. *)
Lemma reset_password_unfold (token new_password : string) (env : Env) (w : World) :
  reset_password token new_password env w =
  let invalid :=
    Returns (Error "Invalid or expired reset token")
            (logged (log_password_reset_completion_entry
                       "unknown" false (Some "Invalid token")) w) in
  match value_of (_validate_reset_token token env w) with
  | Some (Some u) =>
      if falsy_str (email u) || falsy_int (id u) then invalid
      else if Z.of_nat (String.length new_password) <? 8 then
        Returns (Error "Password must be at least 8 characters long")
                (logged (log_password_reset_completion_entry
                           (email u) false (Some "Password too short")) w)
      else
        let hashed_password := generate_password_hash env new_password in
        match statement_raises env (UpdateUserPassword hashed_password (id u)) with
        | Some _ =>
            Returns (Error "Failed to update password")
                    (logged (log_password_reset_completion_entry
                               (email u) false (Some "Failed to update password")) w)
        | None =>
            let w1 := with_db (password_set (id u) hashed_password (db w)) w in
            let w2 := world_of (_mark_token_as_used token env w1) in
            let w3 := world_of (EmailService.send_password_reset_confirmation
                                  (email u) (name u) env w2) in
            Returns (Success "Password has been reset successfully")
                    (logged (log_password_reset_completion_entry
                               (email u) true None) w3)
        end
  | _ => invalid
  end.
Proof.
  cbv zeta.
  pose proof (validate_reset_token_unfold token env w) as Hv.
  match type of Hv with _ = Returns ?x _ => set (v := x) in Hv; clearbody v end.
  unfold reset_password, try_except. unfold bind at 1.
  rewrite Hv. simpl value_of.
  destruct v as [u|]; [|reflexivity].
  cbv beta iota.
  destruct (falsy_str (email u) || falsy_int (id u)); [reflexivity|].
  destruct (Z.of_nat (String.length new_password) <? 8); [reflexivity|].
  unfold bind at 1, ask. cbv beta iota zeta.
  unfold bind at 1. rewrite update_user_password_unfold.
  destruct (statement_raises env
              (UpdateUserPassword (generate_password_hash env new_password) (id u)));
    [reflexivity|].
  change (negb true) with false. cbv beta iota.
  unfold password_set. unfold bind at 1.
  rewrite mark_token_as_used_unfold.
  destruct (statement_raises env (UpdateTokenUsed true token)); cbv beta iota;
    cbn [world_of]; unfold bind at 1;
    unfold EmailService.send_password_reset_confirmation;
    rewrite !send_email_unfold;
    destruct (use_console env); try reflexivity;
    destruct (smtp_raises env); reflexivity.
Qed.

Lemma send_password_reset_confirmation_db (to name_ : string) (env : Env) (w : World) :
  db (world_of (EmailService.send_password_reset_confirmation to name_ env w)) = db w.
Proof. apply send_email_db. Qed.

(** X6. The success path of [reset_password]: with a token that validates
    for a user, a password of at least 8 characters and both updates
    running, it returns success, every row of that user holds the hash of
    the new password, the token is marked used and is refused from then on,
    so a second [reset_password] with it fails. *)
Theorem reset_password_success
        (token new_password : string) (env : Env) (w : World) (u : User) :
  _validate_reset_token token env w = Returns (Some u) w ->
  email u <> "" -> id u <> 0 ->
  8 <= Z.of_nat (String.length new_password) ->
  statement_raises env
    (UpdateUserPassword (generate_password_hash env new_password) (id u)) = None ->
  statement_raises env (UpdateTokenUsed true token) = None ->
  exists w',
    reset_password token new_password env w
      = Returns (Success "Password has been reset successfully") w' /\
    db w' = marked token
              (password_set (id u) (generate_password_hash env new_password) (db w)) /\
    (forall row, In row (users (db w')) -> u_id row = id u ->
                 u_password row = generate_password_hash env new_password) /\
    (forall r, In r (password_reset_tokens (db w')) -> prt_token r = token ->
               prt_used r = true) /\
    (forall env', _validate_reset_token token env' w' = Returns None w') /\
    (forall env' again,
        value_of (reset_password token again env' w')
        = Some (Error "Invalid or expired reset token")).
Proof.
  intros Hv He Hi Hlen Hupd Hmark.
  rewrite reset_password_unfold. cbv zeta. rewrite Hv. cbn [value_of].
  apply falsy_str_false in He. apply falsy_int_false in Hi. rewrite He, Hi.
  change (false || false) with false. cbv iota.
  assert (Hl : (Z.of_nat (String.length new_password) <? 8) = false)
    by (apply Z.ltb_ge; exact Hlen).
  rewrite Hl, Hupd, mark_token_as_used_unfold, Hmark. cbn [world_of].
  eexists. split; [reflexivity|].
  assert (Hdb : db (logged (log_password_reset_completion_entry (email u) true None)
                      (world_of (EmailService.send_password_reset_confirmation
                                   (email u) (name u) env
                                   (with_db (marked token
                                      (db (with_db (password_set (id u)
                                             (generate_password_hash env new_password)
                                             (db w)) w)))
                                      (with_db (password_set (id u)
                                             (generate_password_hash env new_password)
                                             (db w)) w)))))
                = marked token
                    (password_set (id u) (generate_password_hash env new_password)
                                  (db w))).
  { change (db (logged ?e ?x)) with (db x).
    rewrite send_password_reset_confirmation_db. reflexivity. }
  split; [exact Hdb|].
  assert (Hused : forall r,
             In r (password_reset_tokens
                     (marked token
                        (password_set (id u) (generate_password_hash env new_password)
                                      (db w)))) ->
             prt_token r = token -> prt_used r = true).
  { simpl. intros r Hr Ht. apply in_map_iff in Hr. destruct Hr as [r0 [<- Hr0]].
    destruct (has_token token r0) eqn:E; [reflexivity|].
    apply has_token_false in E. contradiction. }
  split; [|split; [|split]].
  - rewrite Hdb. simpl. intros row Hrow Hid.
    apply in_map_iff in Hrow. destruct Hrow as [row0 [<- Hrow0]].
    destruct (Z.eqb_spec (u_id row0) (id u)) as [E|E]; [reflexivity|contradiction].
  - rewrite Hdb. exact Hused.
  - intros env'. apply validate_reset_token_refuses. rewrite Hdb. exact Hused.
  - intros env' again. rewrite reset_password_invalid; [reflexivity|].
    apply validate_reset_token_refuses. rewrite Hdb. exact Hused.
Qed.

(** X7. [reset_password] ignores what [_mark_token_as_used] returns: when
    the update that marks the token raises, the password is changed and
    success is returned all the same, and the token, not marked, validates
    again for the same user. *)
Theorem reset_password_mark_fails
        (token new_password : string) (env : Env) (w : World) (u : User) (e : string) :
  _validate_reset_token token env w = Returns (Some u) w ->
  email u <> "" -> id u <> 0 ->
  8 <= Z.of_nat (String.length new_password) ->
  statement_raises env
    (UpdateUserPassword (generate_password_hash env new_password) (id u)) = None ->
  statement_raises env (UpdateTokenUsed true token) = Some e ->
  exists w',
    reset_password token new_password env w
      = Returns (Success "Password has been reset successfully") w' /\
    db w' = password_set (id u) (generate_password_hash env new_password) (db w) /\
    password_reset_tokens (db w') = password_reset_tokens (db w) /\
    _validate_reset_token token env w' = Returns (Some u) w'.
Proof.
  intros Hv He Hi Hlen Hupd Hmark.
  rewrite reset_password_unfold. cbv zeta. rewrite Hv. cbn [value_of].
  apply falsy_str_false in He. apply falsy_int_false in Hi. rewrite He, Hi.
  change (false || false) with false. cbv iota.
  assert (Hl : (Z.of_nat (String.length new_password) <? 8) = false)
    by (apply Z.ltb_ge; exact Hlen).
  rewrite Hl, Hupd, mark_token_as_used_unfold, Hmark. cbn [world_of].
  eexists. split; [reflexivity|].
  assert (Hdb : db (logged (log_password_reset_completion_entry (email u) true None)
                      (world_of (EmailService.send_password_reset_confirmation
                                   (email u) (name u) env
                                   (with_db (password_set (id u)
                                             (generate_password_hash env new_password)
                                             (db w)) w))))
                = password_set (id u) (generate_password_hash env new_password) (db w)).
  { change (db (logged ?e ?x)) with (db x).
    rewrite send_password_reset_confirmation_db. reflexivity. }
  split; [exact Hdb|]. split; [rewrite Hdb; reflexivity|].
  rewrite validate_reset_token_unfold in Hv |- *. injection Hv as Hv.
  rewrite Hdb, join_token_user_password_set, Hv. reflexivity.
Qed.

(** X8. The confirmation mail is best effort: whatever the mail
    configuration, console or SMTP, working or raising, [reset_password]
    returns the same response and leaves the same database. *)
Theorem reset_password_ignores_mail
        (token new_password : string) (env : Env) (w : World)
        (console : bool) (base_url : string) (smtp : option string) :
  value_of (reset_password token new_password (with_mail console base_url smtp env) w)
    = value_of (reset_password token new_password env w) /\
  db (world_of (reset_password token new_password
                               (with_mail console base_url smtp env) w))
    = db (world_of (reset_password token new_password env w)).
Proof.
  rewrite !reset_password_unfold. cbv zeta.
  rewrite !validate_reset_token_unfold. cbn [value_of].
  change (query_raises (with_mail console base_url smtp env)) with (query_raises env).
  change (utcnow (with_mail console base_url smtp env)) with (utcnow env).
  destruct (query_raises env TokenUserRow (SelectTokenJoinUser token));
    [split; reflexivity|].
  destruct (user_if_valid (utcnow env) (hd_error (join_token_user token (db w))))
    as [u|]; [|split; reflexivity].
  destruct (falsy_str (email u) || falsy_int (id u)); [split; reflexivity|].
  destruct (Z.of_nat (String.length new_password) <? 8); [split; reflexivity|].
  change (generate_password_hash (with_mail console base_url smtp env))
    with (generate_password_hash env).
  change (statement_raises (with_mail console base_url smtp env))
    with (statement_raises env).
  destruct (statement_raises env
              (UpdateUserPassword (generate_password_hash env new_password) (id u)));
    [split; reflexivity|].
  split; [reflexivity|].
  cbn [world_of]. unfold logged. cbn [db].
  rewrite !send_password_reset_confirmation_db.
  rewrite !mark_token_as_used_unfold.
  change (statement_raises (with_mail console base_url smtp env))
    with (statement_raises env).
  destruct (statement_raises env (UpdateTokenUsed true token)); reflexivity.
Qed.

(** X9. A [reset_password] that answers with an error has written nothing:
    the database and the outbox are as they were. *)
Theorem reset_password_error_writes_nothing
        (token new_password : string) (env : Env) (w : World) (error : string) :
  value_of (reset_password token new_password env w) = Some (Error error) ->
  db (world_of (reset_password token new_password env w)) = db w /\
  outbox (world_of (reset_password token new_password env w)) = outbox w.
Proof.
  rewrite reset_password_unfold. cbv zeta.
  destruct (value_of (_validate_reset_token token env w)) as [[u|]|];
    try (intros _; split; reflexivity).
  destruct (falsy_str (email u) || falsy_int (id u)); [intros _; split; reflexivity|].
  destruct (Z.of_nat (String.length new_password) <? 8);
    [intros _; split; reflexivity|].
  destruct (statement_raises env
              (UpdateUserPassword (generate_password_hash env new_password) (id u)));
    [intros _; split; reflexivity|].
  discriminate.
Qed.

(** X10. The public methods never raise: whatever the collaborators do,
    each of them returns a result. *)
Theorem public_methods_never_raise (env : Env) (w : World) :
  (forall email_, exists r w',
      PasswordResetService.request_password_reset email_ env w = Returns r w') /\
  (forall token new_password, exists r w',
      reset_password token new_password env w = Returns r w') /\
  (forall token, exists v,
      validate_reset_token token env w = Returns v w) /\
  (exists n w', cleanup_expired_tokens env w = Returns n w').
Proof.
  split; [|split; [|split]].
  - intros email_. rewrite request_password_reset_unfold.
    destruct (query_raises env UserRow (SelectUserByEmail email_)); [eauto|].
    destruct (find (fun u => String.eqb (u_email u) email_) (users (db w)));
      [|eauto].
    destruct (falsy_int (u_id u)); [eauto|].
    destruct (_store_reset_token (u_id u) (generated_token env) env w)
      as [[|] w1|e w1]; eauto.
    destruct (EmailService.send_password_reset_email
                email_ (generated_token env) (u_name u) env w1)
      as [[|] w2|e w2]; eauto.
  - intros token new_password. rewrite reset_password_unfold. cbv zeta.
    destruct (value_of (_validate_reset_token token env w)) as [[u|]|]; eauto.
    destruct (falsy_str (email u) || falsy_int (id u)); eauto.
    destruct (Z.of_nat (String.length new_password) <? 8); eauto.
    destruct (statement_raises env
                (UpdateUserPassword (generate_password_hash env new_password) (id u)));
      eauto.
  - intros token.
    pose proof (validate_reset_token_unfold token env w) as Hv.
    match type of Hv with _ = Returns ?x _ => set (v := x) in Hv; clearbody v end.
    unfold validate_reset_token, try_except, bind, ret. rewrite Hv.
    destruct v; eexists; reflexivity.
  - rewrite cleanup_expired_tokens_unfold. cbv zeta.
    destruct (query_raises env Z (CountExpiredOrUsed (utcnow env) true)); eauto.
    destruct (statement_raises env (DeleteExpiredOrUsed (utcnow env) true)); eauto.
Qed.

(* ================================================================== *)
(** ** The public [validate_reset_token] *)

(** X11. [validate_reset_token] is a pure read: it leaves the whole world,
    security log included, as it was, and it reports the token valid, with
    the email of its user, exactly when [_validate_reset_token] returns
    that user. *)
Theorem validate_reset_token_pure (token : string) (env : Env) (w : World) :
  (exists v, validate_reset_token token env w = Returns v w) /\
  (forall e, validate_reset_token token env w = Returns (Valid e) w <->
             exists u, _validate_reset_token token env w = Returns (Some u) w /\
                       email u = e) /\
  (validate_reset_token token env w = Returns Invalid w <->
   _validate_reset_token token env w = Returns None w).
Proof.
  pose proof (validate_reset_token_unfold token env w) as Hv.
  match type of Hv with _ = Returns ?x _ => set (v := x) in Hv; clearbody v end.
  unfold validate_reset_token, try_except, bind, ret. rewrite Hv.
  destruct v as [u|].
  - split; [eexists; reflexivity|]. split.
    + intros e. split.
      * intros H. injection H as <-. exists u. auto.
      * intros [u' [H <-]]. injection H as <-. reflexivity.
    + split; discriminate.
  - split; [eexists; reflexivity|]. split.
    + intros e. split; [discriminate|]. intros [u' [H _]]. discriminate.
    + split; reflexivity.
Qed.

(* ================================================================== *)
(** ** More on the sweeper *)

(** X12. When the count or the delete of [cleanup_expired_tokens] raises,
    it reports 0 rows and has removed none, however many rows were due. *)
Theorem cleanup_expired_tokens_failure (env : Env) (w : World) :
  query_raises env Z (CountExpiredOrUsed (utcnow env) true) <> None \/
  statement_raises env (DeleteExpiredOrUsed (utcnow env) true) <> None ->
  cleanup_expired_tokens env w = Returns 0 w.
Proof.
  intros H. rewrite cleanup_expired_tokens_unfold. cbv zeta.
  destruct (query_raises env Z (CountExpiredOrUsed (utcnow env) true)); [reflexivity|].
  destruct (statement_raises env (DeleteExpiredOrUsed (utcnow env) true));
    [reflexivity|].
  destruct H as [H|H]; contradiction.
Qed.

(** X13. Sweeping is idempotent: after one sweep, every row left is unused
    and unexpired, and a second sweep at that clock, or an earlier one,
    removes nothing and reports 0. *)
Theorem cleanup_expired_tokens_twice (env env' : Env) (w : World) :
  query_raises env Z (CountExpiredOrUsed (utcnow env) true) = None ->
  statement_raises env (DeleteExpiredOrUsed (utcnow env) true) = None ->
  query_raises env' Z (CountExpiredOrUsed (utcnow env') true) = None ->
  statement_raises env' (DeleteExpiredOrUsed (utcnow env') true) = None ->
  utcnow env' <= utcnow env ->
  let w1 := world_of (cleanup_expired_tokens env w) in
  (forall r, In r (password_reset_tokens (db w1)) ->
             prt_used r = false /\ utcnow env <= prt_expires_at r) /\
  cleanup_expired_tokens env' w1 = Returns 0 w1.
Proof.
  intros Hq Hs Hq' Hs' Hle w1.
  assert (Hw1 : w1 = with_db (with_tokens
                                (filter (live (utcnow env))
                                        (password_reset_tokens (db w))) (db w)) w).
  { unfold w1. rewrite cleanup_expired_tokens_unfold. cbv zeta. rewrite Hq, Hs.
    cbn [world_of]. f_equal. f_equal. apply filter_ext. intros r. apply kept_is_live. }
  assert (Hlive : forall r, In r (password_reset_tokens (db w1)) ->
                            prt_used r = false /\ utcnow env <= prt_expires_at r).
  { rewrite Hw1. simpl. intros r Hr. apply filter_In in Hr. destruct Hr as [_ Hr].
    unfold live in Hr. apply andb_true_iff in Hr. destruct Hr as [Hu He].
    apply negb_true_iff in Hu. apply Z.leb_le in He. auto. }
  split; [exact Hlive|].
  rewrite cleanup_expired_tokens_unfold. cbv zeta. rewrite Hq', Hs'.
  assert (Hnone : filter (expired_or_used (utcnow env') true)
                         (password_reset_tokens (db w1)) = []).
  { apply filter_all_false. intros r Hr. destruct (Hlive r Hr) as [Hu He].
    unfold expired_or_used. rewrite Hu. simpl. rewrite orb_false_r.
    apply Z.ltb_ge. lia. }
  assert (Hall : filter (fun r => negb (expired_or_used (utcnow env') true r))
                        (password_reset_tokens (db w1))
                 = password_reset_tokens (db w1)).
  { clear -Hlive Hle. induction (password_reset_tokens (db w1)) as [|r l IH];
      [reflexivity|]. simpl.
    destruct (Hlive r (or_introl eq_refl)) as [Hu He].
    assert (E : expired_or_used (utcnow env') true r = false).
    { unfold expired_or_used. rewrite Hu. simpl. rewrite orb_false_r.
      apply Z.ltb_ge. lia. }
    rewrite E. simpl. f_equal. apply IH. intros r' Hr'. apply Hlive. now right. }
  rewrite Hnone, Hall. simpl. f_equal.
  destruct w1 as [[rows us seq] out log]. reflexivity.
Qed.

Lemma filter_commute {A : Type} (p q : A -> bool) (l : list A) :
  filter p (filter q l) = filter q (filter p l).
Proof.
  induction l as [|a l IH]; simpl; [reflexivity|].
  destruct (p a) eqn:Ep, (q a) eqn:Eq; simpl; rewrite ?Ep, ?Eq, IH; reflexivity.
Qed.

(** Under the uniqueness constraint at most one row carries a token. *)
Lemma filter_has_token_unique (token : string) (d : Database) :
  tokens_unique d ->
  filter (has_token token) (password_reset_tokens d) = [] \/
  exists r, In r (password_reset_tokens d) /\ prt_token r = token /\
            filter (has_token token) (password_reset_tokens d) = [r].
Proof.
  intros Hu.
  destruct (filter (has_token token) (password_reset_tokens d)) as [|r rest] eqn:E;
    [now left|].
  right. exists r.
  assert (Hin : In r (filter (has_token token) (password_reset_tokens d)))
    by (rewrite E; now left).
  apply filter_In in Hin. destruct Hin as [Hin Ht]. apply has_token_true in Ht.
  split; [exact Hin|]. split; [exact Ht|].
  rewrite <- E. apply (filter_unique_key prt_token); auto.
  - now apply has_token_true.
  - intros y _ Hy. apply has_token_true in Hy. congruence.
Qed.

(** X14. The sweeper is invisible to lookups: under the uniqueness
    constraint on tokens, at the clock of the sweep and at any later clock
    [_validate_reset_token] answers for every token as it would have
    without the sweep; what is removed was refused already. *)
Theorem cleanup_expired_tokens_keeps_answers
        (env env' : Env) (w : World) (token : string) :
  tokens_unique (db w) ->
  utcnow env <= utcnow env' ->
  value_of (_validate_reset_token token env' (world_of (cleanup_expired_tokens env w)))
  = value_of (_validate_reset_token token env' w).
Proof.
  intros Hu Hle. rewrite cleanup_expired_tokens_unfold. cbv zeta.
  destruct (query_raises env Z (CountExpiredOrUsed (utcnow env) true)); [reflexivity|].
  destruct (statement_raises env (DeleteExpiredOrUsed (utcnow env) true));
    [reflexivity|].
  cbn [world_of]. rewrite !validate_reset_token_unfold. cbn [value_of]. f_equal.
  destruct (query_raises env' TokenUserRow (SelectTokenJoinUser token)); [reflexivity|].
  simpl db. unfold join_token_user. simpl password_reset_tokens. simpl users.
  rewrite filter_commute.
  destruct (filter_has_token_unique token (db w) Hu) as [E|[r [Hr [Ht E]]]];
    rewrite E; [reflexivity|].
  simpl filter.
  destruct (expired_or_used (utcnow env) true r) eqn:Ex; simpl negb; cbv iota;
    [|reflexivity].
  simpl. rewrite app_nil_r.
  destruct (filter (fun u => prt_user_id r =? u_id u) (users (db w))) as [|u us];
    [reflexivity|].
  simpl. unfold expired_or_used in Ex.
  destruct (prt_used r); [reflexivity|].
  simpl in Ex. rewrite orb_false_r in Ex. apply Z.ltb_lt in Ex.
  assert (Eg : (utcnow env' >? prt_expires_at r) = true)
    by (rewrite Z.gtb_ltb; apply Z.ltb_lt; lia).
  now rewrite Eg.
Qed.

(* ================================================================== *)
(** ** More on [request_password_reset] *)

Lemma send_password_reset_email_unfold
      (to reset_token name_ : string) (env : Env) (w : World) :
  EmailService.send_password_reset_email to reset_token name_ env w =
  EmailService._send_email (reset_mail env to reset_token name_) env w.
Proof. reflexivity. Qed.

(** X15. The success path of [request_password_reset]: for an existing
    user, when the token is stored and the mail goes out, the answer is the
    generic message, exactly one mail is added, addressed to the requested
    email and carrying the link with the stored token, that token is the
    user's only row, and it validates until it expires. *)
Theorem request_password_reset_success
        (email_ : string) (env : Env) (w w1 w2 : World) (u : User) :
  find_by_email email_ env w = Returns (Some u) w ->
  id u <> 0 ->
  _store_reset_token (id u) (generated_token env) env w = Returns true w1 ->
  EmailService.send_password_reset_email email_ (generated_token env) (name u) env w1
    = Returns true w2 ->
  let w3 := logged (log_password_reset_request_entry email_ true None) w2 in
  PasswordResetService.request_password_reset email_ env w
    = Returns (Success generic_message) w3 /\
  outbox w3 = outbox w ++ [reset_mail env email_ (generated_token env) (name u)] /\
  tokens_of_user (id u) (db w3) =
    [mkTokenRow (sqlite_sequence (db w) + 1) (id u) (generated_token env)
                (utcnow env + timedelta_hours token_expiry_hours) false
                (CURRENT_TIMESTAMP (utcnow env))] /\
  (forall env',
      query_raises env' TokenUserRow (SelectTokenJoinUser (generated_token env)) = None ->
      utcnow env' <= utcnow env + timedelta_hours token_expiry_hours ->
      exists u', _validate_reset_token (generated_token env) env' w3
                 = Returns (Some u') w3 /\ id u' = id u).
Proof.
  intros Hfind Hid Hstore Hsend w3.
  assert (Hw2 : w2 = sent (if use_console env then "console" else "smtp")
                          (reset_mail env email_ (generated_token env) (name u)) w1).
  { rewrite send_password_reset_email_unfold, send_email_unfold in Hsend.
    destruct (use_console env); [now injection Hsend as <-|].
    destruct (smtp_raises env); [discriminate|now injection Hsend as <-]. }
  assert (Hdb : db w3 = db w1) by (unfold w3; rewrite Hw2; reflexivity).
  pose proof (store_reset_token_stored env w w1 (id u) (generated_token env) Hstore)
    as [_ Hw1].
  split; [|split; [|split]].
  - unfold PasswordResetService.request_password_reset, try_except.
    unfold bind at 1. rewrite Hfind.
    apply falsy_int_false in Hid. rewrite Hid.
    unfold bind at 1. rewrite generate_reset_token_returns.
    unfold bind at 1. rewrite Hstore.
    change (negb true) with false. cbv iota.
    unfold bind at 1. rewrite Hsend. reflexivity.
  - unfold w3. rewrite Hw2, Hw1. reflexivity.
  - rewrite Hdb, Hw1. unfold tokens_of_user. simpl. rewrite filter_app. simpl.
    rewrite Z.eqb_refl. rewrite filter_all_false; [reflexivity|].
    intros r Hr. apply filter_In in Hr. destruct Hr as [_ Hr].
    now apply negb_true_iff in Hr.
  - intros env' Hq Hnow.
    exact (issued_token_validates env env' w w1 w3 u email_ (generated_token env)
                                  Hfind Hstore Hdb Hq Hnow).
Qed.

(** X16. [request_password_reset] mails a reset link only for a token it
    has stored: either the outbox is as it was, or exactly one mail was
    added, to the requested address, and the token in its link is the token
    of an unused row, expiring in one hour, of a user with that email. *)
Theorem request_password_reset_mails_stored_token
        (email_ : string) (env : Env) (w : World) :
  let w' := world_of (PasswordResetService.request_password_reset email_ env w) in
  outbox w' = outbox w \/
  exists row r,
    outbox w' = outbox w ++ [reset_mail env email_ (generated_token env) (u_name row)] /\
    In row (users (db w')) /\ u_email row = email_ /\
    In r (password_reset_tokens (db w')) /\
    prt_user_id r = u_id row /\ prt_token r = generated_token env /\
    prt_used r = false /\
    prt_expires_at r = utcnow env + timedelta_hours token_expiry_hours.
Proof.
  intros w'. unfold w'. rewrite request_password_reset_unfold.
  destruct (query_raises env UserRow (SelectUserByEmail email_)); [now left|].
  destruct (find (fun u => String.eqb (u_email u) email_) (users (db w)))
    as [row|] eqn:Erow; [|now left].
  apply find_some in Erow. destruct Erow as [Hrow Hemail].
  apply String.eqb_eq in Hemail.
  destruct (falsy_int (u_id row)); [now left|].
  destruct (store_reset_token_cases env w (u_id row) (generated_token env))
    as [H|[H|H]]; rewrite H; try (now left).
  rewrite send_password_reset_email_unfold, send_email_unfold.
  assert (Hsent : forall method,
    exists row0 r,
      outbox (logged (log_password_reset_request_entry email_ true None)
                (sent method (reset_mail env email_ (generated_token env) (u_name row))
                      (with_db (issued env (u_id row) (generated_token env) (db w)) w)))
      = outbox w ++ [reset_mail env email_ (generated_token env) (u_name row0)] /\
      In row0 (users (issued env (u_id row) (generated_token env) (db w))) /\
      u_email row0 = email_ /\
      In r (password_reset_tokens (issued env (u_id row) (generated_token env) (db w))) /\
      prt_user_id r = u_id row0 /\ prt_token r = generated_token env /\
      prt_used r = false /\
      prt_expires_at r = utcnow env + timedelta_hours token_expiry_hours).
  { intros method. exists row. eexists. split; [reflexivity|].
    split; [exact Hrow|]. split; [exact Hemail|]. split.
    - simpl. apply in_or_app. right. left. reflexivity.
    - simpl. auto. }
  destruct (use_console env); [right; apply Hsent|].
  destruct (smtp_raises env); [now left|right; apply Hsent].
Qed.

(* ================================================================== *)
(** ** What no call changes *)

(** X17. No method of the service, public or private, adds, removes or
    renames a user: across any sequence of calls the ids, names and emails
    of the users are what they were, in the same order; only passwords
    change. *)
Theorem run_keeps_users (calls : list (Env * Call)) (w : World) :
  map (fun u => (u_id u, u_name u, u_email u)) (users (db (run calls w))) =
  map (fun u => (u_id u, u_name u, u_email u)) (users (db w)).
Proof.
  apply (run_invariant (fun _ => True)
           (fun d => map (fun u => (u_id u, u_name u, u_email u)) (users d) =
                     map (fun u => (u_id u, u_name u, u_email u)) (users (db w)))).
  - intros d d' Hs Hd. rewrite <- Hd. now apply (steps_users (fun _ => True)).
  - apply Forall_forall. intros; exact I.
  - reflexivity.
Qed.

(** X18. The constraints of the schema are invariants.  Across any
    sequence of calls the tokens stay distinct, the row ids stay distinct
    and below the counter; across calls of the public methods every token
    row keeps a user, so a store that meets its schema, such as the empty
    table of the migration, never leaves it. *)
Theorem run_keeps_schema (calls : list (Env * Call)) (w : World) :
  tokens_unique (db w) -> ids_unique (db w) -> sequence_bounds (db w) ->
  tokens_unique (db (run calls w)) /\
  ids_unique (db (run calls w)) /\
  sequence_bounds (db (run calls w)) /\
  (Forall (fun ec => public (snd ec)) calls ->
   user_ids_unique (db w) -> foreign_key (db w) ->
   well_formed (db (run calls w))).
Proof.
  intros Ht Hi Hs.
  assert (Hall : Forall (fun ec : Env * Call =>
                           forall t, inserts (fst ec) (snd ec) t -> True) calls)
    by (apply Forall_forall; intros; exact I).
  split; [|split; [|split]].
  - apply (run_invariant (fun _ => True) tokens_unique); auto.
    intros d d'. apply steps_tokens_unique.
  - apply (run_invariant (fun _ => True)
             (fun d => ids_unique d /\ sequence_bounds d)); auto.
    intros d d'. apply steps_primary_key.
  - apply (run_invariant (fun _ => True)
             (fun d => ids_unique d /\ sequence_bounds d)); auto.
    intros d d'. apply steps_primary_key.
  - intros Hpub Hu Hfk. apply public_run_well_formed; [exact Hpub|].
    split; [exact Ht|]. split; assumption.
Qed.

(* ================================================================== *)
(** ** [str.strip] *)

Lemma lstrip_length (s : string) : (String.length (lstrip s) <= String.length s)%nat.
Proof.
  induction s as [|c s IH]; simpl; [lia|].
  destruct (isspace c); simpl; lia.
Qed.

Lemma lstrip_head (c : ascii) (s : string) :
  lstrip (String c s) = String c s -> isspace c = false.
Proof.
  simpl. destruct (isspace c); [|reflexivity].
  intros H. pose proof (lstrip_length s) as Hl. rewrite H in Hl. simpl in Hl. lia.
Qed.

Lemma lstrip_idempotent (s : string) : lstrip (lstrip s) = lstrip s.
Proof.
  induction s as [|c s IH]; [reflexivity|]. simpl.
  destruct (isspace c) eqn:E; [exact IH|]. simpl. now rewrite E.
Qed.

Lemma rstrip_idempotent (s : string) : rstrip (rstrip s) = rstrip s.
Proof.
  induction s as [|c s IH]; [reflexivity|]. simpl.
  destruct (rstrip s) as [|c' kept] eqn:E.
  - destruct (isspace c) eqn:Ec; [reflexivity|]. simpl. now rewrite Ec.
  - change (rstrip (String c (String c' kept)))
      with (match rstrip (String c' kept) with
            | EmptyString => if isspace c then EmptyString else String c EmptyString
            | String a b => String c (String a b)
            end).
    rewrite IH. reflexivity.
Qed.

(** Stripping on the right does not uncover whitespace on the left. *)
Lemma lstrip_rstrip (s : string) : lstrip s = s -> lstrip (rstrip s) = rstrip s.
Proof.
  destruct s as [|c s]; [reflexivity|]. intros H. apply lstrip_head in H.
  simpl. destruct (rstrip s); [rewrite H|]; simpl; now rewrite H.
Qed.

Lemma strip_idempotent (s : string) : strip (strip s) = strip s.
Proof.
  unfold strip.
  rewrite (lstrip_rstrip (lstrip s) (lstrip_idempotent s)).
  apply rstrip_idempotent.
Qed.

Lemma lstrip_blank (s : string) :
  Forall (fun c => isspace c = true) (list_ascii_of_string s) -> lstrip s = "".
Proof.
  induction s as [|c s IH]; [reflexivity|]. simpl. intros H.
  inversion H as [|? ? Hc Hs]; subst. rewrite Hc. now apply IH.
Qed.

Lemma rstrip_first (c : ascii) (s : string) :
  isspace c = false -> exists rest, rstrip (String c s) = String c rest.
Proof.
  intros H. simpl. destruct (rstrip s); [rewrite H|]; eauto.
Qed.

Lemma rstrip_last (s : string) :
  rstrip s = "" \/
  exists kept c, rstrip s = (kept ++ String c "")%string /\ isspace c = false.
Proof.
  induction s as [|c s IH]; [now left|]. simpl.
  destruct IH as [E|[kept [c' [E Hc']]]]; rewrite E.
  - destruct (isspace c) eqn:Ec; [now left|].
    right. exists "", c. auto.
  - right. destruct (kept ++ String c' "")%string as [|a b] eqn:Ek.
    + destruct kept; discriminate.
    + exists (String c kept), c'. split; [|exact Hc']. simpl. now rewrite Ek.
Qed.

(* ================================================================== *)
(** ** The routes *)

Lemma falsy_str_spec (s : string) : falsy_str s = true <-> s = "".
Proof. unfold falsy_str. apply String.eqb_eq. Qed.

(** The route [/request-password-reset], branch by branch. *)
Lemma request_route_unfold
      (validate_email : string -> bool) (body : option Json) (env : Env) (w : World) :
  AuthRoutes.request_password_reset validate_email body env w =
  let failed e :=
    Returns (mkHttpResponse [("error", JString "Internal server error")] 500)
            (logged (log_password_reset_request_entry
                       "unknown" false (Some ("Request endpoint error: " ++ e)%string)) w) in
  if falsy (AuthRoutes.get_json body) then
    Returns (mkHttpResponse [("error", JString "No data provided")] 400)
            (logged (log_password_reset_request_entry
                       "unknown" false (Some "No data provided")) w)
  else
    match AuthRoutes.get_json body with
    | JObject members =>
        match dict_get "email" members (JString "") with
        | JString s =>
            if falsy_str (strip s) then
              Returns (mkHttpResponse [("error", JString "Email is required")] 400)
                      (logged (log_password_reset_request_entry
                                 "unknown" false (Some "Email missing")) w)
            else if negb (validate_email (strip s)) then
              Returns (mkHttpResponse [("error", JString "Invalid email format")] 400)
                      (logged (log_password_reset_request_entry
                                 (strip s) false (Some "Invalid email format")) w)
            else
              match PasswordResetService.request_password_reset (strip s) env w with
              | Returns (Success message) w1 =>
                  Returns (mkHttpResponse [("status", JString "success");
                                           ("message", JString message)] 200) w1
              | Returns (Error error) w1 =>
                  Returns (mkHttpResponse [("error", JString error)] 500) w1
              | Raises e w1 =>
                  Returns (mkHttpResponse [("error", JString "Internal server error")] 500)
                          (logged (log_password_reset_request_entry
                                     "unknown" false
                                     (Some ("Request endpoint error: " ++ e)%string)) w1)
              end
        | v => failed ("'" ++ type_name v ++ "' object has no attribute 'strip'")%string
        end
    | v => failed ("'" ++ type_name v ++ "' object has no attribute 'get'")%string
    end.
Proof.
  cbv zeta. unfold AuthRoutes.request_password_reset, try_except.
  destruct (falsy (AuthRoutes.get_json body)) eqn:Ef; [reflexivity|].
  destruct (AuthRoutes.get_json body) as [| | | | |items|members]; try reflexivity.
  unfold bind at 1. unfold AuthRoutes.get_stripped.
  destruct (dict_get "email" members (JString "")) as [| | | |s| |]; try reflexivity.
  unfold ret at 1. cbv beta iota.
  destruct (falsy_str (strip s)); [reflexivity|].
  destruct (negb (validate_email (strip s))); [reflexivity|].
  unfold bind at 1.
  destruct (PasswordResetService.request_password_reset (strip s) env w)
    as [[m|e] w1|e w1]; reflexivity.
Qed.

(** X20. The route [/request-password-reset] answers 400 exactly when the
    body is missing or empty, or holds an email that is blank once stripped
    or that the validator refuses; it then has not called the service: the
    database and the outbox are as they were. *)
Theorem request_route_rejects
        (validate_email : string -> bool) (body : option Json)
        (env : Env) (w w' : World) (r : HttpResponse) :
  AuthRoutes.request_password_reset validate_email body env w = Returns r w' ->
  (status_code r = 400 <->
   falsy (AuthRoutes.get_json body) = true \/
   exists members s,
     AuthRoutes.get_json body = JObject members /\
     dict_get "email" members (JString "") = JString s /\
     (strip s = "" \/ validate_email (strip s) = false)) /\
  (status_code r = 400 -> db w' = db w /\ outbox w' = outbox w).
Proof.
  rewrite request_route_unfold. cbv zeta.
  destruct (falsy (AuthRoutes.get_json body)) eqn:Ef.
  { intros H. injection H as <- <-. simpl. split; [|auto].
    split; [now left|reflexivity]. }
  assert (Hno : forall P : Prop, (false = true \/ P) <-> P)
    by (intros P; split; [intros [H|H]; [discriminate|exact H]|now right]).
  rewrite Hno.
  destruct (AuthRoutes.get_json body) as [| | | | |items|members] eqn:Ed;
    try (intros H; injection H as <- <-; simpl; split; [|discriminate];
         split; [discriminate|intros [mm [ss [H0 _]]]; discriminate]).
  destruct (dict_get "email" members (JString "")) as [| | | |s| |] eqn:Eg;
    try (intros H; injection H as <- <-; simpl; split; [|discriminate];
         split; [discriminate|intros [mm [ss [Hm [Hs _]]]];
                               injection Hm as <-; congruence]).
  destruct (falsy_str (strip s)) eqn:Es.
  { intros H. injection H as <- <-. simpl. split; [|auto].
    split; [|reflexivity]. intros _. exists members, s.
    apply falsy_str_spec in Es. auto. }
  destruct (validate_email (strip s)) eqn:Ev; simpl negb; cbv iota.
  - assert (Hcannot : ~ exists members0 s0,
                 JObject members = JObject members0 /\
                 dict_get "email" members0 (JString "") = JString s0 /\
                 (strip s0 = "" \/ validate_email (strip s0) = false)).
    { intros [m [s0 [Hm [Hs [Hb|Hb]]]]]; injection Hm as <-;
        rewrite Eg in Hs; injection Hs as <-.
      - apply falsy_str_spec in Hb. congruence.
      - congruence. }
    destruct (PasswordResetService.request_password_reset (strip s) env w)
      as [[m|e] w1|e w1]; intros H; injection H as <- <-; simpl;
      (split; [|discriminate]); (split; [discriminate|intros Hc; contradiction]).
  - intros H. injection H as <- <-. simpl. split; [|auto].
    split; [|reflexivity]. intros _. exists members, s. auto.
Qed.

Lemma request_password_reset_success_message
      (email_ : string) (env : Env) (w w' : World) (message : string) :
  PasswordResetService.request_password_reset email_ env w
    = Returns (Success message) w' ->
  message = generic_message.
Proof.
  rewrite request_password_reset_unfold.
  destruct (query_raises env UserRow (SelectUserByEmail email_)); [discriminate|].
  destruct (find (fun u => String.eqb (u_email u) email_) (users (db w))) as [row|];
    [|intros H; now injection H as <- _].
  destruct (falsy_int (u_id row)); [intros H; now injection H as <- _|].
  destruct (_store_reset_token (u_id row) (generated_token env) env w)
    as [[|] w1|e w1]; try discriminate.
  destruct (EmailService.send_password_reset_email
              email_ (generated_token env) (u_name row) env w1)
    as [[|] w2|e w2]; try discriminate.
  intros H. now injection H as <- _.
Qed.

(** X21. The route [/request-password-reset] never raises and answers 200,
    400 or 500.  It answers 200 exactly when the body holds an email that
    is not blank once stripped, that the validator accepts and for which
    the service returned success; and every 200 carries the same body, the
    generic message, whether or not the email has an account. *)
Theorem request_route_uniform
        (validate_email : string -> bool) (body : option Json) (env : Env) (w : World) :
  exists r w',
    AuthRoutes.request_password_reset validate_email body env w = Returns r w' /\
    (status_code r = 200 \/ status_code r = 400 \/ status_code r = 500) /\
    (status_code r = 200 ->
     response_body r = [("status", JString "success");
                        ("message", JString generic_message)]) /\
    (status_code r = 200 <->
     exists members s message,
       AuthRoutes.get_json body = JObject members /\
       dict_get "email" members (JString "") = JString s /\
       strip s <> "" /\ validate_email (strip s) = true /\
       value_of (PasswordResetService.request_password_reset (strip s) env w)
         = Some (Success message)).
Proof.
  rewrite request_route_unfold. cbv zeta.
  destruct (falsy (AuthRoutes.get_json body)) eqn:Ef.
  { eexists. eexists. split; [reflexivity|]. simpl.
    split; [auto|]. split; [discriminate|]. split; [discriminate|].
    intros [members [s [m [Hd [Hg [Hs _]]]]]]. rewrite Hd in Ef.
    destruct members as [|kv members]; [|discriminate].
    simpl in Hg. injection Hg as <-. exfalso. apply Hs. reflexivity. }
  destruct (AuthRoutes.get_json body) as [| | | | |items|members] eqn:Ed;
    try (eexists; eexists; split; [reflexivity|]; simpl;
         split; [auto|]; split; [discriminate|]; split; [discriminate|];
         intros [mm [ss [msg [Hd _]]]]; exfalso; discriminate Hd).
  destruct (dict_get "email" members (JString "")) as [| | | |s| |] eqn:Eg;
    try (eexists; eexists; split; [reflexivity|]; simpl;
         split; [auto|]; split; [discriminate|]; split; [discriminate|];
         intros [mm [ss [msg [Hd [Hg _]]]]]; exfalso; injection Hd as <-; congruence).
  assert (Hsame : forall (members0 : list (string * Json)) (s0 : string),
             JObject members = JObject members0 ->
             dict_get "email" members0 (JString "") = JString s0 -> s0 = s).
  { intros members0 s0 Hd Hg. injection Hd as <-. congruence. }
  destruct (falsy_str (strip s)) eqn:Es.
  { eexists. eexists. split; [reflexivity|]. simpl.
    split; [auto|]. split; [discriminate|]. split; [discriminate|].
    intros [members0 [s0 [m [Hd [Hg [Hs _]]]]]].
    exfalso. rewrite (Hsame _ _ Hd Hg) in Hs. apply falsy_str_spec in Es. contradiction. }
  destruct (validate_email (strip s)) eqn:Ev; simpl negb; cbv iota.
  2:{ eexists. eexists. split; [reflexivity|]. simpl.
      split; [auto|]. split; [discriminate|]. split; [discriminate|].
      intros [members0 [s0 [m [Hd [Hg [_ [Hv _]]]]]]].
      exfalso. rewrite (Hsame _ _ Hd Hg) in Hv. congruence. }
  destruct (PasswordResetService.request_password_reset (strip s) env w)
    as [[m|e] w1|e w1] eqn:Er.
  - eexists. eexists. split; [reflexivity|]. simpl.
    rewrite (request_password_reset_success_message _ _ _ _ _ Er).
    split; [auto|]. split; [reflexivity|]. split; [|reflexivity].
    intros _. exists members, s, generic_message.
    apply falsy_str_false in Es. repeat split; auto.
    rewrite Er. simpl. now rewrite (request_password_reset_success_message _ _ _ _ _ Er).
  - eexists. eexists. split; [reflexivity|]. simpl.
    split; [auto|]. split; [discriminate|]. split; [discriminate|].
    intros [members0 [s0 [m [Hd [Hg [_ [_ Hr]]]]]]].
    exfalso. rewrite (Hsame _ _ Hd Hg), Er in Hr. discriminate Hr.
  - eexists. eexists. split; [reflexivity|]. simpl.
    split; [auto|]. split; [discriminate|]. split; [discriminate|].
    intros [members0 [s0 [m [Hd [Hg [_ [_ Hr]]]]]]].
    exfalso. rewrite (Hsame _ _ Hd Hg), Er in Hr. discriminate Hr.
Qed.

Lemma validate_reset_token_returns (token : string) (env : Env) (w : World) :
  validate_reset_token token env w =
  Returns (match value_of (_validate_reset_token token env w) with
           | Some (Some u) => Valid (email u)
           | _ => Invalid
           end) w.
Proof.
  pose proof (validate_reset_token_unfold token env w) as Hv.
  match type of Hv with _ = Returns ?x _ => set (v := x) in Hv; clearbody v end.
  unfold validate_reset_token, try_except, bind, ret. rewrite Hv.
  destruct v; reflexivity.
Qed.

(** The route [/validate-reset-token], branch by branch. *)
Lemma validate_route_unfold (body : option Json) (env : Env) (w : World) :
  AuthRoutes.validate_reset_token body env w =
  if falsy (AuthRoutes.get_json body) then
    Returns (mkHttpResponse [("error", JString "No data provided")] 400) w
  else
    match AuthRoutes.get_json body with
    | JObject members =>
        match dict_get "token" members (JString "") with
        | JString s =>
            if falsy_str (strip s) then
              Returns (mkHttpResponse [("error", JString "Reset token is required")] 400) w
            else
              match value_of (_validate_reset_token (strip s) env w) with
              | Some (Some u) =>
                  Returns (mkHttpResponse [("valid", JBool true);
                                           ("email", JString (email u))] 200) w
              | _ => Returns (mkHttpResponse [("valid", JBool false)] 200) w
              end
        | _ => Returns (mkHttpResponse [("valid", JBool false)] 200) w
        end
    | _ => Returns (mkHttpResponse [("valid", JBool false)] 200) w
    end.
Proof.
  unfold AuthRoutes.validate_reset_token, try_except.
  destruct (falsy (AuthRoutes.get_json body)) eqn:Ef; [reflexivity|].
  destruct (AuthRoutes.get_json body) as [| | | | |items|members]; try reflexivity.
  unfold bind at 1. unfold AuthRoutes.get_stripped.
  destruct (dict_get "token" members (JString "")) as [| | | |s| |]; try reflexivity.
  unfold ret at 1. cbv beta iota.
  destruct (falsy_str (strip s)); [reflexivity|].
  unfold bind at 1. rewrite validate_reset_token_returns.
  destruct (value_of (_validate_reset_token (strip s) env w)) as [[u|]|]; reflexivity.
Qed.

(** X22. The route [/validate-reset-token] is a pure read that never
    raises: the world is left exactly as it was, the answer is 400 when the
    body is missing or empty or its token is blank once stripped, and 200
    otherwise, also for a body that is not an object or a token that is not
    a string.  It says valid, with the email, exactly when the stripped
    token validates. *)
Theorem validate_route_pure (body : option Json) (env : Env) (w : World) :
  exists r,
    AuthRoutes.validate_reset_token body env w = Returns r w /\
    (status_code r = 400 <->
     falsy (AuthRoutes.get_json body) = true \/
     exists members s,
       AuthRoutes.get_json body = JObject members /\
       dict_get "token" members (JString "") = JString s /\ strip s = "") /\
    (status_code r <> 400 -> status_code r = 200) /\
    (forall e,
        response_body r = [("valid", JBool true); ("email", JString e)] <->
        exists members s u,
          AuthRoutes.get_json body = JObject members /\
          dict_get "token" members (JString "") = JString s /\ strip s <> "" /\
          _validate_reset_token (strip s) env w = Returns (Some u) w /\ email u = e).
Proof.
  rewrite validate_route_unfold.
  destruct (falsy (AuthRoutes.get_json body)) eqn:Ef.
  { eexists. split; [reflexivity|]. simpl.
    split; [split; [now left|reflexivity]|]. split; [congruence|].
    intros e. split; [discriminate|].
    intros [mm [ss [uu [Hd [Hg [Hs _]]]]]]. exfalso. rewrite Hd in Ef.
    destruct mm; [|discriminate]. simpl in Hg. injection Hg as <-.
    apply Hs. reflexivity. }
  assert (Hno : forall P : Prop, (false = true \/ P) <-> P)
    by (intros P; split; [intros [H|H]; [discriminate|exact H]|now right]).
  destruct (AuthRoutes.get_json body) as [| | | | |items|members] eqn:Ed;
    try (eexists; split; [reflexivity|]; simpl; rewrite Hno;
         split; [split; [discriminate|intros [mm [ss [Hd _]]]; discriminate Hd]|];
         split; [reflexivity|];
         intros e0; split; [discriminate|];
         intros [mm [ss [uu [Hd _]]]]; discriminate Hd).
  destruct (dict_get "token" members (JString "")) as [| | | |s| |] eqn:Eg;
    try (eexists; split; [reflexivity|]; simpl; rewrite Hno;
         split; [split; [discriminate
                        |intros [mm [ss [Hd [Hg _]]]]; injection Hd as <-; congruence]|];
         split; [reflexivity|];
         intros e0; split; [discriminate|];
         intros [mm [ss [uu [Hd [Hg _]]]]]; injection Hd as <-; congruence).
  assert (Hsame : forall (mm : list (string * Json)) (ss : string),
             JObject members = JObject mm ->
             dict_get "token" mm (JString "") = JString ss -> ss = s).
  { intros mm ss Hd Hg. injection Hd as <-. congruence. }
  destruct (falsy_str (strip s)) eqn:Es.
  { eexists. split; [reflexivity|]. simpl. rewrite Hno.
    apply falsy_str_spec in Es.
    split; [split; [intros _; exists members, s; auto|reflexivity]|].
    split; [congruence|].
    intros e. split; [discriminate|].
    intros [mm [ss [uu [Hd [Hg [Hs _]]]]]]. rewrite (Hsame _ _ Hd Hg) in Hs.
    contradiction. }
  apply falsy_str_false in Es.
  pose proof (validate_reset_token_unfold (strip s) env w) as Hv.
  match type of Hv with _ = Returns ?x _ => set (v := x) in Hv; clearbody v end.
  rewrite Hv. cbn [value_of].
  destruct v as [u|].
  - eexists. split; [reflexivity|]. simpl. rewrite Hno.
    split; [split; [discriminate|]|].
    { intros [mm [ss [Hd [Hg Hs]]]]. rewrite (Hsame _ _ Hd Hg) in Hs. contradiction. }
    split; [reflexivity|].
    intros e. split.
    + intros H. injection H as <-. exists members, s, u. auto.
    + intros [mm [ss [uu [Hd [Hg [_ [Hu <-]]]]]]].
      rewrite (Hsame _ _ Hd Hg) in Hu. rewrite Hv in Hu. now injection Hu as <-.
  - eexists. split; [reflexivity|]. simpl. rewrite Hno.
    split; [split; [discriminate|]|].
    { intros [mm [ss [Hd [Hg Hs]]]]. rewrite (Hsame _ _ Hd Hg) in Hs. contradiction. }
    split; [reflexivity|].
    intros e. split; [discriminate|].
    intros [mm [ss [uu [Hd [Hg [_ [Hu _]]]]]]].
    rewrite (Hsame _ _ Hd Hg) in Hu. rewrite Hv in Hu. discriminate Hu.
Qed.

Lemma reset_password_returns (token new_password : string) (env : Env) (w : World) :
  exists r w', reset_password token new_password env w = Returns r w'.
Proof.
  rewrite reset_password_unfold. cbv zeta.
  destruct (value_of (_validate_reset_token token env w)) as [[u|]|]; eauto.
  destruct (falsy_str (email u) || falsy_int (id u)); eauto.
  destruct (Z.of_nat (String.length new_password) <? 8); eauto.
  destruct (statement_raises env
              (UpdateUserPassword (generate_password_hash env new_password) (id u)));
    eauto.
Qed.

(** The route [/reset-password], branch by branch. *)
Lemma reset_route_unfold
      (untyped : string -> Json -> M Response) (body : option Json)
      (env : Env) (w : World) :
  AuthRoutes.reset_password untyped body env w =
  let failed e w0 :=
    Returns (mkHttpResponse [("error", JString "Internal server error")] 500)
            (logged (log_password_reset_completion_entry
                       "unknown" false (Some ("Reset endpoint error: " ++ e)%string)) w0) in
  if falsy (AuthRoutes.get_json body) then
    Returns (mkHttpResponse [("error", JString "No data provided")] 400) w
  else
    match AuthRoutes.get_json body with
    | JObject members =>
        match dict_get "token" members (JString "") with
        | JString s =>
            let new_password := dict_get "new_password" members (JString "") in
            if falsy_str (strip s) then
              Returns (mkHttpResponse [("error", JString "Reset token is required")] 400) w
            else if falsy new_password then
              Returns (mkHttpResponse [("error", JString "New password is required")] 400) w
            else
              match match new_password with
                    | JString p => reset_password (strip s) p
                    | v => untyped (strip s) v
                    end env w with
              | Returns (Success message) w1 =>
                  Returns (mkHttpResponse [("status", JString "success");
                                           ("message", JString message)] 200) w1
              | Returns (Error error) w1 =>
                  Returns (mkHttpResponse [("error", JString error)] 400) w1
              | Raises e w1 => failed e w1
              end
        | v => failed ("'" ++ type_name v ++ "' object has no attribute 'strip'")%string w
        end
    | v => failed ("'" ++ type_name v ++ "' object has no attribute 'get'")%string w
    end.
Proof.
  cbv zeta. unfold AuthRoutes.reset_password, try_except.
  destruct (falsy (AuthRoutes.get_json body)) eqn:Ef; [reflexivity|].
  destruct (AuthRoutes.get_json body) as [| | | | |items|members]; try reflexivity.
  unfold bind at 1. unfold AuthRoutes.get_stripped.
  destruct (dict_get "token" members (JString "")) as [| | | |s| |]; try reflexivity.
  unfold ret at 1. cbv beta iota.
  unfold bind at 1. unfold AuthRoutes.get_raw, ret at 1. cbv beta iota.
  destruct (falsy_str (strip s)); [reflexivity|].
  destruct (falsy (dict_get "new_password" members (JString ""))); [reflexivity|].
  unfold bind at 1.
  match goal with
  | |- context [match ?m env w with Returns _ _ => _ | Raises _ _ => _ end] =>
      destruct (m env w) as [[m0|e0] w1|e0 w1]; reflexivity
  end.
Qed.

(** X23. The route [/reset-password] checks its input before it calls the
    service: a missing or empty body, a token that is blank once stripped
    and a missing or empty new password are answered 400, each with its own
    message, and the world is left exactly as it was.  The token is checked
    before the password. *)
Theorem reset_route_rejects
        (untyped : string -> Json -> M Response) (body : option Json)
        (env : Env) (w : World) :
  (falsy (AuthRoutes.get_json body) = true ->
   AuthRoutes.reset_password untyped body env w
   = Returns (mkHttpResponse [("error", JString "No data provided")] 400) w) /\
  (forall members s,
      AuthRoutes.get_json body = JObject members -> members <> [] ->
      dict_get "token" members (JString "") = JString s ->
      (strip s = "" ->
       AuthRoutes.reset_password untyped body env w
       = Returns (mkHttpResponse [("error", JString "Reset token is required")] 400) w) /\
      (strip s <> "" ->
       falsy (dict_get "new_password" members (JString "")) = true ->
       AuthRoutes.reset_password untyped body env w
       = Returns (mkHttpResponse [("error", JString "New password is required")] 400) w)).
Proof.
  rewrite reset_route_unfold. cbv zeta. split.
  - intros Hf. rewrite Hf. reflexivity.
  - intros members s Hd Hne Hg.
    assert (Hf : falsy (JObject members) = false)
      by (destruct members; [contradiction|reflexivity]).
    rewrite Hd, Hf, Hg. split.
    + intros Hs. apply (proj2 (falsy_str_spec _)) in Hs. rewrite Hs. reflexivity.
    + intros Hs Hp. apply (proj2 (falsy_str_false _)) in Hs. rewrite Hs, Hp. reflexivity.
Qed.

(** X24. With a token that is not blank and a new password that is a
    non-empty string, the route [/reset-password] relays the service: it
    calls [reset_password] with the stripped token and the password as it
    was sent, not stripped, and answers 200 with the message when the
    service succeeds and 400 with the service's error otherwise, in the
    world the service left. *)
Theorem reset_route_relays
        (untyped : string -> Json -> M Response) (body : option Json)
        (env : Env) (w : World) (members : list (string * Json)) (s p : string) :
  AuthRoutes.get_json body = JObject members ->
  dict_get "token" members (JString "") = JString s -> strip s <> "" ->
  dict_get "new_password" members (JString "") = JString p -> p <> "" ->
  exists result w',
    reset_password (strip s) p env w = Returns result w' /\
    AuthRoutes.reset_password untyped body env w =
    Returns (match result with
             | Success message =>
                 mkHttpResponse [("status", JString "success");
                                 ("message", JString message)] 200
             | Error error => mkHttpResponse [("error", JString error)] 400
             end) w'.
Proof.
  intros Hd Hg Hs Hp Hne.
  assert (Hf : falsy (JObject members) = false).
  { destruct members; [|reflexivity]. simpl in Hg. injection Hg as <-.
    exfalso. apply Hs. reflexivity. }
  destruct (reset_password_returns (strip s) p env w) as [result [w' Hr]].
  exists result, w'. split; [exact Hr|].
  rewrite reset_route_unfold. cbv zeta. rewrite Hd, Hf, Hg, Hp.
  apply (proj2 (falsy_str_false _)) in Hs. rewrite Hs.
  assert (Hpf : falsy (JString p) = false) by (apply String.eqb_neq; exact Hne).
  rewrite Hpf, Hr. destruct result; reflexivity.
Qed.

(* ================================================================== *)
(** ** Further concrete runs *)

Import Scenarios.

(** X3: Alice asks again and the generator draws the token Bob holds. *)
Lemma store_reset_token_failure_witness :
  _store_reset_token 1 bob_token (no_faults 5000 7) both_pending
    = Returns false (mkWorld (mkDatabase [bob_row] [alice; bob] 2) [] []) /\
  tokens_of_user 1 (db (mkWorld (mkDatabase [bob_row] [alice; bob] 2) [] [])) = [].
Proof.
  split; [reflexivity|].
  destruct (store_reset_token_failure (no_faults 5000 7) both_pending _ 1 bob_token
                                      eq_refl) as [[_ Hc]|[Ht _]].
  - exfalso. apply Hc. reflexivity.
  - exact Ht.
Defined.

(** X4: a new token for Alice leaves Bob's row alone. *)
Lemma store_reset_token_frame_witness :
  2 <> 1 /\
  tokens_of_user 2 (db (world_of (_store_reset_token 1 "fresh-token" (no_faults 5000 0)
                                                     both_pending)))
    = [bob_row].
Proof.
  assert (Hne : 2 <> 1) by discriminate.
  split; [exact Hne|].
  rewrite (proj1 (store_reset_token_frame (no_faults 5000 0) both_pending 1 2
                                          "fresh-token" Hne)).
  reflexivity.
Defined.

(** X5: a password for a user id that does not exist. *)
Lemma update_user_password_effect_witness :
  _update_user_password 99 "pbkdf2$x" (no_faults 2000 0) alice_pending
    = Returns true alice_pending.
Proof.
  destruct (update_user_password_effect (no_faults 2000 0) alice_pending 99 "pbkdf2$x"
                                        eq_refl) as [w' [Hrun [_ [_ [_ [_ Hsame]]]]]].
  rewrite Hrun. f_equal. apply Hsame.
  intros u [<-|[<-|[]]]; discriminate.
Defined.

(** X6: Alice resets her password. *)
Lemma reset_password_success_witness :
  value_of (reset_password alice_token "long-enough" (no_faults 2000 0) alice_pending)
    = Some (Success "Password has been reset successfully") /\
  map u_password
      (users (db (world_of (reset_password alice_token "long-enough" (no_faults 2000 0)
                                           alice_pending))))
    = ["pbkdf2$long-enough"; "old-hash-b"].
Proof.
  assert (Hid : 1 <> 0) by discriminate.
  assert (Hemail : "alice@example.com" <> "") by discriminate.
  assert (Hlen : 8 <= Z.of_nat (String.length "long-enough")) by discriminate.
  destruct (reset_password_success
              alice_token "long-enough" (no_faults 2000 0) alice_pending
              (mkUser 1 "Alice" "alice@example.com")
              eq_refl Hemail Hid Hlen eq_refl eq_refl) as [w' [Hrun [Hdb _]]].
  rewrite Hrun. simpl. split; [reflexivity|]. rewrite Hdb. reflexivity.
Defined.

(** X7: the password is changed, the token is still good. *)
Lemma reset_password_mark_fails_witness :
  value_of (reset_password alice_token "long-enough" (mark_fails 2000) alice_pending)
    = Some (Success "Password has been reset successfully") /\
  value_of (_validate_reset_token alice_token (mark_fails 2000)
              (world_of (reset_password alice_token "long-enough" (mark_fails 2000)
                                        alice_pending)))
    = Some (Some (mkUser 1 "Alice" "alice@example.com")).
Proof.
  assert (Hid : 1 <> 0) by discriminate.
  assert (Hemail : "alice@example.com" <> "") by discriminate.
  assert (Hlen : 8 <= Z.of_nat (String.length "long-enough")) by discriminate.
  destruct (reset_password_mark_fails
              alice_token "long-enough" (mark_fails 2000) alice_pending
              (mkUser 1 "Alice" "alice@example.com") "database is locked"
              eq_refl Hemail Hid Hlen eq_refl eq_refl) as [w' [Hrun [_ [_ Hvalid]]]].
  rewrite Hrun. simpl. rewrite Hvalid. split; reflexivity.
Defined.

(** X9: an expired token. *)
Lemma reset_password_error_writes_nothing_witness :
  value_of (reset_password alice_token "long-enough" (no_faults 9999999999 0)
                           alice_pending)
    = Some (Error "Invalid or expired reset token") /\
  db (world_of (reset_password alice_token "long-enough" (no_faults 9999999999 0)
                               alice_pending))
    = db alice_pending.
Proof.
  split; [reflexivity|].
  exact (proj1 (reset_password_error_writes_nothing
                  alice_token "long-enough" (no_faults 9999999999 0) alice_pending
                  "Invalid or expired reset token" eq_refl)).
Defined.

(** X12: five rows are due, the delete raises. *)
Lemma cleanup_expired_tokens_failure_witness :
  cleanup_expired_tokens (sweep_fails swept_at) mixed_world = Returns 0 mixed_world.
Proof.
  apply cleanup_expired_tokens_failure. right. discriminate.
Defined.

(** X13: sweeping the mixed table twice. *)
Lemma cleanup_expired_tokens_twice_witness :
  cleanup_expired_tokens (no_faults swept_at 0)
    (world_of (cleanup_expired_tokens (no_faults swept_at 0) mixed_world))
  = Returns 0 (world_of (cleanup_expired_tokens (no_faults swept_at 0) mixed_world)).
Proof.
  exact (proj2 (cleanup_expired_tokens_twice (no_faults swept_at 0) (no_faults swept_at 0)
                  mixed_world eq_refl eq_refl eq_refl eq_refl (Z.le_refl _))).
Defined.

Lemma mixed_world_tokens_unique : tokens_unique (db mixed_world).
Proof.
  unfold tokens_unique. simpl.
  repeat (constructor; [simpl; intuition discriminate|]). constructor.
Defined.

(** X14: a valid row of the mixed table answers the same before and after
    the sweep. *)
Lemma cleanup_expired_tokens_keeps_answers_witness :
  value_of (_validate_reset_token "valid-1" (no_faults 15000 0)
              (world_of (cleanup_expired_tokens (no_faults swept_at 0) mixed_world)))
  = value_of (_validate_reset_token "valid-1" (no_faults 15000 0) mixed_world).
Proof.
  apply cleanup_expired_tokens_keeps_answers.
  - exact mixed_world_tokens_unique.
  - discriminate.
Defined.

(** X15: Alice asks for a reset and the console prints the mail. *)
Lemma request_password_reset_success_witness :
  PasswordResetService.request_password_reset "alice@example.com" (no_faults 1000 0)
                                              empty_world
    = Returns (Success generic_message)
        (mkWorld (mkDatabase [alice_row] [alice; bob] 1)
                 [mkEmail "alice@example.com" "Password Reset Request - User Auth API"
                          "Alice"
                          (Some "http://localhost:5000/reset-password?token=abcdefghijklmnopqrstuvwxyzABCDEF")]
                 [ log_email_sent_entry "alice@example.com" "console";
                   log_password_reset_request_entry "alice@example.com" true None ]).
Proof.
  assert (Hid : 1 <> 0) by discriminate.
  exact (proj1 (request_password_reset_success
                  "alice@example.com" (no_faults 1000 0) empty_world
                  (mkWorld (mkDatabase [alice_row] [alice; bob] 1) [] [])
                  (mkWorld (mkDatabase [alice_row] [alice; bob] 1)
                           [reset_mail (no_faults 1000 0) "alice@example.com"
                                       alice_token "Alice"]
                           [log_email_sent_entry "alice@example.com" "console"])
                  (mkUser 1 "Alice" "alice@example.com")
                  eq_refl Hid eq_refl eq_refl)).
Defined.

Lemma alice_pending_primary_key :
  ids_unique (db alice_pending) /\ sequence_bounds (db alice_pending).
Proof.
  split.
  - repeat constructor. simpl. tauto.
  - intros r [<-|[]]. simpl. discriminate.
Defined.

(** X18: after a request, a reset and a sweep the schema still holds. *)
Lemma run_keeps_schema_witness :
  well_formed
    (db (run [ (no_faults 5000 7, call_request_password_reset "bob@example.com");
               (no_faults 6000 0, call_reset_password alice_token "long-enough");
               (no_faults 7000 0, call_cleanup_expired_tokens) ]
             alice_pending)).
Proof.
  refine (proj2 (proj2 (proj2 (run_keeps_schema _ alice_pending
                                 (proj1 alice_pending_well_formed)
                                 (proj1 alice_pending_primary_key)
                                 (proj2 alice_pending_primary_key)))) _
                (proj1 (proj2 alice_pending_well_formed))
                (proj2 (proj2 alice_pending_well_formed))).
  repeat constructor.
Defined.

(** X20: an email of blanks is answered 400 and nothing is written. *)
Lemma request_route_rejects_witness :
  AuthRoutes.request_password_reset has_at (email_body "   ") (no_faults 1000 0)
                                    empty_world
    = Returns (mkHttpResponse [("error", JString "Email is required")] 400)
        (logged (log_password_reset_request_entry "unknown" false (Some "Email missing"))
                empty_world) /\
  db (logged (log_password_reset_request_entry "unknown" false (Some "Email missing"))
             empty_world) = db empty_world.
Proof.
  split; [reflexivity|].
  exact (proj1 (proj2 (request_route_rejects has_at (email_body "   ") (no_faults 1000 0)
                         empty_world _ _ eq_refl) eq_refl)).
Defined.

(** X24: Alice's token arrives with blanks around it, and so does her
    password. *)
Lemma reset_route_relays_witness :
  value_of (AuthRoutes.reset_password untyped
              (reset_body "  abcdefghijklmnopqrstuvwxyzABCDEF " "  long enough  ")
              (no_faults 2000 0) alice_pending)
    = Some (mkHttpResponse [("status", JString "success");
                            ("message", JString "Password has been reset successfully")]
                           200) /\
  map u_password
      (users (db (world_of (AuthRoutes.reset_password untyped
                              (reset_body "  abcdefghijklmnopqrstuvwxyzABCDEF " "  long enough  ")
                              (no_faults 2000 0) alice_pending))))
    = ["pbkdf2$  long enough  "; "old-hash-b"].
Proof.
  assert (Hs : strip "  abcdefghijklmnopqrstuvwxyzABCDEF " <> "") by discriminate.
  assert (Hp : "  long enough  " <> "") by discriminate.
  destruct (reset_route_relays untyped
              (reset_body "  abcdefghijklmnopqrstuvwxyzABCDEF " "  long enough  ")
              (no_faults 2000 0) alice_pending _ _ _ eq_refl eq_refl Hs eq_refl Hp)
    as [result [w' [Hservice Hroute]]].
  rewrite Hroute.
  assert (Hrun : reset_password (strip "  abcdefghijklmnopqrstuvwxyzABCDEF ") "  long enough  " (no_faults 2000 0) alice_pending
                 = Returns (Success "Password has been reset successfully")
                     (world_of (reset_password alice_token "  long enough  "
                                               (no_faults 2000 0) alice_pending)))
    by reflexivity.
  rewrite Hrun in Hservice. injection Hservice as <- <-.
  split; reflexivity.
Defined.

(* ================================================================== *)
(** ** Whitespace around an email or a token *)

(** X19. The routes look at an email or a token without the whitespace
    around it: a body whose token is padded with blanks, tabs or newlines is
    answered as the body with the bare token, a token of whitespace alone
    is answered as a missing one, and likewise for the email. *)
Theorem routes_ignore_padding
        (validate_email : string -> bool) (env : Env) (w : World)
        (members bare : list (string * Json)) (s : string) :
  (dict_get "token" members (JString "") = JString s ->
   dict_get "token" bare (JString "") = JString (strip s) ->
   members <> [] -> bare <> [] ->
   AuthRoutes.validate_reset_token (Some (JObject members)) env w
   = AuthRoutes.validate_reset_token (Some (JObject bare)) env w) /\
  (dict_get "email" members (JString "") = JString s ->
   dict_get "email" bare (JString "") = JString (strip s) ->
   members <> [] -> bare <> [] ->
   AuthRoutes.request_password_reset validate_email (Some (JObject members)) env w
   = AuthRoutes.request_password_reset validate_email (Some (JObject bare)) env w) /\
  (dict_get "token" members (JString "") = JString s ->
   Forall (fun c => isspace c = true) (list_ascii_of_string s) ->
   members <> [] ->
   AuthRoutes.validate_reset_token (Some (JObject members)) env w
   = Returns (mkHttpResponse [("error", JString "Reset token is required")] 400) w).
Proof.
  assert (Hf : forall l : list (string * Json), l <> [] -> falsy (JObject l) = false)
    by (intros l Hl; destruct l; [contradiction|reflexivity]).
  split; [|split].
  - intros Hm Hb Hne Hne'. rewrite !validate_route_unfold. simpl AuthRoutes.get_json.
    rewrite (Hf _ Hne), (Hf _ Hne'), Hm, Hb, strip_idempotent. reflexivity.
  - intros Hm Hb Hne Hne'. rewrite !request_route_unfold. cbv zeta.
    simpl AuthRoutes.get_json.
    rewrite (Hf _ Hne), (Hf _ Hne'), Hm, Hb, strip_idempotent. reflexivity.
  - intros Hm Hblank Hne. rewrite validate_route_unfold. simpl AuthRoutes.get_json.
    rewrite (Hf _ Hne), Hm. unfold strip. rewrite (lstrip_blank s Hblank).
    reflexivity.
Qed.

(* ================================================================== *)
(** ** The lifetime of a token *)

(** X25. A token lives one hour to the microsecond: once
    [_store_reset_token] has stored it for a user of the directory, a
    lookup that does not raise finds that user exactly when its clock is
    at most 3 600 000 000 microseconds past the clock of the issue. *)
Theorem issued_token_lifetime
        (email_ token : string) (env env' : Env) (w w' : World) (u : User) :
  find_by_email email_ env w = Returns (Some u) w ->
  _store_reset_token (id u) token env w = Returns true w' ->
  query_raises env' TokenUserRow (SelectTokenJoinUser token) = None ->
  ((exists u', _validate_reset_token token env' w' = Returns (Some u') w' /\
               id u' = id u) <->
   utcnow env' <= utcnow env + 3600000000) /\
  (_validate_reset_token token env' w' = Returns None w' <->
   utcnow env + 3600000000 < utcnow env').
Proof.
  intros Hfind Hstore Hq.
  assert (Hlate : utcnow env + 3600000000 < utcnow env' ->
                  _validate_reset_token token env' w' = Returns None w').
  { intros Hlt.
    pose proof (store_reset_token_stored env w w' (id u) token Hstore) as [Hfresh Hw'].
    rewrite validate_reset_token_unfold, Hq.
    destruct (hd_error (join_token_user token (db w'))) as [j|] eqn:Ej; [|reflexivity].
    destruct (join_token_user_hd _ _ _ Ej) as [r [row [Hr [Ht [_ [_ ->]]]]]].
    rewrite Hw' in Hr. simpl in Hr. apply in_app_iff in Hr.
    destruct Hr as [Hr|[<-|[]]].
    - exfalso. apply filter_In in Hr. destruct Hr as [Hr Hne].
      apply negb_true_iff in Hne. apply Z.eqb_neq in Hne.
      exact (Hfresh r Hr Hne Ht).
    - unfold user_if_valid. cbn [r_used r_expires_at prt_used prt_expires_at].
      match goal with
      | |- context [utcnow env' >? ?x] => destruct (utcnow env' >? x) eqn:Eg
      end; [reflexivity|].
      exfalso. rewrite Z.gtb_ltb in Eg. apply Z.ltb_ge in Eg.
      unfold timedelta_hours, token_expiry_hours in *. lia. }
  assert (Hearly : utcnow env' <= utcnow env + 3600000000 ->
                   exists u', _validate_reset_token token env' w' = Returns (Some u') w' /\
                              id u' = id u).
  { intros Hle. apply (issued_token_validates env env' w w' w' u email_ token); auto. }
  split; split.
  - intros [u' [Hv _]].
    destruct (Z_le_gt_dec (utcnow env') (utcnow env + 3600000000)) as [Hle|Hgt];
      [exact Hle|].
    rewrite Hlate in Hv by lia. discriminate.
  - exact Hearly.
  - intros Hn.
    destruct (Z_le_gt_dec (utcnow env') (utcnow env + 3600000000)) as [Hle|Hgt];
      [|lia].
    destruct (Hearly Hle) as [u' [Hv _]]. rewrite Hn in Hv. discriminate.
  - exact Hlate.
Qed.

(** X25: Alice's token at the last microsecond and at the next one. *)
Lemma issued_token_lifetime_witness :
  _store_reset_token 1 alice_token (no_faults 1000 0) empty_world
    = Returns true alice_pending /\
  _validate_reset_token alice_token (no_faults 3600001001 0) alice_pending
    = Returns None alice_pending.
Proof.
  split; [reflexivity|].
  refine (proj2 (proj2 (issued_token_lifetime
                          "alice@example.com" alice_token (no_faults 1000 0)
                          (no_faults 3600001001 0) empty_world alice_pending
                          (mkUser 1 "Alice" "alice@example.com")
                          eq_refl eq_refl eq_refl)) _).
  reflexivity.
Defined.

(** X19: Alice's token with blanks around it is answered as the bare
    token. *)
Lemma routes_ignore_padding_witness :
  AuthRoutes.validate_reset_token
    (Some (JObject [("token", JString "  abcdefghijklmnopqrstuvwxyzABCDEF ")]))
    (no_faults 2000 0) alice_pending
  = AuthRoutes.validate_reset_token
      (Some (JObject [("token", JString alice_token)]))
      (no_faults 2000 0) alice_pending.
Proof.
  apply (proj1 (routes_ignore_padding
                  has_at (no_faults 2000 0) alice_pending
                  [("token", JString "  abcdefghijklmnopqrstuvwxyzABCDEF ")]
                  [("token", JString alice_token)]
                  "  abcdefghijklmnopqrstuvwxyzABCDEF "));
    [reflexivity | reflexivity | discriminate | discriminate].
Defined.

(** X23: a good token and an empty password. *)
Lemma reset_route_rejects_witness :
  AuthRoutes.reset_password untyped (reset_body alice_token "")
                            (no_faults 2000 0) alice_pending
  = Returns (mkHttpResponse [("error", JString "New password is required")] 400)
            alice_pending.
Proof.
  assert (Hne : [("token", JString alice_token); ("new_password", JString "")] <> [])
    by discriminate.
  assert (Hs : strip alice_token <> "") by discriminate.
  exact (proj2 (proj2 (reset_route_rejects untyped (reset_body alice_token "")
                                           (no_faults 2000 0) alice_pending)
                      _ alice_token eq_refl Hne eq_refl)
               Hs eq_refl).
Defined.

(* ================================================================== *)
(** ** A lookup that raises *)

(** X26. A database error in the lookup reads as an invalid token: when
    the [SELECT] raises, [_validate_reset_token] returns [None],
    [validate_reset_token] reports the token invalid and [reset_password]
    answers "Invalid or expired reset token", whatever the table holds, and
    the database and the outbox are left as they were. *)
Theorem lookup_fault_reads_as_invalid
        (token new_password : string) (env : Env) (w : World) (e : string) :
  query_raises env TokenUserRow (SelectTokenJoinUser token) = Some e ->
  _validate_reset_token token env w = Returns None w /\
  validate_reset_token token env w = Returns Invalid w /\
  exists w',
    reset_password token new_password env w
      = Returns (Error "Invalid or expired reset token") w' /\
    db w' = db w /\ outbox w' = outbox w.
Proof.
  intros Hq.
  assert (Hv : _validate_reset_token token env w = Returns None w)
    by (rewrite validate_reset_token_unfold, Hq; reflexivity).
  split; [exact Hv|]. split.
  - rewrite validate_reset_token_returns, Hv. reflexivity.
  - rewrite reset_password_unfold, Hv. cbn [value_of]. cbv zeta.
    eexists. split; [reflexivity|]. split; reflexivity.
Qed.

(** X26: Alice's good token while the database is locked. *)
Lemma lookup_fault_reads_as_invalid_witness :
  validate_reset_token alice_token (no_faults 2000 0) alice_pending
    = Returns (Valid "alice@example.com") alice_pending /\
  validate_reset_token alice_token (lookup_fails 2000) alice_pending
    = Returns Invalid alice_pending.
Proof.
  split; [reflexivity|].
  exact (proj1 (proj2 (lookup_fault_reads_as_invalid
                         alice_token "long enough" (lookup_fails 2000) alice_pending
                         "database is locked" eq_refl))).
Defined.

(* ================================================================== *)
(** ** A request whose token cannot be stored *)

(** X27. When [_store_reset_token] returns [False] for an existing user,
    [request_password_reset] answers "Failed to process password reset
    request" and sends no mail, yet the user's earlier token may be gone:
    either the world is as the request found it, or the user is left with
    no token row at all. *)
Theorem request_password_reset_store_fails
        (email_ : string) (env : Env) (w w1 : World) (u : User) :
  find_by_email email_ env w = Returns (Some u) w ->
  id u <> 0 ->
  _store_reset_token (id u) (generated_token env) env w = Returns false w1 ->
  PasswordResetService.request_password_reset email_ env w
    = Returns (Error "Failed to process password reset request")
              (logged (log_password_reset_request_entry
                         email_ false (Some "Failed to store token")) w1) /\
  outbox w1 = outbox w /\
  users (db w1) = users (db w) /\
  (w1 = w \/ tokens_of_user (id u) (db w1) = []).
Proof.
  intros Hfind Hid Hstore.
  split.
  - unfold PasswordResetService.request_password_reset, try_except.
    unfold bind at 1. rewrite Hfind.
    apply falsy_int_false in Hid. rewrite Hid.
    unfold bind at 1. rewrite generate_reset_token_returns.
    unfold bind at 1. rewrite Hstore. reflexivity.
  - destruct (store_reset_token_cases env w (id u) (generated_token env))
      as [H|[H|H]]; rewrite H in Hstore; [| |discriminate];
      injection Hstore as <-.
    + repeat split. now left.
    + repeat split. right. unfold tokens_of_user. simpl.
      apply filter_all_false. intros r Hr. apply filter_In in Hr.
      destruct Hr as [_ Hr]. now apply negb_true_iff in Hr.
Qed.

(** X27: Alice asks again, the generator draws the token Bob holds, and
    her pending token is lost. *)
Lemma request_password_reset_store_fails_witness :
  value_of (PasswordResetService.request_password_reset
              "alice@example.com" (no_faults 5000 7) both_pending)
    = Some (Error "Failed to process password reset request") /\
  password_reset_tokens
    (db (world_of (PasswordResetService.request_password_reset
                     "alice@example.com" (no_faults 5000 7) both_pending)))
    = [bob_row].
Proof.
  assert (Hid : id (mkUser 1 "Alice" "alice@example.com") <> 0) by discriminate.
  rewrite (proj1 (request_password_reset_store_fails
                    "alice@example.com" (no_faults 5000 7) both_pending
                    (mkWorld (mkDatabase [bob_row] [alice; bob] 2) [] [])
                    (mkUser 1 "Alice" "alice@example.com")
                    eq_refl Hid eq_refl)).
  split; reflexivity.
Defined.
